(** * ChronoX: calendar values, ISO parsing, formatting cache, arithmetic

    A shallow embedding of the TypeScript sources

      - [src/utils/validation.ts]   calendar rules, [padZero],
                                    [isValidISOString]
      - [src/utils/constants.ts]    millisecond factors, name tables,
                                    [TIMEZONE_OFFSETS]
      - [src/core/ChronoDate.ts]    the immutable value and its factories,
                                    [cloneDate]
      - [src/core/arithmetic.ts]    the adders, [addDuration],
                                    [subtractDuration]
      - [src/core/comparison.ts]    ordering, [isSame], [isBetween], [diff],
                                    [diffAbs], [min], [max]
      - [src/core/factory.ts]       [createDate], [isValid], [startOfDay],
                                    [endOfDay]
      - [src/parse/iso.ts]          [parseISO]
      - [src/format/tokens.ts] and the format engine that imports it
        ([compileFormatter], [format], the cache)
      - [src/relative]              [formatRelativeTime],
                                    [formatShortRelativeTime],
                                    [formatDistance]
      - [src/timezone]              [getTimezoneOffset]

    JavaScript numbers that hold integers are modelled as [Z]; a number that
    may be [NaN] (a time value, a timestamp) is an [option Z] with [None] for
    [NaN].  Exceptions are modelled by the [result] type.  The host [Date]
    object is modelled after the abstract operations of ECMA-262, section
    "Date Objects", in module [JSDate]. *)

From stdpp Require Import gmap strings.
From Stdlib Require Import ZArith Lia Ascii String List Bool DecimalString.
From Stdlib Require DecimalPos.
Import ListNotations.
Open Scope Z_scope.

(** ** Exceptions *)

(** The classes of [src/types.ts] ([ChronoError] and its subclasses) and the
    host's plain [Error].  The message keeps the fixed part of the template
    string; interpolated values are left out. *)
Inductive error : Type :=
| ChronoError (msg : string)
| ParseError (msg : string)
| FormatError (msg : string)
| Error (msg : string).

Inductive result (A : Type) : Type :=
| Ok (a : A)
| Throw (e : error).
Arguments Ok {A} a.
Arguments Throw {A} e.

Definition bind {A B} (r : result A) (k : A -> result B) : result B :=
  match r with
  | Ok a => k a
  | Throw e => Throw e
  end.

Notation "x <- r ;; k" := (bind r (fun x => k))
  (at level 100, r at next level, right associativity).

(** ** JavaScript numbers that may be NaN *)

(** The arithmetic below is exact on [Z].  The host computes on doubles,
    which agree with it as long as operands and results are safe integers
    (magnitude at most 2^53 - 1); the difference of two timestamps of the
    time range can be larger, and the host then rounds it to a multiple of
    two.  Statements whose result depends on the exact value of such a
    difference carry the bound ([safe_integer]). *)
Definition number := option Z.

Definition NaN : number := None.

Definition num_lt (a b : number) : bool :=
  match a, b with
  | Some x, Some y => x <? y
  | _, _ => false
  end.

Definition num_gt (a b : number) : bool := num_lt b a.

Definition num_le (a b : number) : bool :=
  match a, b with
  | Some x, Some y => x <=? y
  | _, _ => false
  end.

Definition num_eq (a b : number) : bool :=
  match a, b with
  | Some x, Some y => x =? y
  | _, _ => false
  end.

Definition num_sub (a b : number) : number :=
  match a, b with
  | Some x, Some y => Some (x - y)
  | _, _ => None
  end.

Definition num_add (a b : number) : number :=
  match a, b with
  | Some x, Some y => Some (x + y)
  | _, _ => None
  end.

Definition num_abs (a : number) : number := option_map Z.abs a.

(** [Math.floor(a / k)] for a positive integer constant [k]. *)
Definition num_floor_div (a : number) (k : Z) : number :=
  option_map (fun x => x / k) a.

(** ** src/utils/constants.ts *)

Definition MILLISECONDS_IN_SECOND : Z := 1000.
Definition MILLISECONDS_IN_MINUTE : Z := 60 * MILLISECONDS_IN_SECOND.
Definition MILLISECONDS_IN_HOUR : Z := 60 * MILLISECONDS_IN_MINUTE.
Definition MILLISECONDS_IN_DAY : Z := 24 * MILLISECONDS_IN_HOUR.
Definition MILLISECONDS_IN_WEEK : Z := 7 * MILLISECONDS_IN_DAY.

(** ** src/utils/validation.ts *)

(** [%] is the JavaScript remainder, which takes the sign of the dividend:
    [Z.rem]. *)
Definition isLeapYear (year : Z) : bool :=
  ((Z.rem year 4 =? 0) && negb (Z.rem year 100 =? 0)) || (Z.rem year 400 =? 0).

Definition daysInMonth_table : list Z :=
  [31; 28; 31; 30; 31; 30; 31; 31; 30; 31; 30; 31].

(** [daysInMonth[month - 1] || 0]: an index outside the array reads
    [undefined], which [||] turns into [0]. *)
Definition getDaysInMonth (year month : Z) : Z :=
  if (month =? 2) && isLeapYear year then 29
  else if month - 1 <? 0 then 0
  else nth (Z.to_nat (month - 1)) daysInMonth_table 0.

Definition isValidDate (year month day : Z) : bool :=
  if (month <? 1) || (month >? 12) then false
  else if day <? 1 then false
  else day <=? getDaysInMonth year month.

Definition isValidTime (hour minute second millisecond : Z) : bool :=
  (hour >=? 0) && (hour <=? 23) &&
  (minute >=? 0) && (minute <=? 59) &&
  (second >=? 0) && (second <=? 59) &&
  (millisecond >=? 0) && (millisecond <=? 999).


(** ** Strings *)

(** [Number.prototype.toString()] on an integer: decimal digits with a
    leading [-] for a negative value.  These are the digits the host writes
    for every safe integer; from 1e21 on the host writes exponent
    notation. *)
Definition Z_toString (n : Z) : string := NilZero.string_of_int (Z.to_int n).

Definition num_toString (n : number) : string :=
  match n with
  | Some z => Z_toString z
  | None => "NaN"
  end.

Fixpoint repeat_char (c : ascii) (n : nat) : string :=
  match n with
  | O => EmptyString
  | S k => String c (repeat_char c k)
  end.

(** [s.padStart(length, c)] and [s.padEnd(length, c)] for a one-character
    filler. *)
Definition padStart (s : string) (length : nat) (c : ascii) : string :=
  repeat_char c (length - String.length s) +:+ s.

Definition padEnd (s : string) (length : nat) (c : ascii) : string :=
  s +:+ repeat_char c (length - String.length s).

(** [s.split(sep)] for a one-character separator. *)
Fixpoint split (sep : ascii) (s : string) : list string :=
  match s with
  | EmptyString => [EmptyString]
  | String c s' =>
      if Ascii.eqb c sep then EmptyString :: split sep s'
      else match split sep s' with
           | hd :: tl => String c hd :: tl
           | [] => [String c EmptyString]
           end
  end.

Definition endsWith (s : string) (c : ascii) : bool :=
  match String.length s with
  | O => false
  | S k => String.eqb (substring k 1 s) (String c EmptyString)
  end.

(** [s.slice(0, -k)]. *)
Definition slice_drop_last (s : string) (k : nat) : string :=
  substring 0 (String.length s - k) s.

(** [\d] *)
Definition isDigit (c : ascii) : bool :=
  (48 <=? nat_of_ascii c)%nat && (nat_of_ascii c <=? 57)%nat.

Fixpoint allDigits (s : string) : bool :=
  match s with
  | EmptyString => true
  | String c s' => isDigit c && allDigits s'
  end.

(** [parseInt(s, 10)] on a non-empty string of decimal digits. *)
Fixpoint parseInt_acc (s : string) (acc : Z) : Z :=
  match s with
  | EmptyString => acc
  | String c s' => parseInt_acc s' (10 * acc + (Z.of_nat (nat_of_ascii c) - 48))
  end.

Definition parseInt (s : string) : Z := parseInt_acc s 0.

(** No character of [s] is [c]. *)
Fixpoint noChar (c : ascii) (s : string) : bool :=
  match s with
  | EmptyString => true
  | String a s' => negb (Ascii.eqb a c) && noChar c s'
  end.

(** [s] is made of exactly [n] decimal digits. *)
Definition digits (n : nat) (s : string) : Prop :=
  String.length s = n /\ allDigits s = true.

(** [padZero(num, length)] of [src/utils/validation.ts]. *)
Definition padZero (num : Z) (length : nat) : string :=
  padStart (Z_toString num) length "0".

(** ** The host Date object (ECMA-262, Date Objects) *)

Module JSDate.

Definition msPerDay : Z := 86400000.
Definition msPerHour : Z := 3600000.
Definition msPerMinute : Z := 60000.
Definition msPerSecond : Z := 1000.

Definition Day (t : Z) : Z := t / msPerDay.
Definition TimeWithinDay (t : Z) : Z := t mod msPerDay.

Definition DaysInYear (y : Z) : Z :=
  if negb (y mod 4 =? 0) then 365
  else if negb (y mod 100 =? 0) then 366
  else if negb (y mod 400 =? 0) then 365
  else 366.

Definition DayFromYear (y : Z) : Z :=
  365 * (y - 1970) + (y - 1969) / 4 - (y - 1901) / 100 + (y - 1601) / 400.

Definition TimeFromYear (y : Z) : Z := msPerDay * DayFromYear y.

(** The largest [y] with [DayFromYear y <= d].  The mean Gregorian year has
    146097/400 days, which gives an estimate at most one year off. *)
Definition YearFromDay (d : Z) : Z :=
  let y0 := 1970 + (400 * d) / 146097 in
  if d <? DayFromYear y0 then y0 - 1
  else if DayFromYear (y0 + 1) <=? d then y0 + 1
  else y0.

Definition YearFromTime (t : Z) : Z := YearFromDay (Day t).

(** 1 for a year of 366 days, 0 for a year of 365. *)
Definition leapDay (y : Z) : Z := if DaysInYear y =? 366 then 1 else 0.

Definition InLeapYear (t : Z) : Z := leapDay (YearFromTime t).

Definition DayWithinYear (t : Z) : Z :=
  Day t - DayFromYear (YearFromTime t).

Definition MonthFromTime (t : Z) : Z :=
  let d := DayWithinYear t in
  let l := InLeapYear t in
  if d <? 31 then 0
  else if d <? 59 + l then 1
  else if d <? 90 + l then 2
  else if d <? 120 + l then 3
  else if d <? 151 + l then 4
  else if d <? 181 + l then 5
  else if d <? 212 + l then 6
  else if d <? 243 + l then 7
  else if d <? 273 + l then 8
  else if d <? 304 + l then 9
  else if d <? 334 + l then 10
  else 11.

Definition DateFromTime (t : Z) : Z :=
  let d := DayWithinYear t in
  let l := InLeapYear t in
  match MonthFromTime t with
  | 0 => d + 1
  | 1 => d - 30
  | 2 => d - 58 - l
  | 3 => d - 89 - l
  | 4 => d - 119 - l
  | 5 => d - 150 - l
  | 6 => d - 180 - l
  | 7 => d - 211 - l
  | 8 => d - 242 - l
  | 9 => d - 272 - l
  | 10 => d - 303 - l
  | _ => d - 333 - l
  end.

Definition WeekDay (t : Z) : Z := (Day t + 4) mod 7.

Definition HourFromTime (t : Z) : Z := (t / msPerHour) mod 24.
Definition MinFromTime (t : Z) : Z := (t / msPerMinute) mod 60.
Definition SecFromTime (t : Z) : Z := (t / msPerSecond) mod 60.
Definition msFromTime (t : Z) : Z := t mod msPerSecond.

Definition MakeTime (hour min sec ms : Z) : Z :=
  hour * msPerHour + min * msPerMinute + sec * msPerSecond + ms.

(** Days from the start of year [y] to the start of month [mn] (0-11). *)
Definition DaysBeforeMonth (y mn : Z) : Z :=
  let l := leapDay y in
  match mn with
  | 0 => 0
  | 1 => 31
  | 2 => 59 + l
  | 3 => 90 + l
  | 4 => 120 + l
  | 5 => 151 + l
  | 6 => 181 + l
  | 7 => 212 + l
  | 8 => 243 + l
  | 9 => 273 + l
  | 10 => 304 + l
  | _ => 334 + l
  end.

(** [MakeDay]: the day number of the first of month [month mod 12] in year
    [year + floor(month / 12)], plus [date - 1]. *)
Definition MakeDay (year month date : Z) : Z :=
  let ym := year + month / 12 in
  let mn := month mod 12 in
  DayFromYear ym + DaysBeforeMonth ym mn + date - 1.

Definition MakeDate (day time : Z) : Z := day * msPerDay + time.

Definition maxTime : Z := 8640000000000000.

Definition TimeClip (t : Z) : number :=
  if Z.abs t >? maxTime then NaN else Some t.

(** [MakeFullYear]: a year 0..99 stands for 1900 + year. *)
Definition MakeFullYear (y : Z) : Z :=
  if (0 <=? y) && (y <=? 99) then 1900 + y else y.

(** [Date.UTC(year, month, date, hours, minutes, seconds, ms)]. *)
Definition UTC (year month date hours minutes seconds ms : Z) : number :=
  let yr := MakeFullYear year in
  TimeClip (MakeDate (MakeDay yr month date)
                     (MakeTime hours minutes seconds ms)).

(** A Date object is its time value, the [[DateValue]] slot. *)
Definition Date := number.

(** [new Date(value)] for a number. *)
Definition new_Date (value : number) : Date :=
  match value with
  | Some t => TimeClip t
  | None => NaN
  end.

Definition getTime (d : Date) : number := d.

Definition getUTCFullYear (d : Date) : number := option_map YearFromTime d.
Definition getUTCMonth (d : Date) : number := option_map MonthFromTime d.
Definition getUTCDate (d : Date) : number := option_map DateFromTime d.
Definition getUTCDay (d : Date) : number := option_map WeekDay d.
Definition getUTCHours (d : Date) : number := option_map HourFromTime d.
Definition getUTCMinutes (d : Date) : number := option_map MinFromTime d.
Definition getUTCSeconds (d : Date) : number := option_map SecFromTime d.
Definition getUTCMilliseconds (d : Date) : number := option_map msFromTime d.

(** [setUTCDate(date)]: the object after the call. *)
Definition setUTCDate (d : Date) (date : number) : Date :=
  match d, date with
  | Some t, Some dt =>
      TimeClip (MakeDate (MakeDay (YearFromTime t) (MonthFromTime t) dt)
                         (TimeWithinDay t))
  | _, _ => NaN
  end.

(** [setUTCMonth(month)] with the date argument absent. *)
Definition setUTCMonth (d : Date) (month : number) : Date :=
  match d, month with
  | Some t, Some m =>
      TimeClip (MakeDate (MakeDay (YearFromTime t) m (DateFromTime t))
                         (TimeWithinDay t))
  | _, _ => NaN
  end.

End JSDate.

(** ** src/core/ChronoDate.ts *)

Record ChronoDate : Type := mkChronoDate {
  year : Z;
  month : Z;
  day : Z;
  hour : Z;
  minute : Z;
  second : Z;
  millisecond : Z;
  timestamp : number;
  timezone : string
}.

(** [new ChronoDateImpl(year, month, day, hour, minute, second, millisecond,
    timezone)]: validates, stores the fields, and derives [timestamp] through
    [Date.UTC(year, month - 1, day, ...)]. *)
Definition ChronoDateImpl (year month day hour minute second millisecond : Z)
    (timezone : string) : result ChronoDate :=
  if negb (isValidDate year month day) then
    Throw (ChronoError "Invalid date")
  else if negb (isValidTime hour minute second millisecond) then
    Throw (ChronoError "Invalid time")
  else
    let date :=
      JSDate.new_Date
        (JSDate.UTC year (month - 1) day hour minute second millisecond) in
    Ok (mkChronoDate year month day hour minute second millisecond
          (JSDate.getTime date) timezone).

Definition toNative (d : ChronoDate) : JSDate.Date :=
  JSDate.new_Date (timestamp d).

Definition toISOString (d : ChronoDate) : string :=
  let date :=
    padZero (year d) 4 +:+ "-" +:+ padZero (month d) 2 +:+ "-" +:+
    padZero (day d) 2 in
  let time :=
    padZero (hour d) 2 +:+ ":" +:+ padZero (minute d) 2 +:+ ":" +:+
    padZero (second d) 2 in
  let ms :=
    if millisecond d >? 0 then "." +:+ padZero (millisecond d) 3 else "" in
  date +:+ "T" +:+ time +:+ ms +:+ "Z".

(** [dateFromNative(date, timezone)].  The getters of an invalid Date return
    [NaN]; [isValidDate(NaN, NaN, NaN)] is [false] because [NaN <= 0] is, so
    the constructor throws its "Invalid date" error. *)
Definition dateFromNative (date : JSDate.Date) (timezone : string)
    : result ChronoDate :=
  match date with
  | Some t =>
      ChronoDateImpl
        (JSDate.YearFromTime t)
        (JSDate.MonthFromTime t + 1)
        (JSDate.DateFromTime t)
        (JSDate.HourFromTime t)
        (JSDate.MinFromTime t)
        (JSDate.SecFromTime t)
        (JSDate.msFromTime t)
        timezone
  | None => Throw (ChronoError "Invalid date")
  end.

Definition dateFromTimestamp (timestamp : number) (timezone : string)
    : result ChronoDate :=
  dateFromNative (JSDate.new_Date timestamp) timezone.

Definition dateFromComponents
    (year month day hour minute second millisecond : Z) (timezone : string)
    : result ChronoDate :=
  ChronoDateImpl year month day hour minute second millisecond timezone.

(** ** src/core/arithmetic.ts *)

Definition addDays (date : ChronoDate) (days : Z) : result ChronoDate :=
  let native := toNative date in
  let native :=
    JSDate.setUTCDate native (num_add (JSDate.getUTCDate native) (Some days)) in
  dateFromNative native (timezone date).

Definition addMonths (date : ChronoDate) (months : Z) : result ChronoDate :=
  let native := toNative date in
  let native :=
    JSDate.setUTCMonth native
      (num_add (JSDate.getUTCMonth native) (Some months)) in
  dateFromNative native (timezone date).

(** ** src/core/comparison.ts *)

Inductive Unit : Type :=
| UYear | UMonth | UWeek | UDay | UHour | UMinute | USecond | UMillisecond.

Definition isBefore (date1 date2 : ChronoDate) : bool :=
  num_lt (timestamp date1) (timestamp date2).

Definition isAfter (date1 date2 : ChronoDate) : bool :=
  num_gt (timestamp date1) (timestamp date2).

Definition isSame (date1 date2 : ChronoDate) (unit : Unit) : bool :=
  match unit with
  | UYear => year date1 =? year date2
  | UMonth => (year date1 =? year date2) && (month date1 =? month date2)
  | UDay =>
      (year date1 =? year date2) && (month date1 =? month date2) &&
      (day date1 =? day date2)
  | UHour =>
      (year date1 =? year date2) && (month date1 =? month date2) &&
      (day date1 =? day date2) && (hour date1 =? hour date2)
  | UMinute =>
      (year date1 =? year date2) && (month date1 =? month date2) &&
      (day date1 =? day date2) && (hour date1 =? hour date2) &&
      (minute date1 =? minute date2)
  | USecond =>
      (year date1 =? year date2) && (month date1 =? month date2) &&
      (day date1 =? day date2) && (hour date1 =? hour date2) &&
      (minute date1 =? minute date2) && (second date1 =? second date2)
  | UMillisecond => num_eq (timestamp date1) (timestamp date2)
  | UWeek =>
      let diff := num_abs (num_sub (timestamp date1) (timestamp date2)) in
      let weeksDiff := num_floor_div diff MILLISECONDS_IN_WEEK in
      num_eq weeksDiff (Some 0)
  end.

(** The subtraction and the month count are exact here; the host rounds them
    once they exceed 2^53. *)
Definition diff (date1 date2 : ChronoDate) (unit : Unit) : number :=
  let msDiff := num_sub (timestamp date2) (timestamp date1) in
  match unit with
  | UMillisecond => msDiff
  | USecond => num_floor_div msDiff MILLISECONDS_IN_SECOND
  | UMinute => num_floor_div msDiff MILLISECONDS_IN_MINUTE
  | UHour => num_floor_div msDiff MILLISECONDS_IN_HOUR
  | UDay => num_floor_div msDiff MILLISECONDS_IN_DAY
  | UWeek => num_floor_div msDiff MILLISECONDS_IN_WEEK
  | UMonth =>
      let months :=
        (year date2 - year date1) * 12 + (month date2 - month date1) in
      Some (if day date2 <? day date1 then months - 1 else months)
  | UYear =>
      let years := year date2 - year date1 in
      Some (if (month date2 <? month date1) ||
               ((month date2 =? month date1) && (day date2 <? day date1))
            then years - 1 else years)
  end.

(** [dates.reduce(f)] without an initial value: the first element seeds the
    accumulator. *)
Definition reduce {A} (f : A -> A -> A) (first : A) (rest : list A) : A :=
  fold_left f rest first.

Definition min (dates : list ChronoDate) : result ChronoDate :=
  match dates with
  | [] => Throw (Error "Cannot find minimum of empty array")
  | first :: rest =>
      Ok (reduce (fun earliest current =>
                    if isBefore current earliest then current else earliest)
                 first rest)
  end.

Definition max (dates : list ChronoDate) : result ChronoDate :=
  match dates with
  | [] => Throw (Error "Cannot find maximum of empty array")
  | first :: rest =>
      Ok (reduce (fun latest current =>
                    if isAfter current latest then current else latest)
                 first rest)
  end.


(** ** src/parse/iso.ts *)

(** [/^(\d{4})-(\d{2})-(\d{2})$/]: the three captured groups. *)
Definition match_date (s : string) : option (string * string * string) :=
  match s with
  | String y1 (String y2 (String y3 (String y4 (String h1
      (String m1 (String m2 (String h2
        (String d1 (String d2 EmptyString))))))))) =>
      if isDigit y1 && isDigit y2 && isDigit y3 && isDigit y4 &&
         Ascii.eqb h1 "-" && isDigit m1 && isDigit m2 &&
         Ascii.eqb h2 "-" && isDigit d1 && isDigit d2
      then Some (String y1 (String y2 (String y3 (String y4 EmptyString))),
                 String m1 (String m2 EmptyString),
                 String d1 (String d2 EmptyString))
      else None
  | _ => None
  end.

(** [/([+-]\d{2}:\d{2})$/]: the captured suffix. *)
Definition match_tz (s : string) : option string :=
  let n := String.length s in
  if (n <? 6)%nat then None
  else
    match substring (n - 6) 6 s with
    | String sg (String h1 (String h2 (String c (String m1
        (String m2 EmptyString))))) as suffix =>
        if (Ascii.eqb sg "+" || Ascii.eqb sg "-") &&
           isDigit h1 && isDigit h2 && Ascii.eqb c ":" &&
           isDigit m1 && isDigit m2
        then Some suffix else None
    | _ => None
    end.

(** [/^(\d{2}):(\d{2}):(\d{2})(?:\.(\d{1,3}))?$/]: the three mandatory groups
    and the optional fraction. *)
Definition match_time (s : string)
    : option (string * string * string * option string) :=
  match s with
  | String h1 (String h2 (String c1 (String m1 (String m2 (String c2
      (String s1 (String s2 rest))))))) =>
      if isDigit h1 && isDigit h2 && Ascii.eqb c1 ":" &&
         isDigit m1 && isDigit m2 && Ascii.eqb c2 ":" &&
         isDigit s1 && isDigit s2
      then
        let groups :=
          (String h1 (String h2 EmptyString),
           String m1 (String m2 EmptyString),
           String s1 (String s2 EmptyString)) in
        match rest with
        | EmptyString => Some (groups, None)
        | String dot frac =>
            if Ascii.eqb dot "." && allDigits frac &&
               (1 <=? String.length frac)%nat && (String.length frac <=? 3)%nat
            then Some (groups, Some frac) else None
        end
      else None
  | _ => None
  end.

Definition parseISO (isoString : string) : result ChronoDate :=
  if String.eqb isoString "" then
    Throw (ParseError "Invalid input: expected ISO 8601 string")
  else
    let parts := split "T" isoString in
    if (List.length parts =? 0)%nat || (2 <? List.length parts)%nat then
      Throw (ParseError "Invalid ISO 8601 format")
    else
      let datePart := nth 0 parts "" in
      let timePart :=
        match nth_error parts 1 with
        | Some p => if String.eqb p "" then "00:00:00" else p
        | None => "00:00:00"
        end in
      match match_date datePart with
      | None => Throw (ParseError "Invalid date format")
      | Some (y, m, d) =>
          let year := parseInt y in
          let month := parseInt m in
          let day := parseInt d in
          if negb (isValidDate year month day) then
            Throw (ParseError "Invalid date")
          else
            let '(timeStr, timezone) :=
              if endsWith timePart "Z" then
                (slice_drop_last timePart 1, "UTC")
              else
                match match_tz timePart with
                | Some tz => (slice_drop_last timePart 6, tz)
                | None => (timePart, "UTC")
                end in
            match match_time timeStr with
            | None => Throw (ParseError "Invalid time format")
            | Some (h, mi, sec, frac) =>
                let hour := parseInt h in
                let minute := parseInt mi in
                let second := parseInt sec in
                let millisecond :=
                  match frac with
                  | Some f => parseInt (padEnd f 3 "0")
                  | None => 0
                  end in
                if negb (isValidTime hour minute second millisecond) then
                  Throw (ParseError "Invalid time")
                else
                  dateFromComponents year month day hour minute second
                    millisecond timezone
            end
      end.

(** ** src/utils/constants.ts: name tables *)

Definition MONTH_NAMES : list string :=
  ["January"; "February"; "March"; "April"; "May"; "June"; "July"; "August";
   "September"; "October"; "November"; "December"].

Definition MONTH_NAMES_SHORT : list string :=
  ["Jan"; "Feb"; "Mar"; "Apr"; "May"; "Jun"; "Jul"; "Aug"; "Sep"; "Oct";
   "Nov"; "Dec"].

Definition DAY_NAMES : list string :=
  ["Sunday"; "Monday"; "Tuesday"; "Wednesday"; "Thursday"; "Friday";
   "Saturday"].

Definition DAY_NAMES_SHORT : list string :=
  ["Sun"; "Mon"; "Tue"; "Wed"; "Thu"; "Fri"; "Sat"].

(** ** src/format/tokens.ts *)

Definition TokenHandler : Type := ChronoDate -> string.

Definition getDayOfWeek (date : ChronoDate) : number :=
  JSDate.getUTCDay (toNative date).

(** [names[i] || '']: an index that is [NaN] or outside the array reads
    [undefined]. *)
Definition name_at (names : list string) (i : number) : string :=
  match i with
  | Some z => if z <? 0 then "" else nth (Z.to_nat z) names ""
  | None => ""
  end.

(** [hour % 12 || 12] *)
Definition hour12 (hour : Z) : Z :=
  let r := Z.rem hour 12 in if r =? 0 then 12 else r.

(** [s.replace(c, '')]: removes the first occurrence only. *)
Fixpoint remove_first (c : ascii) (s : string) : string :=
  match s with
  | EmptyString => EmptyString
  | String a s' => if Ascii.eqb a c then s' else String a (remove_first c s')
  end.

(** The object literal, in insertion order. *)
Definition TOKEN_HANDLERS : list (string * TokenHandler) :=
  [ ("YYYY", fun date => padZero (year date) 4);
    ("YY", fun date => padZero (Z.rem (year date) 100) 2);
    ("MMMM", fun date => name_at MONTH_NAMES (Some (month date - 1)));
    ("MMM", fun date => name_at MONTH_NAMES_SHORT (Some (month date - 1)));
    ("MM", fun date => padZero (month date) 2);
    ("M", fun date => Z_toString (month date));
    ("DD", fun date => padZero (day date) 2);
    ("D", fun date => Z_toString (day date));
    ("dddd", fun date => name_at DAY_NAMES (getDayOfWeek date));
    ("ddd", fun date => name_at DAY_NAMES_SHORT (getDayOfWeek date));
    ("d", fun date => num_toString (getDayOfWeek date));
    ("HH", fun date => padZero (hour date) 2);
    ("H", fun date => Z_toString (hour date));
    ("hh", fun date => padZero (hour12 (hour date)) 2);
    ("h", fun date => Z_toString (hour12 (hour date)));
    ("mm", fun date => padZero (minute date) 2);
    ("m", fun date => Z_toString (minute date));
    ("ss", fun date => padZero (second date) 2);
    ("s", fun date => Z_toString (second date));
    ("SSS", fun date => padZero (millisecond date) 3);
    ("SS", fun date => padZero (millisecond date / 10) 2);
    ("S", fun date => Z_toString (millisecond date / 100));
    ("A", fun date => if hour date >=? 12 then "PM" else "AM");
    ("a", fun date => if hour date >=? 12 then "pm" else "am");
    ("Z", fun date =>
            if String.eqb (timezone date) "UTC" ||
               String.eqb (timezone date) "GMT"
            then "+00:00" else timezone date);
    ("ZZ", fun date =>
             if String.eqb (timezone date) "UTC" ||
                String.eqb (timezone date) "GMT"
             then "+0000" else remove_first ":" (timezone date));
    ("X", fun date => num_toString (num_floor_div (timestamp date) 1000));
    ("x", fun date => num_toString (timestamp date)) ].

(** Property lookup on an object literal used as a table.  Keys inherited
    from [Object.prototype] are not modelled: for such a name
    ([inherited_key]) the host's lookup gives a value that is not
    [undefined]. *)
Fixpoint lookup_key {V} (k : string) (table : list (string * V)) : option V :=
  match table with
  | [] => None
  | (k', v) :: rest => if String.eqb k k' then Some v else lookup_key k rest
  end.

Definition FORMAT_PRESETS : list (string * string) :=
  [ ("ISO", "YYYY-MM-DDTHH:mm:ss.SSSZ");
    ("ISO_DATE", "YYYY-MM-DD");
    ("ISO_TIME", "HH:mm:ss");
    ("RFC2822", "ddd, DD MMM YYYY HH:mm:ss Z");
    ("HTTP", "ddd, DD MMM YYYY HH:mm:ss [GMT]");
    ("SQL", "YYYY-MM-DD HH:mm:ss");
    ("SHORT", "M/D/YYYY");
    ("MEDIUM", "MMM D, YYYY");
    ("LONG", "MMMM D, YYYY");
    ("FULL", "dddd, MMMM D, YYYY");
    ("TIME", "h:mm A");
    ("TIME_24", "HH:mm");
    ("TIME_WITH_SECONDS", "h:mm:ss A");
    ("DATETIME_SHORT", "M/D/YYYY h:mm A");
    ("DATETIME_MEDIUM", "MMM D, YYYY h:mm A");
    ("DATETIME_LONG", "MMMM D, YYYY h:mm A") ].

(** [keys.sort((a, b) => b.length - a.length)]: a stable sort, longest
    first. *)
Fixpoint insert_by_length (t : string) (sorted : list string) : list string :=
  match sorted with
  | [] => [t]
  | x :: rest =>
      if (String.length x <? String.length t)%nat then t :: sorted
      else x :: insert_by_length t rest
  end.

Definition sort_by_length_desc (keys : list string) : list string :=
  fold_left (fun sorted t => insert_by_length t sorted) keys [].

(** The alternatives of the regular expression [TOKEN_PATTERN], in order. *)
Definition TOKEN_PATTERN : list string :=
  sort_by_length_desc (map fst TOKEN_HANDLERS).

(** One attempt of [TOKEN_PATTERN] at the start of [s]: the first alternative
    that is a prefix of [s]. *)
Definition match_token (s : string) : option string :=
  find (fun t => String.prefix t s) TOKEN_PATTERN.

(** ** The format engine ([compileFormatter], [format]) *)

(** An element of the [parts] array: a string or a handler. *)
Inductive part : Type :=
| PText (text : string)
| PHandler (handler : TokenHandler).

(** A compiled formatter is the closure over its [parts]. *)
Definition CompiledFormatter : Type := list part.

Definition run_formatter (parts : CompiledFormatter) (date : ChronoDate)
    : string :=
  fold_left (fun result p =>
               match p with
               | PHandler h => result +:+ h date
               | PText t => result +:+ t
               end) parts "".

(** [/\[([^\]]+)\]/] attempted just after an opening bracket: the length of
    the captured group, when there is a closing bracket after one or more
    other characters. *)
Fixpoint chars_before_bracket (s : string) : option nat :=
  match s with
  | EmptyString => None
  | String c s' =>
      if Ascii.eqb c "]" then Some O
      else option_map S (chars_before_bracket s')
  end.

Definition literal_at (rest : string) : option nat :=
  match chars_before_bracket rest with
  | Some (S n) => Some (S n)
  | _ => None
  end.

(** [workingStr]: every bracketed literal, brackets included, overwritten by
    NUL characters; [skip] counts the characters of the current literal that
    remain to overwrite. *)
Fixpoint mask_literals (s : string) (skip : nat) : string :=
  match s with
  | EmptyString => EmptyString
  | String c s' =>
      match skip with
      | S k => String zero (mask_literals s' k)
      | O =>
          if Ascii.eqb c "[" then
            match literal_at s' with
            | Some n => String zero (mask_literals s' (S n))
            | None => String c (mask_literals s' O)
            end
          else String c (mask_literals s' O)
      end
  end.

(** [text.replace(/\[([^\]]+)\]/g, '$1')]; [copy = Some k] while inside a
    literal with [k] captured characters left before its closing bracket. *)
Fixpoint strip_literals (s : string) (copy : option nat) : string :=
  match s with
  | EmptyString => EmptyString
  | String c s' =>
      match copy with
      | Some (S k) => String c (strip_literals s' (Some k))
      | Some O => strip_literals s' None
      | None =>
          if Ascii.eqb c "[" then
            match literal_at s' with
            | Some n => strip_literals s' (Some n)
            | None => String c (strip_literals s' None)
            end
          else String c (strip_literals s' None)
      end
  end.

Definition push_text (text : string) : list part :=
  if String.eqb text "" then [] else [PText text].

(** The [while ((match = TOKEN_PATTERN.exec(workingStr)) !== null)] loop and
    the "remaining text" step after it.  The two strings are the suffixes of
    [formatStr] and [workingStr] at the current position; [skip] counts the
    characters of the last token still to pass; [text] is
    [formatStr.slice(lastIndex, position)]. *)
Fixpoint scan_tokens (formatStr workingStr : string) (skip : nat)
    (text : string) : list part :=
  match formatStr, workingStr with
  | String c f', String _ w' =>
      match skip with
      | S k => scan_tokens f' w' k text
      | O =>
          match match_token workingStr with
          | Some token =>
              push_text text ++
              (match lookup_key token TOKEN_HANDLERS with
               | Some handler => PHandler handler
               | None => PText token
               end) ::
              scan_tokens f' w' (String.length token - 1) ""
          | None => scan_tokens f' w' O (text +:+ String c "")
          end
      end
  | _, _ => push_text text
  end.

(** The body of [compileFormatter] after the cache and preset checks. *)
Definition build_formatter (formatStr : string) : CompiledFormatter :=
  let workingStr := mask_literals formatStr O in
  let parts := scan_tokens formatStr workingStr O "" in
  map (fun p =>
         match p with
         | PText t => PText (strip_literals t None)
         | PHandler h => PHandler h
         end) parts.

(** [compileFormatter(formatStr)] against the module-level [formatterCache]:
    returns the formatter and the cache after the call.  [fuel] bounds the
    depth of the recursion through presets. *)
Fixpoint compileFormatter_rec (fuel : nat) (formatStr : string)
    (formatterCache : gmap string CompiledFormatter)
    : option (CompiledFormatter * gmap string CompiledFormatter) :=
  match fuel with
  | O => None
  | S fuel' =>
      match formatterCache !! formatStr with
      | Some cached => Some (cached, formatterCache)
      | None =>
          match lookup_key formatStr FORMAT_PRESETS with
          | Some (String _ _ as preset) =>
              compileFormatter_rec fuel' preset formatterCache
          | _ =>
              let compiled := build_formatter formatStr in
              Some (compiled, <[formatStr := compiled]> formatterCache)
          end
      end
  end.

(** No preset expands to a preset name, so two levels are enough (lemma
    [compileFormatter_rec_fuel]). *)
Definition compileFormatter (formatStr : string)
    (formatterCache : gmap string CompiledFormatter)
    : CompiledFormatter * gmap string CompiledFormatter :=
  match compileFormatter_rec 2 formatStr formatterCache with
  | Some r => r
  | None => (build_formatter formatStr, formatterCache)
  end.

(** [format(date, formatStr)]: the result and the cache after the call. *)
Definition format (date : ChronoDate) (formatStr : string)
    (formatterCache : gmap string CompiledFormatter)
    : result string * gmap string CompiledFormatter :=
  if String.eqb formatStr "" then
    (Throw (FormatError "Invalid format string"), formatterCache)
  else
    let '(formatter, formatterCache') :=
      compileFormatter formatStr formatterCache in
    (Ok (run_formatter formatter date), formatterCache').

Definition clearFormatterCache (formatterCache : gmap string CompiledFormatter)
    : gmap string CompiledFormatter := ∅.

Definition getFormatterCacheSize
    (formatterCache : gmap string CompiledFormatter) : nat :=
  size formatterCache.

(** ** Reference definitions that follow the specification's wording *)

(** "divisible by 4 and (not divisible by 100 or divisible by 400)" *)
Definition isLeapYear_spec (year : Z) : bool :=
  (year mod 4 =? 0) && (negb (year mod 100 =? 0) || (year mod 400 =? 0)).

(** "table {31,28/29,31,30,31,30,31,31,30,31,30,31}; month assumed
    pre-validated to 1-12 by caller, else signals InvalidField"; [None] stands
    for the InvalidField signal. *)
Definition daysInMonth_spec (year month : Z) : option Z :=
  if (1 <=? month) && (month <=? 12) then
    Some (if (month =? 2) && isLeapYear_spec year then 29
          else nth (Z.to_nat (month - 1))
                   [31; 28; 31; 30; 31; 30; 31; 31; 30; 31; 30; 31] 0)
  else None.

(** Leap years among the years 1 .. [year - 1] of the proleptic Gregorian
    calendar. *)
Definition leapYearsBefore (year : Z) : Z :=
  (year - 1) / 4 - (year - 1) / 100 + (year - 1) / 400.

(** Days from 1970-01-01 to the given civil date. *)
Definition daysFromEpoch_spec (year month day : Z) : Z :=
  365 * (year - 1970) + (leapYearsBefore year - leapYearsBefore 1970) +
  fold_left Z.add
    (map (fun k => getDaysInMonth year (Z.of_nat k))
         (seq 1 (Z.to_nat (month - 1)))) 0 +
  (day - 1).

(** "the UTC linear time computed from (year, month, day, hour, minute,
    second, millisecond)": milliseconds since the epoch. *)
Definition utcLinearTime
    (year month day hour minute second millisecond : Z) : Z :=
  daysFromEpoch_spec year month day * 86400000 +
  hour * 3600000 + minute * 60000 + second * 1000 + millisecond.

(** "adds n to the civil month field with year carry, then clamps day to
    daysInMonth(newYear, newMonth) if it would overflow; hour, minute, second,
    millisecond unchanged; re-derives timestamp from the resulting civil
    fields". *)
Definition addMonths_spec (v : ChronoDate) (n : Z) : result ChronoDate :=
  let total := month v - 1 + n in
  let newYear := year v + total / 12 in
  let newMonth := total mod 12 + 1 in
  let newDay := Z.min (day v) (getDaysInMonth newYear newMonth) in
  dateFromComponents newYear newMonth newDay
    (hour v) (minute v) (second v) (millisecond v) (timezone v).

(** The zero-indexed 7-day bucket, counted from the epoch, that holds the
    instant [x] milliseconds after the epoch. *)
Definition weekBucket (x : Z) : Z := x / MILLISECONDS_IN_WEEK.

(** The caches the exported operations can produce: the empty cache at load
    time and after [clearFormatterCache], and the cache left by [format]. *)
Inductive cache_reachable : gmap string CompiledFormatter -> Prop :=
| reachable_initial : cache_reachable ∅
| reachable_format date formatStr cache :
    cache_reachable cache ->
    cache_reachable (snd (format date formatStr cache)).

(** A live value: one returned by the validating constructor. *)
Definition live (v : ChronoDate) : Prop :=
  exists year month day hour minute second millisecond timezone,
    ChronoDateImpl year month day hour minute second millisecond timezone
    = Ok v.

(** ** Auxiliary definitions used by the proofs *)

(** The callback of both folds of [min] and [max], over an arbitrary numeric
    key: keep the current element when its key is strictly below the kept
    one. *)
Definition pick {A} (key : A -> number) (kept current : A) : A :=
  if num_lt (key current) (key kept) then current else kept.

(** The kept element never moves above the seed; a [NaN] seed is kept. *)
Definition below {A} (key : A -> number) (r first : A) : Prop :=
  match key r, key first with
  | Some a, Some b => a <= b
  | None, None => True
  | _, _ => False
  end.

(** [isAfter] is [isBefore] on the negated timestamps. *)
Definition neg_timestamp (d : ChronoDate) : number :=
  option_map Z.opp (timestamp d).

(** [padZero n len] has [len] digits and parses back to [n]. *)
Definition pad_ok (len : nat) (n : Z) : bool :=
  let s := padZero n len in
  (String.length s =? len)%nat && allDigits s && (parseInt s =? n).

(** The two shapes of the fraction that [toISOString] writes, with the value
    [parseISO] reads from it. *)
Inductive rendered_fraction : string -> Z -> Prop :=
| fraction_absent : rendered_fraction "" 0
| fraction_present F : digits 3 F -> rendered_fraction ("." +:+ F) (parseInt F).

(** A preset entry is well formed when neither side is empty and the
    pattern is not itself a preset name. *)
Definition preset_ok (entry : string * string) : bool :=
  negb (String.eqb (fst entry) "") && negb (String.eqb (snd entry) "") &&
  match lookup_key (snd entry) FORMAT_PRESETS with
  | None => true
  | Some _ => false
  end.


(** ** Further functions of the sources *)

(** *** The host Date object: more setters *)

Module JSDateSetters.
Import JSDate.

(** [setUTCFullYear(year)] with month and date absent.  A Date whose time
    value is [NaN] is treated as time value 0. *)
Definition setUTCFullYear (d : Date) (year : number) : Date :=
  match year with
  | Some y =>
      let t := match d with Some t => t | None => 0 end in
      TimeClip (MakeDate (MakeDay y (MonthFromTime t) (DateFromTime t))
                         (TimeWithinDay t))
  | None => NaN
  end.

(** [setUTCHours(hour, min, sec, ms)] with all four arguments. *)
Definition setUTCHours (d : Date) (hour min sec ms : Z) : Date :=
  match d with
  | Some t => TimeClip (MakeDate (Day t) (MakeTime hour min sec ms))
  | None => NaN
  end.

End JSDateSetters.

(** *** src/core/ChronoDate.ts: [cloneDate] *)

(** The optional [modifications] argument: each field present or absent. *)
Record Modifications : Type := mkModifications {
  mod_year : option Z;
  mod_month : option Z;
  mod_day : option Z;
  mod_hour : option Z;
  mod_minute : option Z;
  mod_second : option Z;
  mod_millisecond : option Z;
  mod_timezone : option string
}.

(** [modifications?.field ?? fallback] *)
Definition coalesce {A} (modifications : option Modifications)
    (field : Modifications -> option A) (fallback : A) : A :=
  match modifications with
  | Some m => match field m with Some x => x | None => fallback end
  | None => fallback
  end.

Definition cloneDate (date : ChronoDate) (modifications : option Modifications)
    : result ChronoDate :=
  ChronoDateImpl
    (coalesce modifications mod_year (year date))
    (coalesce modifications mod_month (month date))
    (coalesce modifications mod_day (day date))
    (coalesce modifications mod_hour (hour date))
    (coalesce modifications mod_minute (minute date))
    (coalesce modifications mod_second (second date))
    (coalesce modifications mod_millisecond (millisecond date))
    (coalesce modifications mod_timezone (timezone date)).

(** *** src/core/arithmetic.ts: the other operations *)

Definition addYears (date : ChronoDate) (years : Z) : result ChronoDate :=
  let native := toNative date in
  let native :=
    JSDateSetters.setUTCFullYear native
      (num_add (JSDate.getUTCFullYear native) (Some years)) in
  dateFromNative native (timezone date).

Definition addHours (date : ChronoDate) (hours : Z) : result ChronoDate :=
  let timestamp :=
    num_add (timestamp date) (Some (hours * MILLISECONDS_IN_HOUR)) in
  dateFromNative (JSDate.new_Date timestamp) (timezone date).

Definition addMinutes (date : ChronoDate) (minutes : Z) : result ChronoDate :=
  let timestamp :=
    num_add (timestamp date) (Some (minutes * MILLISECONDS_IN_MINUTE)) in
  dateFromNative (JSDate.new_Date timestamp) (timezone date).

Definition addSeconds (date : ChronoDate) (seconds : Z) : result ChronoDate :=
  let timestamp :=
    num_add (timestamp date) (Some (seconds * MILLISECONDS_IN_SECOND)) in
  dateFromNative (JSDate.new_Date timestamp) (timezone date).

Definition addMilliseconds (date : ChronoDate) (milliseconds : Z)
    : result ChronoDate :=
  let timestamp := num_add (timestamp date) (Some milliseconds) in
  dateFromNative (JSDate.new_Date timestamp) (timezone date).

Definition addWeeks (date : ChronoDate) (weeks : Z) : result ChronoDate :=
  addDays date (weeks * 7).

(** The [Duration] object: every unit optional. *)
Record Duration : Type := mkDuration {
  years : option Z;
  months : option Z;
  weeks : option Z;
  days : option Z;
  hours : option Z;
  minutes : option Z;
  seconds : option Z;
  milliseconds : option Z
}.

(** [if (duration.unit) { result = add(result, duration.unit); }]: the step
    runs when the unit is present and not zero; an earlier exception skips
    everything after it. *)
Definition duration_step (add : ChronoDate -> Z -> result ChronoDate)
    (unit : option Z) (res : result ChronoDate) : result ChronoDate :=
  match unit with
  | Some n => if n =? 0 then res else (r <- res ;; add r n)
  | None => res
  end.

Definition addDuration (date : ChronoDate) (duration : Duration)
    : result ChronoDate :=
  let res := Ok date in
  let res := duration_step addYears (years duration) res in
  let res := duration_step addMonths (months duration) res in
  let res := duration_step addWeeks (weeks duration) res in
  let res := duration_step addDays (days duration) res in
  let res := duration_step addHours (hours duration) res in
  let res := duration_step addMinutes (minutes duration) res in
  let res := duration_step addSeconds (seconds duration) res in
  let res := duration_step addMilliseconds (milliseconds duration) res in
  res.

Definition subtractDays (date : ChronoDate) (days : Z) : result ChronoDate :=
  addDays date (- days).

Definition subtractMonths (date : ChronoDate) (months : Z)
    : result ChronoDate :=
  addMonths date (- months).

Definition subtractYears (date : ChronoDate) (years : Z) : result ChronoDate :=
  addYears date (- years).

(** [unit ? -unit : undefined] *)
Definition negate_unit (unit : option Z) : option Z :=
  match unit with
  | Some n => if n =? 0 then None else Some (- n)
  | None => None
  end.

Definition subtractDuration (date : ChronoDate) (duration : Duration)
    : result ChronoDate :=
  let negated :=
    mkDuration
      (negate_unit (years duration)) (negate_unit (months duration))
      (negate_unit (weeks duration)) (negate_unit (days duration))
      (negate_unit (hours duration)) (negate_unit (minutes duration))
      (negate_unit (seconds duration)) (negate_unit (milliseconds duration)) in
  addDuration date negated.

(** *** src/core/comparison.ts: the other operations *)

Definition isSameOrBefore (date1 date2 : ChronoDate) : bool :=
  num_le (timestamp date1) (timestamp date2).

Definition isSameOrAfter (date1 date2 : ChronoDate) : bool :=
  num_le (timestamp date2) (timestamp date1).

Definition isBetween (date start end_ : ChronoDate) : bool :=
  num_le (timestamp start) (timestamp date) &&
  num_le (timestamp date) (timestamp end_).

Definition diffAbs (date1 date2 : ChronoDate) (unit : Unit) : number :=
  num_abs (diff date1 date2 unit).

(** *** Auxiliary definitions for the statements about arithmetic *)


(** An instant inside the range of time values whose UTC year is not one of
    the years 0..99 that [Date.UTC] reads as 1900..1999. *)
Definition instant_ok (t : Z) : Prop :=
  Z.abs t <= 8640000000000000 /\ ~ (0 <= JSDate.YearFromTime t <= 99).

(** The milliseconds a unit of a duration contributes: nothing when the unit
    is absent. *)
Definition unit_ms (unit : option Z) (factor : Z) : Z :=
  match unit with
  | Some n => n * factor
  | None => 0
  end.

(** The running totals of the fixed-length units of a duration, in the order
    [addDuration] applies them: weeks, days, hours, minutes, seconds,
    milliseconds. *)
Definition fixed_totals (duration : Duration) : list Z :=
  let w := unit_ms (weeks duration) 604800000 in
  let d := w + unit_ms (days duration) 86400000 in
  let h := d + unit_ms (hours duration) 3600000 in
  let m := h + unit_ms (minutes duration) 60000 in
  let s := m + unit_ms (seconds duration) 1000 in
  let ms := s + unit_ms (milliseconds duration) 1 in
  [w; d; h; m; s; ms].

Definition fixed_total (duration : Duration) : Z :=
  last (fixed_totals duration) 0.

(** A unit that [addDuration] skips: absent or zero. *)
Definition unit_skipped (unit : option Z) : Prop :=
  unit = None \/ unit = Some 0.

(** The value [dateFromTimestamp] builds for an instant that is
    [instant_ok]: the UTC decomposition as fields and the instant itself as
    timestamp. *)
Definition value_at (t : Z) (tz : string) : ChronoDate :=
  mkChronoDate (JSDate.YearFromTime t) (JSDate.MonthFromTime t + 1)
    (JSDate.DateFromTime t) (JSDate.HourFromTime t) (JSDate.MinFromTime t)
    (JSDate.SecFromTime t) (JSDate.msFromTime t) (Some t) tz.

(** *** Auxiliary definitions for the statements about comparison *)

(** The milliseconds of the units [diff] converts by floor division. *)
Definition unit_factor (unit : Unit) : option Z :=
  match unit with
  | UMillisecond => Some 1
  | USecond => Some MILLISECONDS_IN_SECOND
  | UMinute => Some MILLISECONDS_IN_MINUTE
  | UHour => Some MILLISECONDS_IN_HOUR
  | UDay => Some MILLISECONDS_IN_DAY
  | UWeek => Some MILLISECONDS_IN_WEEK
  | UMonth | UYear => None
  end.

(** *** src/utils/validation.ts: [isValidISOString] *)

(** [(\.\d{1,3})?(Z|[+-]\d{2}:\d{2})?$] on the text after the seconds. *)
Definition zone_tail_ok (s : string) : bool :=
  match s with
  | EmptyString => true
  | String z EmptyString => Ascii.eqb z "Z"
  | String sg (String h1 (String h2 (String c (String m1
      (String m2 EmptyString))))) =>
      (Ascii.eqb sg "+" || Ascii.eqb sg "-") &&
      isDigit h1 && isDigit h2 && Ascii.eqb c ":" && isDigit m1 && isDigit m2
  | _ => false
  end.

Definition fraction_zone_tail_ok (s : string) : bool :=
  match s with
  | String dot (String f1 rest) =>
      if Ascii.eqb dot "." && isDigit f1 then
        match rest with
        | String f2 rest2 =>
            if isDigit f2 then
              match rest2 with
              | String f3 rest3 =>
                  if isDigit f3 then zone_tail_ok rest3
                  else zone_tail_ok rest2
              | EmptyString => true
              end
            else zone_tail_ok rest
        | EmptyString => true
        end
      else zone_tail_ok s
  | _ => zone_tail_ok s
  end.

(** [/^\d{4}-\d{2}-\d{2}(T\d{2}:\d{2}:\d{2}(\.\d{1,3})?(Z|[+-]\d{2}:\d{2})?)?$/]
    tested on [str]. *)
Definition isValidISOString (str : string) : bool :=
  match str with
  | String y1 (String y2 (String y3 (String y4 (String h1
      (String m1 (String m2 (String h2
        (String d1 (String d2 rest))))))))) =>
      isDigit y1 && isDigit y2 && isDigit y3 && isDigit y4 &&
      Ascii.eqb h1 "-" && isDigit m1 && isDigit m2 &&
      Ascii.eqb h2 "-" && isDigit d1 && isDigit d2 &&
      match rest with
      | EmptyString => true
      | String t (String a1 (String a2 (String c1 (String b1 (String b2
          (String c2 (String s1 (String s2 tail)))))))) =>
          Ascii.eqb t "T" && isDigit a1 && isDigit a2 && Ascii.eqb c1 ":" &&
          isDigit b1 && isDigit b2 && Ascii.eqb c2 ":" &&
          isDigit s1 && isDigit s2 && fraction_zone_tail_ok tail
      | _ => false
      end
  | _ => false
  end.

(** *** Auxiliary definitions for the statements about the parser *)

(** The zone suffixes of the grammar with the zone label [parseISO] stores:
    none, [Z], or an offset [+HH:MM] / [-HH:MM] kept verbatim. *)
Inductive zone_suffix : string -> string -> Prop :=
| zone_absent : zone_suffix "" "UTC"
| zone_Z : zone_suffix "Z" "UTC"
| zone_offset sign hh mm :
    sign = "+"%char \/ sign = "-"%char -> digits 2 hh -> digits 2 mm ->
    zone_suffix (String sign (hh +:+ ":" +:+ mm))
                (String sign (hh +:+ ":" +:+ mm)).

(** The fractions of the grammar with the milliseconds [parseISO] reads:
    none, or a dot and one to three digits padded with zeros on the right. *)
Inductive fraction_text : string -> Z -> Prop :=
| fraction_none : fraction_text "" 0
| fraction_digits F :
    (1 <= String.length F <= 3)%nat -> allDigits F = true ->
    fraction_text ("." +:+ F)
                  (parseInt F * 10 ^ (3 - Z.of_nat (String.length F))).

(** The value of a decimal numeral of the standard library, digit by digit
    from the left. *)
Fixpoint uint_value (d : Decimal.uint) (acc : Z) : Z :=
  match d with
  | Decimal.Nil => acc
  | Decimal.D0 l => uint_value l (10 * acc)
  | Decimal.D1 l => uint_value l (10 * acc + 1)
  | Decimal.D2 l => uint_value l (10 * acc + 2)
  | Decimal.D3 l => uint_value l (10 * acc + 3)
  | Decimal.D4 l => uint_value l (10 * acc + 4)
  | Decimal.D5 l => uint_value l (10 * acc + 5)
  | Decimal.D6 l => uint_value l (10 * acc + 6)
  | Decimal.D7 l => uint_value l (10 * acc + 7)
  | Decimal.D8 l => uint_value l (10 * acc + 8)
  | Decimal.D9 l => uint_value l (10 * acc + 9)
  end.


(** *** Auxiliary definitions for the statements about the formatter *)

(** The string the compiled formatter of [formatStr] returns for [date]. *)
Definition render (date : ChronoDate) (formatStr : string) : string :=
  run_formatter (build_formatter formatStr) date.

(** What one element of [parts] contributes to the result. *)
Definition part_text (date : ChronoDate) (p : part) : string :=
  match p with
  | PText t => t
  | PHandler h => h date
  end.

(** The restore step on one element of [parts]. *)
Definition restore_part (p : part) : part :=
  match p with
  | PText t => PText (strip_literals t None)
  | PHandler h => PHandler h
  end.

(** Text collected before [parts] were produced joins a leading text
    element, or becomes an element of its own. *)
Definition merge_text (text : string) (parts : list part) : list part :=
  match parts with
  | PText t :: rest => PText (text +:+ t) :: rest
  | _ => push_text text ++ parts
  end.

(** A well-formed alternative of [TOKEN_PATTERN]: not empty, free of the
    opening bracket and of NUL, and a key of [TOKEN_HANDLERS]. *)
Definition token_ok (t : string) : bool :=
  noChar "[" t && noChar zero t && negb (String.eqb t "") &&
  match lookup_key t TOKEN_HANDLERS with
  | Some _ => true
  | None => false
  end.

(** Every alternative is at least as long as those after it. *)
Fixpoint longest_first (l : list string) : bool :=
  match l with
  | [] => true
  | a :: l' =>
      forallb (fun y => (String.length y <=? String.length a)%nat) l' &&
      longest_first l'
  end.

(** *** src/core/factory.ts *)

(** [DateInput]: the kinds of argument the factory tells apart; an absent
    argument is [undefined]. *)
Inductive DateInput : Type :=
| InputAbsent
| InputString (s : string)
| InputNumber (n : number)
| InputDate (d : JSDate.Date)
| InputChrono (c : ChronoDate).

(** [!input]: [undefined], the empty string, [0] and [NaN] are falsy. *)
Definition falsy (input : DateInput) : bool :=
  match input with
  | InputAbsent => true
  | InputString s => String.eqb s ""
  | InputNumber (Some n) => n =? 0
  | InputNumber None => true
  | InputDate _ | InputChrono _ => false
  end.

Section Factory.

(** The host: the Date object that [new Date()] returns when the call is
    made, and the Date object that [new Date(string)] returns. *)
Variable host_now : JSDate.Date.
Variable host_parse : string -> JSDate.Date.

Definition now : result ChronoDate := dateFromNative host_now "UTC".

Definition createDate (input : DateInput) : result ChronoDate :=
  if falsy input then dateFromNative host_now "UTC"
  else
    match input with
    | InputAbsent => dateFromNative host_now "UTC"
    | InputString s =>
        let date := host_parse s in
        match JSDate.getTime date with
        | None => Throw (Error "Invalid date string")
        | Some _ => dateFromNative date "UTC"
        end
    | InputNumber n => dateFromTimestamp n "UTC"
    | InputDate d => dateFromNative d "UTC"
    | InputChrono c => Ok c
    end.

(** [isValid(input)] on the inputs of [DateInput]; a number of the model is
    an integer or [NaN], so [isFinite] holds of every number that is not
    [NaN]. *)
Definition isValid (input : DateInput) : bool :=
  if falsy input then false
  else
    match input with
    | InputAbsent => false
    | InputString s =>
        match JSDate.getTime (host_parse s) with
        | None => false
        | Some _ => true
        end
    | InputNumber n =>
        match n with
        | None => false
        | Some _ => true
        end
    | InputDate d =>
        match JSDate.getTime d with
        | None => false
        | Some _ => true
        end
    | InputChrono _ => true
    end.

Definition startOfDay (input : DateInput) : result ChronoDate :=
  date <- createDate input ;;
  let native := toNative date in
  let native := JSDateSetters.setUTCHours native 0 0 0 0 in
  dateFromNative native (timezone date).

Definition endOfDay (input : DateInput) : result ChronoDate :=
  date <- createDate input ;;
  let native := toNative date in
  let native := JSDateSetters.setUTCHours native 23 59 59 999 in
  dateFromNative native (timezone date).

End Factory.

(** *** src/relative/formatRelative.ts and src/relative/formatDistance.ts *)

(** The body of [formatRelativeTime] after [secondsAgo] is computed. *)
Definition relative_text (secondsAgo : number) : string :=
  if num_lt secondsAgo (Some 0) then "just now"
  else if num_lt secondsAgo (Some 60) then "just now"
  else
    let minutesAgo := num_floor_div secondsAgo 60 in
    if num_lt minutesAgo (Some 60) then
      if num_eq minutesAgo (Some 1) then "1 minute ago"
      else num_toString minutesAgo +:+ " minutes ago"
    else
      let hoursAgo := num_floor_div minutesAgo 60 in
      if num_lt hoursAgo (Some 24) then
        if num_eq hoursAgo (Some 1) then "1 hour ago"
        else num_toString hoursAgo +:+ " hours ago"
      else
        let daysAgo := num_floor_div hoursAgo 24 in
        if num_lt daysAgo (Some 7) then
          if num_eq daysAgo (Some 1) then "1 day ago"
          else num_toString daysAgo +:+ " days ago"
        else
          let weeksAgo := num_floor_div daysAgo 7 in
          if num_lt weeksAgo (Some 4) then
            if num_eq weeksAgo (Some 1) then "1 week ago"
            else num_toString weeksAgo +:+ " weeks ago"
          else
            let monthsAgo := num_floor_div daysAgo 30 in
            if num_lt monthsAgo (Some 12) then
              if num_eq monthsAgo (Some 1) then "1 month ago"
              else num_toString monthsAgo +:+ " months ago"
            else
              let yearsAgo := num_floor_div monthsAgo 12 in
              if num_eq yearsAgo (Some 1) then "1 year ago"
              else num_toString yearsAgo +:+ " years ago".

(** The body of [formatShortRelativeTime] after [secondsAgo] is computed. *)
Definition short_relative_text (secondsAgo : number) : string :=
  if num_lt secondsAgo (Some 60) then "now"
  else
    let minutesAgo := num_floor_div secondsAgo 60 in
    if num_lt minutesAgo (Some 60) then num_toString minutesAgo +:+ "m"
    else
      let hoursAgo := num_floor_div minutesAgo 60 in
      if num_lt hoursAgo (Some 24) then num_toString hoursAgo +:+ "h"
      else
        let daysAgo := num_floor_div hoursAgo 24 in
        if num_lt daysAgo (Some 7) then num_toString daysAgo +:+ "d"
        else
          let weeksAgo := num_floor_div daysAgo 7 in
          if num_lt weeksAgo (Some 4) then num_toString weeksAgo +:+ "w"
          else
            let monthsAgo := num_floor_div daysAgo 30 in
            if num_lt monthsAgo (Some 12) then
              num_toString monthsAgo +:+ "mo"
            else
              let yearsAgo := num_floor_div monthsAgo 12 in
              num_toString yearsAgo +:+ "y".

(** [absSeconds % 31536000] *)
Definition num_rem (a : number) (k : Z) : number :=
  option_map (fun x => Z.rem x k) a.

Definition formatDistanceString (absSeconds : number) (includeSeconds : bool)
    : string :=
  if num_lt absSeconds (Some 30) then
    if includeSeconds then
      if num_lt absSeconds (Some 5) then "less than 5 seconds"
      else if num_lt absSeconds (Some 10) then "less than 10 seconds"
      else if num_lt absSeconds (Some 20) then "less than 20 seconds"
      else "half a minute"
    else "less than a minute"
  else if num_lt absSeconds (Some 60) then "less than a minute"
  else if num_lt absSeconds (Some 3600) then
    let minutes := num_floor_div absSeconds 60 in
    if num_eq minutes (Some 1) then "1 minute"
    else num_toString minutes +:+ " minutes"
  else if num_lt absSeconds (Some 86400) then
    let hours := num_floor_div absSeconds 3600 in
    if num_eq hours (Some 1) then "about 1 hour"
    else "about " +:+ num_toString hours +:+ " hours"
  else if num_lt absSeconds (Some 2592000) then
    let days := num_floor_div absSeconds 86400 in
    if num_eq days (Some 1) then "1 day"
    else num_toString days +:+ " days"
  else if num_lt absSeconds (Some 31536000) then
    let months := num_floor_div absSeconds 2592000 in
    if num_eq months (Some 1) then "about 1 month"
    else "about " +:+ num_toString months +:+ " months"
  else
    let years := num_floor_div absSeconds 31536000 in
    let remainingMonths :=
      num_floor_div (num_rem absSeconds 31536000) 2592000 in
    if num_lt remainingMonths (Some 3) then
      if num_eq years (Some 1) then "about 1 year"
      else "about " +:+ num_toString years +:+ " years"
    else if num_lt remainingMonths (Some 9) then
      if num_eq years (Some 1) then "over 1 year"
      else "over " +:+ num_toString years +:+ " years"
    else "almost " +:+ num_toString (num_add years (Some 1)) +:+ " years".

(** [FormatDistanceOptions]: [addSuffix] and [includeSeconds] absent or
    given, with their defaults [true] and [false]. *)
Record FormatDistanceOptions : Type := mkFormatDistanceOptions {
  addSuffix : option bool;
  includeSeconds : option bool;
  baseDate : option DateInput
}.

Section Relative.

Variable host_now : JSDate.Date.
Variable host_parse : string -> JSDate.Date.

(** [normalizeToChronoDate], the same private function in both files.  A
    string or a number goes through [new Date]; [undefined] is returned as it
    is by the cast, here [None]. *)
Definition normalizeToChronoDate (date : DateInput)
    : result (option ChronoDate) :=
  match date with
  | InputString s =>
      r <- createDate host_now host_parse (InputDate (host_parse s)) ;;
      Ok (Some r)
  | InputNumber n =>
      r <- createDate host_now host_parse (InputDate (JSDate.new_Date n)) ;;
      Ok (Some r)
  | InputDate d =>
      r <- createDate host_now host_parse (InputDate d) ;; Ok (Some r)
  | InputChrono c => Ok (Some c)
  | InputAbsent => Ok None
  end.

(** [baseDate ? normalizeToChronoDate(baseDate) : now()] *)
Definition base_of (baseDate : option DateInput)
    : result (option ChronoDate) :=
  match baseDate with
  | Some b =>
      if falsy b then (r <- now host_now ;; Ok (Some r))
      else normalizeToChronoDate b
  | None => r <- now host_now ;; Ok (Some r)
  end.

(** [diff(targetDate, base, 'second')]; reading [timestamp] of [undefined]
    throws the host's TypeError. *)
Definition seconds_between (targetDate base : option ChronoDate)
    : result number :=
  match targetDate, base with
  | Some t, Some b => Ok (diff t b USecond)
  | _, _ => Throw (Error "TypeError")
  end.

Definition formatRelativeTime (date : DateInput)
    (baseDate : option DateInput) : result string :=
  targetDate <- normalizeToChronoDate date ;;
  base <- base_of baseDate ;;
  secondsAgo <- seconds_between targetDate base ;;
  Ok (relative_text secondsAgo).

Definition formatShortRelativeTime (date : DateInput)
    (baseDate : option DateInput) : result string :=
  targetDate <- normalizeToChronoDate date ;;
  base <- base_of baseDate ;;
  secondsAgo <- seconds_between targetDate base ;;
  Ok (short_relative_text secondsAgo).

Definition formatDistanceToNow (date : DateInput)
    (options : FormatDistanceOptions) : result string :=
  let addSuffix :=
    match addSuffix options with Some b => b | None => true end in
  let includeSeconds :=
    match includeSeconds options with Some b => b | None => false end in
  targetDate <- normalizeToChronoDate date ;;
  base <- base_of (baseDate options) ;;
  totalSeconds <- seconds_between targetDate base ;;
  let isPast := num_le (Some 0) totalSeconds in
  let absSeconds := num_abs totalSeconds in
  let res := formatDistanceString absSeconds includeSeconds in
  if addSuffix then
    Ok (if isPast then res +:+ " ago" else "in " +:+ res)
  else Ok res.

(** [formatDistance(date, baseDate, options)]: the options with [baseDate]
    set to the second argument. *)
Definition formatDistance (date baseDate : DateInput)
    (options : FormatDistanceOptions) : result string :=
  formatDistanceToNow date
    (mkFormatDistanceOptions (addSuffix options) (includeSeconds options)
       (Some baseDate)).

End Relative.

(** *** src/utils/constants.ts: [TIMEZONE_OFFSETS] *)

Definition TIMEZONE_OFFSETS : list (string * Z) :=
  [ ("UTC", 0); ("GMT", 0); ("EST", -300); ("EDT", -240); ("CST", -360);
    ("CDT", -300); ("MST", -420); ("MDT", -360); ("PST", -480);
    ("PDT", -420); ("IST", 330); ("JST", 540); ("AEST", 600);
    ("AEDT", 660) ].

(** *** src/timezone: [getTimezoneOffset] *)

(** [/^([+-])(\d{2}):(\d{2})$/]: the three captured groups. *)
Definition match_offset (s : string) : option (ascii * string * string) :=
  match s with
  | String sg (String h1 (String h2 (String c (String m1
      (String m2 EmptyString))))) =>
      if (Ascii.eqb sg "+" || Ascii.eqb sg "-") &&
         isDigit h1 && isDigit h2 && Ascii.eqb c ":" &&
         isDigit m1 && isDigit m2
      then Some (sg, String h1 (String h2 EmptyString),
                 String m1 (String m2 EmptyString))
      else None
  | _ => None
  end.

Section Timezone.

(** What the host makes of a name that is neither an own key of the table
    nor an offset string: the rounded offset found through [Intl], or the
    TimezoneError.  The names [Object.prototype] defines, which the [in]
    test also accepts, are left to this function; none of them is an offset
    string. *)
Variable host_offset : string -> result number.

Definition getTimezoneOffset (timezone : string) : result number :=
  match lookup_key timezone TIMEZONE_OFFSETS with
  | Some offset => Ok (Some offset)
  | None =>
      match match_offset timezone with
      | Some (sg, hh, mm) =>
          let sign := if Ascii.eqb sg "+" then 1 else -1 in
          let hours := parseInt hh in
          let minutes := parseInt mm in
          Ok (Some (sign * (hours * 60 + minutes)))
      | None => host_offset timezone
      end
  end.

End Timezone.

(** *** Auxiliary definitions: where the number model is exact *)

(** An integer that a JavaScript number holds exactly, and up to which sums
    and differences of integers are computed without rounding: magnitude at
    most [Number.MAX_SAFE_INTEGER], 2^53 - 1.  On such integers
    [Number.prototype.toString] writes the plain decimal digits. *)
Definition safe_integer (n : Z) : Prop := Z.abs n <= 9007199254740991.

(** The property names every object literal inherits from
    [Object.prototype] (ECMA-262, Properties of the Object Prototype Object,
    and its Annex B).  [FORMAT_PRESETS[name]] is not [undefined] for them, so
    [compileFormatter] takes the preset branch with a value that is not a
    string and [format] throws; [lookup_key] does not model them. *)
Definition Object_prototype_keys : list string :=
  ["constructor"; "hasOwnProperty"; "isPrototypeOf"; "propertyIsEnumerable";
   "toLocaleString"; "toString"; "valueOf"; "__proto__";
   "__defineGetter__"; "__defineSetter__"; "__lookupGetter__";
   "__lookupSetter__"].

Definition inherited_key (name : string) : bool :=
  existsb (String.eqb name) Object_prototype_keys.
(** * Properties *)


Module JSDateFacts.
Import JSDate.

Lemma YearFromDay_spec d :
  DayFromYear (YearFromDay d) <= d < DayFromYear (YearFromDay d + 1).
Proof.
  unfold YearFromDay.
  destruct (Z.ltb_spec d (DayFromYear (1970 + 400 * d / 146097))) as [Hlt|Hge].
  - unfold DayFromYear in *. Z.div_mod_to_equations. lia.
  - destruct (Z.leb_spec (DayFromYear (1970 + 400 * d / 146097 + 1)) d).
    + unfold DayFromYear in *. Z.div_mod_to_equations. lia.
    + lia.
Qed.

Lemma DayFromYear_succ y : DayFromYear (y + 1) = DayFromYear y + DaysInYear y.
Proof.
  unfold DayFromYear, DaysInYear.
  destruct (Z.eqb_spec (y mod 4) 0); simpl;
    [destruct (Z.eqb_spec (y mod 100) 0); simpl;
       [destruct (Z.eqb_spec (y mod 400) 0); simpl|]|];
    Z.div_mod_to_equations; lia.
Qed.

Lemma DaysInYear_cases y : DaysInYear y = 365 \/ DaysInYear y = 366.
Proof.
  unfold DaysInYear.
  destruct (y mod 4 =? 0), (y mod 100 =? 0), (y mod 400 =? 0); simpl; auto.
Qed.

Lemma DayFromYear_mono y1 y2 : y1 <= y2 -> DayFromYear y1 <= DayFromYear y2.
Proof.
  intros H. unfold DayFromYear. Z.div_mod_to_equations. lia.
Qed.

Lemma YearFromDay_unique d y :
  DayFromYear y <= d < DayFromYear (y + 1) -> YearFromDay d = y.
Proof.
  intros Hy. pose proof (YearFromDay_spec d) as Hs.
  destruct (Z.lt_trichotomy (YearFromDay d) y) as [Hlt | [Heq | Hgt]]; auto.
  - pose proof (DayFromYear_mono (YearFromDay d + 1) y). lia.
  - pose proof (DayFromYear_mono (y + 1) (YearFromDay d)). lia.
Qed.

Lemma DayWithinYear_bounds t :
  0 <= DayWithinYear t < DaysInYear (YearFromTime t).
Proof.
  unfold DayWithinYear, YearFromTime.
  pose proof (YearFromDay_spec (Day t)) as Hs.
  rewrite DayFromYear_succ in Hs. lia.
Qed.

Lemma MakeDay_in_year y mn dt :
  0 <= mn <= 11 ->
  MakeDay y mn dt = DayFromYear y + DaysBeforeMonth y mn + dt - 1.
Proof.
  intros H. unfold MakeDay.
  rewrite Z.div_small, Z.mod_small by lia. now rewrite Z.add_0_r.
Qed.

Lemma MonthFromTime_range t : 0 <= MonthFromTime t <= 11.
Proof.
  unfold MonthFromTime.
  repeat match goal with
         | |- context [?a <? ?b] => destruct (a <? b)
         end; lia.
Qed.

Ltac split_ltb :=
  repeat match goal with
         | |- context [?a <? ?b] => destruct (Z.ltb_spec a b)
         end.

Lemma MakeDay_decompose t :
  MakeDay (YearFromTime t) (MonthFromTime t) (DateFromTime t) = Day t.
Proof.
  rewrite MakeDay_in_year by apply MonthFromTime_range.
  unfold DateFromTime, MonthFromTime, DaysBeforeMonth.
  fold (InLeapYear t).
  assert (Hd : DayWithinYear t = Day t - DayFromYear (YearFromTime t))
    by reflexivity.
  generalize dependent (DayWithinYear t). intros d Hd.
  generalize (InLeapYear t). intros l.
  split_ltb; simpl; lia.
Qed.


Lemma rem_mod_zero a b : 0 < b -> (Z.rem a b =? 0) = (a mod b =? 0).
Proof.
  intros Hb.
  destruct (Z.eqb_spec (Z.rem a b) 0) as [H|H], (Z.eqb_spec (a mod b) 0) as [H'|H'];
    auto; exfalso.
  - apply H'. apply Z.mod_divide; [lia|]. apply Z.rem_divide; [lia|]. exact H.
  - apply H. apply Z.rem_divide; [lia|]. apply Z.mod_divide; [lia|]. exact H'.
Qed.

Lemma isLeapYear_DaysInYear y : isLeapYear y = (DaysInYear y =? 366).
Proof.
  unfold isLeapYear, DaysInYear.
  rewrite !rem_mod_zero by lia.
  destruct (Z.eqb_spec (y mod 4) 0) as [H4|H4],
           (Z.eqb_spec (y mod 100) 0) as [H100|H100],
           (Z.eqb_spec (y mod 400) 0) as [H400|H400]; simpl; auto;
    exfalso; Z.div_mod_to_equations; lia.
Qed.


Lemma getDaysInMonth_cumulative y mn :
  0 <= mn <= 11 ->
  DaysBeforeMonth y mn + getDaysInMonth y (mn + 1) =
    if mn =? 11 then 365 + leapDay y else DaysBeforeMonth y (mn + 1).
Proof.
  intros Hm. unfold getDaysInMonth, DaysBeforeMonth, leapDay.
  rewrite isLeapYear_DaysInYear.
  assert (Hc : mn = 0 \/ mn = 1 \/ mn = 2 \/ mn = 3 \/ mn = 4 \/ mn = 5 \/
               mn = 6 \/ mn = 7 \/ mn = 8 \/ mn = 9 \/ mn = 10 \/ mn = 11)
    by lia.
  destruct (DaysInYear y =? 366);
    repeat (destruct Hc as [->|Hc]; [reflexivity|]); subst; reflexivity.
Qed.

Lemma InLeapYear_leapDay t : InLeapYear t = leapDay (YearFromTime t).
Proof. reflexivity. Qed.

Lemma DaysInYear_leapDay y : DaysInYear y = 365 + leapDay y.
Proof.
  unfold leapDay. destruct (DaysInYear_cases y) as [H|H]; rewrite H; reflexivity.
Qed.

Lemma DateFromTime_range t :
  1 <= DateFromTime t <=
    getDaysInMonth (YearFromTime t) (MonthFromTime t + 1).
Proof.
  pose proof (DayWithinYear_bounds t) as Hb.
  rewrite DaysInYear_leapDay in Hb.
  pose proof (getDaysInMonth_cumulative (YearFromTime t) (MonthFromTime t)
                (MonthFromTime_range t)) as Hc.
  revert Hc.
  generalize (getDaysInMonth (YearFromTime t) (MonthFromTime t + 1)). intros g.
  unfold DateFromTime, MonthFromTime, DaysBeforeMonth.
  rewrite InLeapYear_leapDay.
  assert (Hl : 0 <= leapDay (YearFromTime t) <= 1)
    by (unfold leapDay; destruct (_ =? _); lia).
  generalize dependent (leapDay (YearFromTime t)). intros l Hb Hl.
  generalize dependent (DayWithinYear t). intros d Hb.
  split_ltb; simpl; lia.
Qed.

Lemma isValidDate_decompose t :
  isValidDate (YearFromTime t) (MonthFromTime t + 1) (DateFromTime t) = true.
Proof.
  pose proof (MonthFromTime_range t). pose proof (DateFromTime_range t).
  unfold isValidDate.
  destruct (Z.ltb_spec (MonthFromTime t + 1) 1); [lia|].
  destruct (Z.gtb_spec (MonthFromTime t + 1) 12); [lia|]. simpl.
  destruct (Z.ltb_spec (DateFromTime t) 1); [lia|].
  apply Z.leb_le. lia.
Qed.

Lemma isValidTime_decompose t :
  isValidTime (HourFromTime t) (MinFromTime t) (SecFromTime t) (msFromTime t)
  = true.
Proof.
  unfold isValidTime, HourFromTime, MinFromTime, SecFromTime, msFromTime,
    msPerSecond.
  pose proof (Z.mod_pos_bound (t / msPerHour) 24).
  pose proof (Z.mod_pos_bound (t / msPerMinute) 60).
  pose proof (Z.mod_pos_bound (t / 1000) 60).
  pose proof (Z.mod_pos_bound t 1000).
  repeat (apply andb_true_intro; split);
    first [apply Z.geb_le | apply Z.leb_le]; lia.
Qed.

Lemma MakeTime_decompose t :
  MakeTime (HourFromTime t) (MinFromTime t) (SecFromTime t) (msFromTime t)
  = TimeWithinDay t.
Proof.
  unfold MakeTime, HourFromTime, MinFromTime, SecFromTime, msFromTime,
    TimeWithinDay, msPerHour, msPerMinute, msPerSecond, msPerDay.
  Z.div_mod_to_equations. lia.
Qed.

Lemma MakeDate_decompose t :
  MakeDate (MakeDay (YearFromTime t) (MonthFromTime t) (DateFromTime t))
           (MakeTime (HourFromTime t) (MinFromTime t) (SecFromTime t)
                     (msFromTime t)) = t.
Proof.
  rewrite MakeDay_decompose, MakeTime_decompose.
  unfold MakeDate, Day, TimeWithinDay, msPerDay.
  Z.div_mod_to_equations. lia.
Qed.

Lemma MakeDay_shift y m dt n : MakeDay y m (dt + n) = MakeDay y m dt + n.
Proof. unfold MakeDay. lia. Qed.

Lemma TimeClip_in_range t : Z.abs t <= maxTime -> TimeClip t = Some t.
Proof.
  intros H. unfold TimeClip. destruct (Z.gtb_spec (Z.abs t) maxTime); [lia|auto].
Qed.

Lemma TimeClip_out_of_range t : maxTime < Z.abs t -> TimeClip t = NaN.
Proof.
  intros H. unfold TimeClip. destruct (Z.gtb_spec (Z.abs t) maxTime); [auto|lia].
Qed.

Lemma MakeFullYear_id y : ~ (0 <= y <= 99) -> MakeFullYear y = y.
Proof.
  intros H. unfold MakeFullYear.
  destruct (Z.leb_spec 0 y), (Z.leb_spec y 99); simpl; auto; lia.
Qed.

Lemma UTC_decompose t :
  Z.abs t <= maxTime ->
  ~ (0 <= YearFromTime t <= 99) ->
  UTC (YearFromTime t) (MonthFromTime t) (DateFromTime t)
      (HourFromTime t) (MinFromTime t) (SecFromTime t) (msFromTime t) = Some t.
Proof.
  intros Hr Hy. unfold UTC. rewrite MakeFullYear_id by exact Hy.
  rewrite MakeDate_decompose. now apply TimeClip_in_range.
Qed.

Lemma setUTCDate_shift t n :
  setUTCDate (Some t) (num_add (getUTCDate (Some t)) (Some n))
  = TimeClip (t + n * msPerDay).
Proof.
  simpl. f_equal. rewrite MakeDay_shift, MakeDay_decompose.
  unfold MakeDate, Day, TimeWithinDay, msPerDay.
  Z.div_mod_to_equations. lia.
Qed.

End JSDateFacts.

Import JSDate JSDateFacts.

(** ** Calendar rules *)

Lemma isLeapYear_spec_eq year : isLeapYear_spec year = isLeapYear year.
Proof.
  unfold isLeapYear_spec, isLeapYear. rewrite !rem_mod_zero by lia.
  destruct (Z.eqb_spec (year mod 4) 0) as [H4|H4],
           (Z.eqb_spec (year mod 100) 0) as [H100|H100],
           (Z.eqb_spec (year mod 400) 0) as [H400|H400]; simpl; auto;
    exfalso; Z.div_mod_to_equations; lia.
Qed.

Lemma month_cases m :
  1 <= m <= 12 ->
  m = 1 \/ m = 2 \/ m = 3 \/ m = 4 \/ m = 5 \/ m = 6 \/
  m = 7 \/ m = 8 \/ m = 9 \/ m = 10 \/ m = 11 \/ m = 12.
Proof. lia. Qed.

Lemma getDaysInMonth_outside year month :
  ~ (1 <= month <= 12) -> getDaysInMonth year month = 0.
Proof.
  intros Hm. unfold getDaysInMonth.
  destruct (Z.eqb_spec month 2); [lia|]. cbn [andb].
  destruct (Z.ltb_spec (month - 1) 0); [reflexivity|].
  apply nth_overflow. cbn [List.length daysInMonth_table]. lia.
Qed.

(** C7 (as the code has it): inside 1..12 [getDaysInMonth] is the table of
    the specification, with 29 for February of a leap year; outside 1..12 it
    returns the number 0 and signals nothing. *)
Theorem getDaysInMonth_table_or_zero (year month : Z) :
  (1 <= month <= 12 ->
   daysInMonth_spec year month = Some (getDaysInMonth year month)) /\
  (~ (1 <= month <= 12) -> getDaysInMonth year month = 0).
Proof.
  split.
  - intros Hm. unfold daysInMonth_spec, getDaysInMonth.
    rewrite isLeapYear_spec_eq.
    destruct (Z.leb_spec 1 month); [|lia].
    destruct (Z.leb_spec month 12); [|lia]. cbn [andb].
    destruct ((month =? 2) && isLeapYear year); [reflexivity|].
    destruct (Z.ltb_spec (month - 1) 0); [lia|reflexivity].
  - apply getDaysInMonth_outside.
Qed.

(** C7 at February 2024 and at month 13. *)
Lemma getDaysInMonth_table_or_zero_witness :
  daysInMonth_spec 2024 2 = Some (getDaysInMonth 2024 2) /\
  getDaysInMonth 2025 13 = 0.
Proof.
  split.
  - apply (proj1 (getDaysInMonth_table_or_zero 2024 2)). lia.
  - apply (proj2 (getDaysInMonth_table_or_zero 2025 13)). lia.
Defined.

(** C7 as stated fails: for month 13 the code returns the number 0, where the
    specification's function signals InvalidField. *)
Lemma getDaysInMonth_month_13_returns_number :
  getDaysInMonth 2025 13 = 0 /\
  daysInMonth_spec 2025 13 = None /\
  Some (getDaysInMonth 2025 13) <> daysInMonth_spec 2025 13.
Proof. repeat split; try (vm_compute; reflexivity). vm_compute. discriminate. Qed.

(** ** C1: month addition *)

(** C1 fails on the code: [addMonths] of 2025-01-31 by one month is
    2025-03-03, where the clamping rule of the specification gives
    2025-02-28. *)
Theorem addMonths_month_end_overflows :
  exists v r r',
    dateFromComponents 2025 1 31 0 0 0 0 "UTC" = Ok v /\
    addMonths v 1 = Ok r /\
    (year r, month r, day r) = (2025, 3, 3) /\
    getDaysInMonth 2025 2 = 28 /\
    addMonths_spec v 1 = Ok r' /\
    (year r', month r', day r') = (2025, 2, 28).
Proof.
  exists (mkChronoDate 2025 1 31 0 0 0 0 (Some 1738281600000) "UTC"),
         (mkChronoDate 2025 3 3 0 0 0 0 (Some 1740960000000) "UTC"),
         (mkChronoDate 2025 2 28 0 0 0 0 (Some 1740700800000) "UTC").
  repeat split; vm_compute; reflexivity.
Qed.

(** ** C2: the stored timestamp *)

Lemma DayFromYear_leapYears y :
  DayFromYear y = 365 * (y - 1970) + (leapYearsBefore y - leapYearsBefore 1970).
Proof.
  unfold DayFromYear, leapYearsBefore.
  change ((1970 - 1) / 4 - (1970 - 1) / 100 + (1970 - 1) / 400) with 477.
  Z.div_mod_to_equations. lia.
Qed.

Lemma DaysBeforeMonth_sum y m :
  1 <= m <= 12 ->
  DaysBeforeMonth y (m - 1) =
  fold_left Z.add
    (map (fun k => getDaysInMonth y (Z.of_nat k))
         (seq 1 (Z.to_nat (m - 1)))) 0.
Proof.
  intros Hm. unfold DaysBeforeMonth, getDaysInMonth, leapDay.
  rewrite isLeapYear_DaysInYear.
  apply month_cases in Hm.
  destruct (DaysInYear y =? 366);
    repeat (destruct Hm as [->|Hm]; [reflexivity|]); subst; reflexivity.
Qed.

Lemma MakeDay_daysFromEpoch y m d :
  1 <= m <= 12 -> MakeDay y (m - 1) d = daysFromEpoch_spec y m d.
Proof.
  intros Hm. rewrite MakeDay_in_year by lia.
  unfold daysFromEpoch_spec.
  rewrite <- DayFromYear_leapYears, <- DaysBeforeMonth_sum by exact Hm. lia.
Qed.

Lemma isValidDate_month year month day :
  isValidDate year month day = true ->
  1 <= month <= 12 /\ 1 <= day <= getDaysInMonth year month.
Proof.
  unfold isValidDate.
  destruct (Z.ltb_spec month 1); simpl; [discriminate|].
  destruct (Z.gtb_spec month 12); simpl; [discriminate|].
  destruct (Z.ltb_spec day 1); simpl; [discriminate|].
  intros Hd%Z.leb_le. lia.
Qed.

Lemma new_Date_TimeClip t : new_Date (TimeClip t) = TimeClip t.
Proof.
  unfold TimeClip. destruct (Z.abs t >? maxTime) eqn:E; simpl; [reflexivity|].
  unfold TimeClip. now rewrite E.
Qed.

Lemma new_Date_UTC y m d h mi s ms :
  new_Date (UTC y m d h mi s ms) = UTC y m d h mi s ms.
Proof. unfold UTC. apply new_Date_TimeClip. Qed.

(** The constructor and what it stores. *)
Lemma ChronoDateImpl_Ok y m d h mi s ms tz v :
  ChronoDateImpl y m d h mi s ms tz = Ok v ->
  isValidDate y m d = true /\ isValidTime h mi s ms = true /\
  v = mkChronoDate y m d h mi s ms (UTC y (m - 1) d h mi s ms) tz.
Proof.
  unfold ChronoDateImpl, getTime. rewrite new_Date_UTC.
  destruct (isValidDate y m d); simpl; [|discriminate].
  destruct (isValidTime h mi s ms); simpl; [|discriminate].
  intros [= <-]. auto.
Qed.

Lemma ChronoDateImpl_valid y m d h mi s ms tz :
  isValidDate y m d = true -> isValidTime h mi s ms = true ->
  ChronoDateImpl y m d h mi s ms tz =
  Ok (mkChronoDate y m d h mi s ms (UTC y (m - 1) d h mi s ms) tz).
Proof.
  intros Hd Ht. unfold ChronoDateImpl, getTime.
  rewrite new_Date_UTC, Hd, Ht. reflexivity.
Qed.

Lemma UTC_linear y m d h mi s ms :
  1 <= m <= 12 -> ~ (0 <= y <= 99) ->
  UTC y (m - 1) d h mi s ms = TimeClip (utcLinearTime y m d h mi s ms).
Proof.
  intros Hm Hy. unfold UTC. rewrite MakeFullYear_id by exact Hy.
  rewrite MakeDay_daysFromEpoch by exact Hm. f_equal.
  unfold MakeDate, MakeTime, utcLinearTime, msPerDay, msPerHour, msPerMinute,
    msPerSecond. lia.
Qed.

(** Outside the years 0..99, and inside the range of time values, the stored
    timestamp is the linear time of the civil fields. *)
Lemma timestamp_linear_time y m d h mi s ms tz v :
  ChronoDateImpl y m d h mi s ms tz = Ok v ->
  ~ (0 <= y <= 99) ->
  Z.abs (utcLinearTime y m d h mi s ms) <= maxTime ->
  timestamp v = Some (utcLinearTime y m d h mi s ms).
Proof.
  intros Hv Hy Hr. apply ChronoDateImpl_Ok in Hv as (Hd & _ & ->).
  apply isValidDate_month in Hd as [Hm _]. simpl.
  rewrite UTC_linear by assumption. now apply TimeClip_in_range.
Qed.

(** C2 fails on the code: a year in 0..99 goes through [Date.UTC], which reads
    it as 1900 + year, so the value built from the fields (50, 1, 1) stores
    the timestamp of 1950-01-01, not the linear time of 0050-01-01. *)
Theorem timestamp_of_two_digit_year :
  exists v,
    dateFromComponents 50 1 1 0 0 0 0 "UTC" = Ok v /\
    year v = 50 /\
    timestamp v = Some (-631152000000) /\
    utcLinearTime 50 1 1 0 0 0 0 = -60589296000000 /\
    utcLinearTime 1950 1 1 0 0 0 0 = -631152000000.
Proof.
  exists (mkChronoDate 50 1 1 0 0 0 0 (Some (-631152000000)) "UTC").
  repeat split; vm_compute; reflexivity.
Qed.

(** ** C5: same week *)

Lemma isSame_week_window (a b : ChronoDate) :
  isSame a b UWeek = true <->
  exists ta tb,
    timestamp a = Some ta /\ timestamp b = Some tb /\
    Z.abs (ta - tb) < 604800000.
Proof.
  unfold isSame. change MILLISECONDS_IN_WEEK with 604800000.
  destruct (timestamp a) as [ta|], (timestamp b) as [tb|]; simpl.
  - rewrite Z.eqb_eq. split.
    + intros H. exists ta, tb. repeat split; auto.
      Z.div_mod_to_equations; lia.
    + intros (ta' & tb' & [= <-] & [= <-] & H).
      apply Z.div_small. lia.
  - split; [discriminate|]. intros (? & ? & _ & [=] & _).
  - split; [discriminate|]. intros (? & ? & [=] & _).
  - split; [discriminate|]. intros (? & ? & [=] & _).
Qed.

(** C5 (as the code has it): [isSame(a, b, 'week')] holds exactly when both
    timestamps are numbers less than 7 days (604,800,000 ms) apart.  The
    window slides with the pair: nothing is aligned to the 7-day buckets
    counted from the epoch.  Two instants of one such bucket are always the
    same week; two instants of the same week need not be in one bucket. *)
Theorem isSame_week_sliding_window (a b : ChronoDate) :
  (isSame a b UWeek = true <->
   exists ta tb,
     timestamp a = Some ta /\ timestamp b = Some tb /\
     Z.abs (ta - tb) < 604800000) /\
  (forall ta tb,
     timestamp a = Some ta -> timestamp b = Some tb ->
     weekBucket ta = weekBucket tb -> isSame a b UWeek = true).
Proof.
  split; [apply isSame_week_window|].
  intros ta tb Ha Hb Hw. apply isSame_week_window.
  exists ta, tb. repeat split; try assumption.
  unfold weekBucket in Hw. change MILLISECONDS_IN_WEEK with 604800000 in Hw.
  Z.div_mod_to_equations. lia.
Qed.

(** C5 as stated fails: day 6 and day 8 after the epoch lie in the buckets 0
    and 1 counted from the epoch, and compare as the same week. *)
Lemma isSame_week_not_aligned :
  let a := mkChronoDate 1970 1 7 0 0 0 0 (Some 518400000) "UTC" in
  let b := mkChronoDate 1970 1 9 0 0 0 0 (Some 691200000) "UTC" in
  isSame a b UWeek = true /\
  weekBucket 518400000 = 0 /\ weekBucket 691200000 = 1 /\
  ~ (forall (x y : ChronoDate) (tx ty : Z),
       timestamp x = Some tx -> timestamp y = Some ty ->
       (isSame x y UWeek = true <-> weekBucket tx = weekBucket ty)).
Proof.
  cbv zeta. split; [vm_compute; reflexivity|].
  split; [vm_compute; reflexivity|]. split; [vm_compute; reflexivity|].
  intros H.
  specialize (H (mkChronoDate 1970 1 7 0 0 0 0 (Some 518400000) "UTC")
                (mkChronoDate 1970 1 9 0 0 0 0 (Some 691200000) "UTC")
                518400000 691200000 eq_refl eq_refl).
  assert (E : weekBucket 518400000 = weekBucket 691200000)
    by (apply H; vm_compute; reflexivity).
  vm_compute in E. discriminate E.
Qed.

(** ** C9: min and max *)

Section Reduce.

Context {A : Type} (key : A -> number).

Lemma below_refl a : below key a a.
Proof. unfold below. destruct (key a); [lia|exact I]. Qed.

Lemma below_trans a b c : below key a b -> below key b c -> below key a c.
Proof.
  unfold below. destruct (key a), (key b), (key c); auto; try lia; tauto.
Qed.

Lemma pick_below kept current : below key (pick key kept current) kept.
Proof.
  unfold pick. destruct (num_lt (key current) (key kept)) eqn:E;
    [|apply below_refl].
  unfold below, num_lt in *.
  destruct (key current), (key kept); try discriminate.
  apply Z.ltb_lt in E. lia.
Qed.

Lemma below_not_lt r a : below key r a -> num_lt (key a) (key r) = false.
Proof.
  unfold below, num_lt. destruct (key r), (key a); auto.
  intros H. apply Z.ltb_ge. exact H.
Qed.

Lemma below_not_lt_other r a x :
  below key r a -> num_lt (key x) (key a) = false ->
  num_lt (key x) (key r) = false.
Proof.
  unfold below, num_lt. destruct (key r), (key a), (key x); auto; try tauto.
  intros H1 H2%Z.ltb_ge. apply Z.ltb_ge. lia.
Qed.

Lemma reduce_pick_below rest : forall first,
  below key (reduce (pick key) first rest) first.
Proof.
  unfold reduce. induction rest as [|x rest IH]; intros first; simpl.
  - apply below_refl.
  - eapply below_trans; [apply IH|apply pick_below].
Qed.

Lemma reduce_pick_In rest : forall first,
  In (reduce (pick key) first rest) (first :: rest).
Proof.
  unfold reduce. induction rest as [|x rest IH]; intros first; simpl.
  - auto.
  - destruct (IH (pick key first x)) as [H|H]; [|auto].
    rewrite <- H. unfold pick. destruct (num_lt _ _); auto.
Qed.

Lemma reduce_pick_lower rest : forall first y,
  In y (first :: rest) ->
  num_lt (key y) (key (reduce (pick key) first rest)) = false.
Proof.
  induction rest as [|x rest IH]; intros first y Hy.
  - destruct Hy as [<-|[]]. apply below_not_lt, below_refl.
  - change (reduce (pick key) first (x :: rest))
      with (reduce (pick key) (pick key first x) rest).
    pose proof (reduce_pick_below rest (pick key first x)) as Hb.
    destruct Hy as [<-|[<-|Hy]]; [| |apply IH; right; exact Hy].
    + apply below_not_lt. eapply below_trans; [exact Hb|apply pick_below].
    + revert Hb. unfold pick.
      destruct (num_lt (key x) (key first)) eqn:E; intros Hb.
      * now apply below_not_lt.
      * eapply below_not_lt_other; eassumption.
Qed.

End Reduce.

Lemma reduce_ext {A} (f g : A -> A -> A) :
  (forall a b, f a b = g a b) ->
  forall rest first, reduce f first rest = reduce g first rest.
Proof.
  intros H. unfold reduce. induction rest as [|x rest IH]; intros first; simpl.
  - reflexivity.
  - rewrite H. apply IH.
Qed.

Lemma isAfter_neg a b :
  isAfter a b = num_lt (neg_timestamp a) (neg_timestamp b).
Proof.
  unfold isAfter, num_gt, num_lt, neg_timestamp.
  destruct (timestamp a) as [x|], (timestamp b) as [y|]; simpl; auto.
  destruct (Z.ltb_spec y x), (Z.ltb_spec (- x) (- y)); auto; lia.
Qed.

Lemma max_as_pick first rest :
  reduce (fun latest current =>
            if isAfter current latest then current else latest) first rest
  = reduce (pick neg_timestamp) first rest.
Proof.
  apply reduce_ext. intros a b. unfold pick. now rewrite isAfter_neg.
Qed.

(** C9: on an empty argument list [min] and [max] throw; on a non-empty one
    they return the fold of the list by [isBefore] (resp. [isAfter]) seeded
    with its first element, which is an element of the list that no element
    is strictly before (resp. after): the earliest (resp. latest) value. *)
Theorem min_max_fold :
  min [] = Throw (Error "Cannot find minimum of empty array") /\
  max [] = Throw (Error "Cannot find maximum of empty array") /\
  (forall first rest, exists r,
      min (first :: rest) = Ok r /\
      r = fold_left (fun earliest current =>
                       if isBefore current earliest then current else earliest)
                    rest first /\
      In r (first :: rest) /\
      (forall y, In y (first :: rest) -> isBefore y r = false) /\
      (forall y ty tr, In y (first :: rest) ->
         timestamp y = Some ty -> timestamp r = Some tr -> tr <= ty)) /\
  (forall first rest, exists r,
      max (first :: rest) = Ok r /\
      r = fold_left (fun latest current =>
                       if isAfter current latest then current else latest)
                    rest first /\
      In r (first :: rest) /\
      (forall y, In y (first :: rest) -> isAfter y r = false) /\
      (forall y ty tr, In y (first :: rest) ->
         timestamp y = Some ty -> timestamp r = Some tr -> ty <= tr)).
Proof.
  split; [reflexivity|]. split; [reflexivity|]. split.
  - intros first rest. eexists. split; [reflexivity|].
    split; [reflexivity|].
    assert (Hlow : forall y, In y (first :: rest) ->
              isBefore y (reduce (pick timestamp) first rest) = false)
      by (intros y Hy; apply (reduce_pick_lower timestamp rest first y Hy)).
    split; [apply (reduce_pick_In timestamp)|]. split; [exact Hlow|].
    intros y ty tr Hy Ey Er. specialize (Hlow y Hy). revert Hlow.
    unfold isBefore, num_lt. unfold reduce, pick in Er |- *.
    unfold isBefore in Er. rewrite Ey, Er. intros H%Z.ltb_ge. exact H.
  - intros first rest. eexists. split; [reflexivity|].
    split; [reflexivity|].
    fold (reduce (fun latest current : ChronoDate =>
                    if isAfter current latest then current else latest)
                 first rest).
    rewrite max_as_pick.
    assert (Hlow : forall y, In y (first :: rest) ->
              isAfter y (reduce (pick neg_timestamp) first rest) = false).
    { intros y Hy. rewrite isAfter_neg.
      apply (reduce_pick_lower neg_timestamp rest first y Hy). }
    split; [apply (reduce_pick_In neg_timestamp)|]. split; [exact Hlow|].
    intros y ty tr Hy Ey Er. specialize (Hlow y Hy). revert Hlow.
    unfold isAfter, num_gt, num_lt. rewrite Ey, Er. intros H%Z.ltb_ge. exact H.
Qed.

(** ** C8: day addition against comparison and difference *)

Lemma TimeClip_Some t t' : TimeClip t = Some t' -> t' = t /\ Z.abs t <= maxTime.
Proof.
  unfold TimeClip, NaN. destruct (Z.gtb_spec (Z.abs t) maxTime);
    [discriminate|]. intros [= <-]. auto.
Qed.

Lemma live_timestamp_range d t :
  live d -> timestamp d = Some t -> Z.abs t <= maxTime.
Proof.
  intros (y & m & dd & h & mi & s & ms & tz & Hv) Ht.
  apply ChronoDateImpl_Ok in Hv as (_ & _ & ->). simpl in Ht.
  unfold UTC in Ht. apply TimeClip_Some in Ht as [-> H]. exact H.
Qed.

(** [dateFromNative] of a valid Date: the decomposed fields, and the timestamp
    the constructor derives from them again. *)
Lemma dateFromNative_Some t tz :
  dateFromNative (Some t) tz =
  Ok (mkChronoDate (YearFromTime t) (MonthFromTime t + 1) (DateFromTime t)
        (HourFromTime t) (MinFromTime t) (SecFromTime t) (msFromTime t)
        (UTC (YearFromTime t) (MonthFromTime t) (DateFromTime t)
             (HourFromTime t) (MinFromTime t) (SecFromTime t) (msFromTime t))
        tz).
Proof.
  unfold dateFromNative.
  rewrite ChronoDateImpl_valid
    by (apply isValidDate_decompose || apply isValidTime_decompose).
  now rewrite Z.add_simpl_r.
Qed.

Lemma addDays_numeric d n t :
  timestamp d = Some t -> Z.abs t <= maxTime ->
  addDays d n = dateFromNative (TimeClip (t + n * msPerDay)) (timezone d).
Proof.
  intros Ht Hr. unfold addDays, toNative. rewrite Ht.
  unfold new_Date. rewrite TimeClip_in_range by exact Hr.
  now rewrite setUTCDate_shift.
Qed.

Lemma addDays_out_of_range d n t :
  timestamp d = Some t -> Z.abs t <= maxTime ->
  maxTime < Z.abs (t + n * msPerDay) ->
  addDays d n = Throw (ChronoError "Invalid date").
Proof.
  intros Ht Hr Ho. rewrite (addDays_numeric d n t Ht Hr).
  now rewrite TimeClip_out_of_range.
Qed.

(** C8 (as the code has it): for a live value with a numeric timestamp,
    when the shifted instant stays inside the range of time values and
    outside the years 0..99, [addDays] returns the value of that instant,
    [isBefore] holds exactly for a positive shift, and the day difference is
    the shift; when the shifted instant leaves the range, [addDays] throws. *)
Theorem addDays_isBefore_diff (d : ChronoDate) (n t : Z) :
  live d ->
  timestamp d = Some t ->
  (Z.abs (t + n * 86400000) <= 8640000000000000 ->
   ~ (0 <= YearFromTime (t + n * 86400000) <= 99) ->
   exists d',
     addDays d n = Ok d' /\
     timestamp d' = Some (t + n * 86400000) /\
     (isBefore d d' = true <-> n > 0) /\
     diff d d' UDay = Some n) /\
  (8640000000000000 < Z.abs (t + n * 86400000) ->
   addDays d n = Throw (ChronoError "Invalid date")).
Proof.
  intros Hlive Ht.
  pose proof (live_timestamp_range d t Hlive Ht) as Hrt.
  split; [|intros Ho; now apply (addDays_out_of_range d n t)].
  intros Hr Hy.
  rewrite (addDays_numeric d n t Ht Hrt).
  change msPerDay with 86400000.
  rewrite TimeClip_in_range by exact Hr.
  rewrite dateFromNative_Some. eexists. split; [reflexivity|].
  rewrite UTC_decompose by assumption. simpl.
  split; [reflexivity|]. split.
  - unfold isBefore, num_lt. simpl. rewrite Ht. rewrite Z.ltb_lt. lia.
  - unfold diff, num_sub, num_floor_div. simpl. rewrite Ht. simpl.
    f_equal. change MILLISECONDS_IN_DAY with 86400000.
    replace (t + n * 86400000 - t) with (n * 86400000) by lia.
    apply Z.div_mul. lia.
Qed.

(** C8 at 2025-01-15T10:00:00Z: twenty days back, and a shift that leaves
    the range. *)
Lemma addDays_isBefore_diff_witness :
  let d := mkChronoDate 2025 1 15 10 0 0 0 (Some 1736935200000) "UTC" in
  (exists d',
     addDays d (-20) = Ok d' /\
     timestamp d' = Some (1736935200000 + (-20) * 86400000) /\
     (isBefore d d' = true <-> -20 > 0) /\
     diff d d' UDay = Some (-20)) /\
  addDays d 1000000000 = Throw (ChronoError "Invalid date").
Proof.
  assert (Hlive : live (mkChronoDate 2025 1 15 10 0 0 0 (Some 1736935200000)
                                     "UTC"))
    by (exists 2025, 1, 15, 10, 0, 0, 0, "UTC"; vm_compute; reflexivity).
  split.
  - apply (proj1 (addDays_isBefore_diff
                    (mkChronoDate 2025 1 15 10 0 0 0 (Some 1736935200000)
                                  "UTC")
                    (-20) 1736935200000 Hlive eq_refl)).
    + vm_compute. discriminate.
    + vm_compute. intros [_ H]. apply H. reflexivity.
  - apply (proj2 (addDays_isBefore_diff
                    (mkChronoDate 2025 1 15 10 0 0 0 (Some 1736935200000)
                                  "UTC")
                    1000000000 1736935200000 Hlive eq_refl)).
    vm_compute. reflexivity.
Defined.

(** C8 as stated fails: a shift that leaves the range of time values makes
    [addDays] throw, so there is no value to compare. *)
Lemma addDays_out_of_range_throws :
  let d := mkChronoDate 2025 1 15 0 0 0 0 (Some 1736899200000) "UTC" in
  dateFromComponents 2025 1 15 0 0 0 0 "UTC" = Ok d /\
  addDays d 1000000000 = Throw (ChronoError "Invalid date") /\
  ~ (forall (v : ChronoDate) (n : Z), live v ->
       exists v', addDays v n = Ok v' /\
                  (isBefore v v' = true <-> n > 0) /\
                  diff v v' UDay = Some n).
Proof.
  assert (H1 : dateFromComponents 2025 1 15 0 0 0 0 "UTC" =
               Ok (mkChronoDate 2025 1 15 0 0 0 0 (Some 1736899200000) "UTC"))
    by (vm_compute; reflexivity).
  assert (H2 : addDays (mkChronoDate 2025 1 15 0 0 0 0 (Some 1736899200000)
                          "UTC") 1000000000
               = Throw (ChronoError "Invalid date"))
    by (vm_compute; reflexivity).
  cbv zeta. split; [exact H1|]. split; [exact H2|].
  intros H.
  destruct (H (mkChronoDate 2025 1 15 0 0 0 0 (Some 1736899200000) "UTC")
              1000000000) as (v' & Hv & _).
  - exists 2025, 1, 15, 0, 0, 0, 0, "UTC". exact H1.
  - rewrite H2 in Hv. discriminate.
Qed.

(** The same defect as in C2, seen through [addDays]: stepping one day back
    from 0100-01-01 lands on the fields of 0099-12-31, whose timestamp the
    constructor derives as that of 1999-12-31, so the earlier day compares as
    later. *)
Lemma addDays_into_two_digit_year :
  let d := mkChronoDate 100 1 1 0 0 0 0 (Some (-59011459200000)) "UTC" in
  let d' := mkChronoDate 99 12 31 0 0 0 0 (Some 946598400000) "UTC" in
  dateFromComponents 100 1 1 0 0 0 0 "UTC" = Ok d /\
  addDays d (-1) = Ok d' /\
  isBefore d d' = true /\
  diff d d' UDay = Some 693959.
Proof. repeat split; vm_compute; reflexivity. Qed.

(** ** Strings *)

Lemma length_append (a b : string) :
  String.length (a +:+ b) = (String.length a + String.length b)%nat.
Proof. induction a as [|c a IH]; simpl; [reflexivity|now rewrite IH]. Qed.

Lemma append_assoc (a b c : string) : (a +:+ b) +:+ c = a +:+ (b +:+ c).
Proof.
  induction a as [|x a IH]; [reflexivity|].
  change (String x ((a +:+ b) +:+ c) = String x (a +:+ (b +:+ c))).
  now rewrite IH.
Qed.

Lemma eqb_empty_false (s : string) :
  String.length s <> O -> String.eqb s "" = false.
Proof. destruct s; simpl; [congruence|reflexivity]. Qed.

Lemma isDigit_neq c x :
  isDigit c = true -> isDigit x = false -> Ascii.eqb c x = false.
Proof.
  intros Hc Hx. destruct (Ascii.eqb_spec c x) as [->|]; [congruence|reflexivity].
Qed.

Lemma noChar_append c a b :
  noChar c (a +:+ b) = noChar c a && noChar c b.
Proof.
  induction a as [|x a IH]; simpl; [reflexivity|].
  rewrite IH. now rewrite andb_assoc.
Qed.

Lemma allDigits_noChar c s :
  isDigit c = false -> allDigits s = true -> noChar c s = true.
Proof.
  intros Hc. induction s as [|x s IH]; simpl; [reflexivity|].
  intros [Hx Hs]%andb_prop. rewrite (isDigit_neq x c Hx Hc). simpl. auto.
Qed.

Lemma split_noChar sep s : noChar sep s = true -> split sep s = [s].
Proof.
  induction s as [|c s IH]; simpl; [reflexivity|].
  intros [Hc Hs]%andb_prop. apply negb_true_iff in Hc. rewrite Hc.
  now rewrite IH.
Qed.

Lemma split_nonempty sep s : split sep s <> [].
Proof.
  destruct s as [|c s]; simpl; [discriminate|].
  destruct (Ascii.eqb c sep); [discriminate|].
  destruct (split sep s); discriminate.
Qed.

Lemma split_append_sep sep a b :
  noChar sep a = true ->
  split sep (a +:+ String sep b) = a :: split sep b.
Proof.
  induction a as [|c a IH]; simpl.
  - intros _. now rewrite Ascii.eqb_refl.
  - intros [Hc Ha]%andb_prop. apply negb_true_iff in Hc. rewrite Hc.
    now rewrite IH.
Qed.

Lemma substring_prefix (a b : string) :
  substring 0 (String.length a) (a +:+ b) = a.
Proof.
  induction a as [|c a IH].
  - destruct b; reflexivity.
  - change (String c (substring 0 (String.length a) (a +:+ b)) = String c a).
    now rewrite IH.
Qed.

Lemma substring_all (b : string) : substring 0 (String.length b) b = b.
Proof.
  induction b as [|c b IH]; [reflexivity|].
  change (String c (substring 0 (String.length b) b) = String c b).
  now rewrite IH.
Qed.

Lemma substring_suffix (a b : string) :
  substring (String.length a) (String.length b) (a +:+ b) = b.
Proof.
  induction a as [|c a IH]; [apply substring_all|exact IH].
Qed.

Lemma endsWith_snoc (a : string) (c : ascii) :
  endsWith (a +:+ String c "") c = true.
Proof.
  unfold endsWith. rewrite length_append. simpl.
  rewrite Nat.add_1_r.
  change 1%nat with (String.length (String c "")).
  rewrite substring_suffix. apply String.eqb_refl.
Qed.

Lemma slice_drop_last_append (a b : string) :
  slice_drop_last (a +:+ b) (String.length b) = a.
Proof.
  unfold slice_drop_last. rewrite length_append.
  replace (String.length a + String.length b - String.length b)%nat
    with (String.length a) by lia.
  apply substring_prefix.
Qed.

Lemma endsWith_last_char (a : string) (c x : ascii) :
  Ascii.eqb c x = false -> endsWith (a +:+ String c "") x = false.
Proof.
  intros H. unfold endsWith. rewrite length_append. simpl.
  rewrite Nat.add_1_r.
  change 1%nat with (String.length (String c "")).
  rewrite substring_suffix. simpl. now rewrite H.
Qed.

(** ** Decimal rendering of the fields *)

Lemma pad_ok_upto (len : nat) (bound : Z) :
  forallb (fun k => pad_ok len (Z.of_nat k)) (seq 0 (Z.to_nat bound)) = true ->
  forall n, 0 <= n < bound ->
    digits len (padZero n len) /\ parseInt (padZero n len) = n.
Proof.
  intros Hall n Hn. rewrite forallb_forall in Hall.
  assert (Hin : In (Z.to_nat n) (seq 0 (Z.to_nat bound))) by (apply in_seq; lia).
  specialize (Hall (Z.to_nat n) Hin). rewrite Z2Nat.id in Hall by lia.
  unfold pad_ok in Hall.
  apply andb_prop in Hall as [Hl Hp]. apply andb_prop in Hl as [Hl Hd].
  apply Nat.eqb_eq in Hl. apply Z.eqb_eq in Hp. unfold digits. auto.
Qed.

Lemma padZero4 n :
  0 <= n <= 9999 -> digits 4 (padZero n 4) /\ parseInt (padZero n 4) = n.
Proof.
  intros H. apply (pad_ok_upto 4 10000); [vm_compute; reflexivity|lia].
Qed.

Lemma padZero3 n :
  0 <= n <= 999 -> digits 3 (padZero n 3) /\ parseInt (padZero n 3) = n.
Proof.
  intros H. apply (pad_ok_upto 3 1000); [vm_compute; reflexivity|lia].
Qed.

Lemma padZero2 n :
  0 <= n <= 99 -> digits 2 (padZero n 2) /\ parseInt (padZero n 2) = n.
Proof.
  intros H. apply (pad_ok_upto 2 100); [vm_compute; reflexivity|lia].
Qed.

(** ** The ISO parser on rendered text *)

Ltac chars s Hl :=
  repeat (destruct s as [|? s]; simpl in Hl; try discriminate Hl).

Ltac digit_facts Hd :=
  simpl in Hd; repeat (apply andb_prop in Hd as [? Hd]); clear Hd.

Ltac use_digit_facts :=
  repeat match goal with
         | H : isDigit ?c = true |- context [isDigit ?c] => rewrite H
         end.

Ltac explode s H :=
  let Hl := fresh "Hl" in let Hd := fresh "Hd" in
  destruct H as [Hl Hd]; chars s Hl; digit_facts Hd; clear Hl.

Lemma match_date_rendered Y M D :
  digits 4 Y -> digits 2 M -> digits 2 D ->
  match_date (Y +:+ "-" +:+ M +:+ "-" +:+ D) = Some (Y, M, D).
Proof.
  intros HY HM HD. explode Y HY. explode M HM. explode D HD.
  unfold match_date. cbv [String.append]. use_digit_facts. reflexivity.
Qed.

Lemma match_time_rendered H Mi S :
  digits 2 H -> digits 2 Mi -> digits 2 S ->
  match_time (H +:+ ":" +:+ Mi +:+ ":" +:+ S) = Some (H, Mi, S, None).
Proof.
  intros HH HM HS. explode H HH. explode Mi HM. explode S HS.
  unfold match_time. cbv [String.append]. use_digit_facts. reflexivity.
Qed.

Lemma match_time_rendered_frac H Mi S F :
  digits 2 H -> digits 2 Mi -> digits 2 S -> digits 3 F ->
  match_time ((H +:+ ":" +:+ Mi +:+ ":" +:+ S) +:+ "." +:+ F)
  = Some (H, Mi, S, Some F).
Proof.
  intros HH HM HS HF. explode H HH. explode Mi HM. explode S HS. explode F HF.
  unfold match_time. cbv [String.append allDigits]. use_digit_facts.
  reflexivity.
Qed.

Lemma append_empty_r (s : string) : s +:+ "" = s.
Proof.
  induction s as [|a s IH]; [reflexivity|].
  change (String a (s +:+ "") = String a s). now rewrite IH.
Qed.

Lemma padEnd_full (s : string) (n : nat) (c : ascii) :
  String.length s = n -> padEnd s n c = s.
Proof.
  intros <-. unfold padEnd. rewrite Nat.sub_diag. apply append_empty_r.
Qed.

Lemma slice_drop_last_snoc (a : string) (c : ascii) :
  slice_drop_last (a +:+ String c "") 1 = a.
Proof. apply (slice_drop_last_append a (String c "")). Qed.

Lemma noChar_T_date Y M D :
  digits 4 Y -> digits 2 M -> digits 2 D ->
  noChar "T" (Y +:+ "-" +:+ M +:+ "-" +:+ D) = true.
Proof.
  intros [_ HY] [_ HM] [_ HD]. rewrite !noChar_append.
  rewrite (allDigits_noChar "T" Y), (allDigits_noChar "T" M),
    (allDigits_noChar "T" D) by (assumption || reflexivity).
  reflexivity.
Qed.

Lemma noChar_T_time H Mi S :
  digits 2 H -> digits 2 Mi -> digits 2 S ->
  noChar "T" (H +:+ ":" +:+ Mi +:+ ":" +:+ S) = true.
Proof.
  intros [_ HH] [_ HM] [_ HS]. rewrite !noChar_append.
  rewrite (allDigits_noChar "T" H), (allDigits_noChar "T" Mi),
    (allDigits_noChar "T" S) by (assumption || reflexivity).
  reflexivity.
Qed.

Lemma parseISO_rendered Y M D H Mi S fr ms :
  digits 4 Y -> digits 2 M -> digits 2 D ->
  digits 2 H -> digits 2 Mi -> digits 2 S ->
  rendered_fraction fr ms ->
  isValidDate (parseInt Y) (parseInt M) (parseInt D) = true ->
  isValidTime (parseInt H) (parseInt Mi) (parseInt S) ms = true ->
  parseISO ((Y +:+ "-" +:+ M +:+ "-" +:+ D) +:+ "T" +:+
            (H +:+ ":" +:+ Mi +:+ ":" +:+ S) +:+ fr +:+ "Z")
  = dateFromComponents (parseInt Y) (parseInt M) (parseInt D)
      (parseInt H) (parseInt Mi) (parseInt S) ms "UTC".
Proof.
  intros HY HM HD HH HMi HS Hfr Hvd Hvt.
  pose proof (match_date_rendered Y M D HY HM HD) as Hdate.
  pose proof (noChar_T_date Y M D HY HM HD) as HnT.
  pose proof (noChar_T_time H Mi S HH HMi HS) as HnT'.
  assert (Htime : match_time ((H +:+ ":" +:+ Mi +:+ ":" +:+ S) +:+ fr)
                  = Some (H, Mi, S,
                          match fr with
                          | EmptyString => None
                          | String _ F => Some F
                          end)).
  { destruct Hfr as [|F HF].
    - rewrite append_empty_r. now apply match_time_rendered.
    - now apply match_time_rendered_frac. }
  assert (HnTfr : noChar "T" fr = true).
  { destruct Hfr as [|F [_ HF]]; [reflexivity|].
    change ("." +:+ F) with (String "." F). simpl.
    now apply allDigits_noChar. }
  assert (Hlen : String.length (H +:+ ":" +:+ Mi +:+ ":" +:+ S) <> O).
  { destruct HH as [HH _]. rewrite length_append, HH. lia. }
  generalize dependent (Y +:+ "-" +:+ M +:+ "-" +:+ D). intros date Hdate HnT.
  generalize dependent (H +:+ ":" +:+ Mi +:+ ":" +:+ S).
  intros time HnT' Htime Hlen.
  unfold parseISO.
  rewrite eqb_empty_false
    by (rewrite length_append; change ("T" +:+ ?x) with (String "T" x);
        simpl; lia).
  change ("T" +:+ time +:+ fr +:+ "Z") with (String "T" (time +:+ fr +:+ "Z")).
  rewrite split_append_sep by exact HnT.
  rewrite split_noChar
    by (rewrite !noChar_append, HnT', HnTfr; reflexivity).
  cbn [List.length Nat.eqb Nat.ltb Nat.leb orb nth nth_error].
  rewrite eqb_empty_false by (rewrite length_append; lia).
  rewrite Hdate, Hvd. cbn [negb].
  rewrite <- append_assoc.
  rewrite endsWith_snoc.
  rewrite slice_drop_last_snoc.
  rewrite Htime.
  replace (match
            match fr with
            | EmptyString => None
            | String _ F => Some F
            end
          with
          | Some f => parseInt (padEnd f 3 "0")
          | None => 0
          end) with ms.
  - now rewrite Hvt.
  - destruct Hfr as [|F [HF _]]; [reflexivity|].
    change ("." +:+ F) with (String "." F). cbn iota.
    now rewrite padEnd_full.
Qed.

(** ** C3: round trips *)

Lemma getDaysInMonth_le_31 y m : getDaysInMonth y m <= 31.
Proof.
  destruct (Z.le_gt_cases 1 m) as [H1|H1]; [destruct (Z.le_gt_cases m 12)|].
  - unfold getDaysInMonth.
    assert (Hm : 1 <= m <= 12) by lia. apply month_cases in Hm.
    destruct (isLeapYear y);
      repeat (destruct Hm as [->|Hm]; [vm_compute; discriminate|]);
      subst; vm_compute; discriminate.
  - rewrite getDaysInMonth_outside; lia.
  - rewrite getDaysInMonth_outside; lia.
Qed.

Lemma isValidTime_ranges h mi s ms :
  isValidTime h mi s ms = true ->
  0 <= h <= 23 /\ 0 <= mi <= 59 /\ 0 <= s <= 59 /\ 0 <= ms <= 999.
Proof.
  unfold isValidTime. intros H.
  repeat (apply andb_prop in H as [H ?]).
  repeat match goal with
         | H : (_ >=? _) = true |- _ => apply Z.geb_le in H
         | H : (_ <=? _) = true |- _ => apply Z.leb_le in H
         end. lia.
Qed.

Lemma toISOString_parsed y m d h mi s ms tz v :
  0 <= y <= 9999 ->
  dateFromComponents y m d h mi s ms tz = Ok v ->
  parseISO (toISOString v) =
  Ok (mkChronoDate y m d h mi s ms (timestamp v) "UTC").
Proof.
  intros Hy Hv. apply ChronoDateImpl_Ok in Hv as (Hvd & Hvt & ->).
  pose proof (isValidDate_month _ _ _ Hvd) as [Hm Hd].
  pose proof (getDaysInMonth_le_31 y m) as H31.
  pose proof (isValidTime_ranges _ _ _ _ Hvt) as (Hh & Hmi & Hs & Hms).
  destruct (padZero4 y Hy) as [DY PY].
  destruct (padZero2 m) as [DM PM]; [lia|].
  destruct (padZero2 d) as [DD PD]; [lia|].
  destruct (padZero2 h) as [DH PH]; [lia|].
  destruct (padZero2 mi) as [DMi PMi]; [lia|].
  destruct (padZero2 s) as [DS PS]; [lia|].
  unfold toISOString. cbn [year month day hour minute second millisecond
                            timestamp].
  rewrite (parseISO_rendered _ _ _ _ _ _ _ ms DY DM DD DH DMi DS).
  - rewrite PY, PM, PD, PH, PMi, PS.
    unfold dateFromComponents. now rewrite ChronoDateImpl_valid.
  - destruct (Z.gtb_spec ms 0) as [Hpos|Hzero].
    + destruct (padZero3 ms) as [DMs PMs]; [lia|].
      rewrite <- PMs at 2. now constructor.
    + replace ms with 0 by lia. constructor.
  - now rewrite PY, PM, PD.
  - now rewrite PH, PMi, PS.
Qed.

Lemma dateFromTimestamp_rederives ts tz :
  Z.abs ts <= maxTime ->
  ~ (0 <= YearFromTime ts <= 99) ->
  exists v,
    dateFromTimestamp (Some ts) tz = Ok v /\
    timestamp v = Some ts /\
    UTC (year v) (month v - 1) (day v) (hour v) (minute v) (second v)
        (millisecond v) = Some ts /\
    utcLinearTime (year v) (month v) (day v) (hour v) (minute v) (second v)
                  (millisecond v) = ts.
Proof.
  intros Hr Hy. unfold dateFromTimestamp, new_Date.
  rewrite TimeClip_in_range by exact Hr. rewrite dateFromNative_Some.
  eexists. split; [reflexivity|].
  cbn [year month day hour minute second millisecond timestamp].
  rewrite Z.add_simpl_r.
  pose proof (UTC_decompose ts Hr Hy) as HU.
  split; [exact HU|]. split; [exact HU|].
  pose proof (MonthFromTime_range ts) as Hm.
  rewrite <- (Z.add_simpl_r (MonthFromTime ts) 1) in HU at 1.
  rewrite UTC_linear in HU by (lia || assumption).
  apply TimeClip_Some in HU as [HU _]. now symmetry.
Qed.

(** C3 (as the code has it): for a year of at most four digits the canonical
    text of a value parses back to the same civil fields and timestamp, with
    zone label UTC; and a timestamp inside the range of time values whose UTC
    year is outside 0..99 is reproduced from the fields it decomposes to. *)
Theorem iso_text_and_timestamp_round_trip :
  (forall y m d h mi s ms tz v,
      0 <= y <= 9999 ->
      dateFromComponents y m d h mi s ms tz = Ok v ->
      parseISO (toISOString v) =
      Ok (mkChronoDate y m d h mi s ms (timestamp v) "UTC")) /\
  (forall ts tz,
      Z.abs ts <= 8640000000000000 ->
      ~ (0 <= YearFromTime ts <= 99) ->
      exists v,
        dateFromTimestamp (Some ts) tz = Ok v /\
        timestamp v = Some ts /\
        UTC (year v) (month v - 1) (day v) (hour v) (minute v) (second v)
            (millisecond v) = Some ts /\
        utcLinearTime (year v) (month v) (day v) (hour v) (minute v)
                      (second v) (millisecond v) = ts).
Proof.
  split.
  - exact toISOString_parsed.
  - exact dateFromTimestamp_rederives.
Qed.

(** C3 at 2025-01-15T10:30:45.123 with zone label +05:30, and at the
    timestamp 1736937045123. *)
Lemma iso_text_and_timestamp_round_trip_witness :
  parseISO (toISOString
              (mkChronoDate 2025 1 15 10 30 45 123 (Some 1736937045123)
                            "+05:30")) =
  Ok (mkChronoDate 2025 1 15 10 30 45 123 (Some 1736937045123) "UTC") /\
  exists v,
    dateFromTimestamp (Some 1736937045123) "UTC" = Ok v /\
    timestamp v = Some 1736937045123 /\
    UTC (year v) (month v - 1) (day v) (hour v) (minute v) (second v)
        (millisecond v) = Some 1736937045123 /\
    utcLinearTime (year v) (month v) (day v) (hour v) (minute v)
                  (second v) (millisecond v) = 1736937045123.
Proof.
  split.
  - apply (proj1 iso_text_and_timestamp_round_trip
             2025 1 15 10 30 45 123 "+05:30"
             (mkChronoDate 2025 1 15 10 30 45 123 (Some 1736937045123)
                           "+05:30")).
    + lia.
    + vm_compute. reflexivity.
  - apply (proj2 iso_text_and_timestamp_round_trip 1736937045123 "UTC").
    + vm_compute. discriminate.
    + vm_compute. intros [_ H]. apply H. reflexivity.
Defined.

(** C3 as stated fails: the year 10000 is a valid field, its canonical text
    has five year digits, and the parser takes exactly four. *)
Lemma toISOString_five_digit_year_not_parsed :
  let v := mkChronoDate 10000 1 1 0 0 0 0 (Some 253402300800000) "UTC" in
  dateFromComponents 10000 1 1 0 0 0 0 "UTC" = Ok v /\
  toISOString v = "10000-01-01T00:00:00Z" /\
  parseISO (toISOString v) = Throw (ParseError "Invalid date format").
Proof. repeat split; vm_compute; reflexivity. Qed.

(** The defect of C2 seen from a timestamp: the instant 0050-01-01T00:00:00Z
    decomposes to the year 50, from which the constructor derives the
    timestamp of 1950-01-01. *)
Lemma dateFromTimestamp_two_digit_year :
  dateFromTimestamp (Some (-60589296000000)) "UTC" =
  Ok (mkChronoDate 50 1 1 0 0 0 0 (Some (-631152000000)) "UTC").
Proof. vm_compute. reflexivity. Qed.

(** ** C4: calendar validity in the parser *)

Lemma match_date_noChar_T s g : match_date s = Some g -> noChar "T" s = true.
Proof.
  unfold match_date.
  repeat (destruct s as [|? s]; try discriminate).
  destruct (_ && _) eqn:E; [|discriminate]. intros _.
  do 9 (apply andb_prop in E as [E ?]).
  repeat match goal with
         | H : (_ =? _)%char = true |- _ => apply Ascii.eqb_eq in H; subst
         end.
  cbn [noChar].
  repeat match goal with
         | H : isDigit ?c = true |- _ =>
             rewrite (isDigit_neq c "T" H eq_refl); clear H
         end.
  reflexivity.
Qed.

(** A date section that matches the pattern and names no calendar day is
    rejected with the parser's "Invalid date" error. *)
Lemma parseISO_invalid_calendar_date s ys ms ds :
  match_date s = Some (ys, ms, ds) ->
  isValidDate (parseInt ys) (parseInt ms) (parseInt ds) = false ->
  parseISO s = Throw (ParseError "Invalid date").
Proof.
  intros Hm Hv. pose proof (match_date_noChar_T s _ Hm) as HnT.
  unfold parseISO. rewrite (split_noChar "T" s HnT).
  destruct s as [|c s]; [discriminate Hm|].
  cbn [String.eqb List.length Nat.eqb Nat.ltb Nat.leb orb nth nth_error].
  now rewrite Hm, Hv.
Qed.

(** The same with a time section after it, whatever the time section is. *)
Lemma parseISO_invalid_calendar_date_time s timePart ys ms ds :
  match_date s = Some (ys, ms, ds) ->
  isValidDate (parseInt ys) (parseInt ms) (parseInt ds) = false ->
  noChar "T" timePart = true ->
  parseISO (s +:+ "T" +:+ timePart) = Throw (ParseError "Invalid date").
Proof.
  intros Hm Hv Ht. pose proof (match_date_noChar_T s _ Hm) as HnT.
  unfold parseISO.
  rewrite eqb_empty_false
    by (rewrite length_append; change ("T" +:+ ?x) with (String "T" x);
        simpl; lia).
  change ("T" +:+ timePart) with (String "T" timePart).
  rewrite split_append_sep by exact HnT.
  rewrite (split_noChar "T" timePart Ht).
  cbn [List.length Nat.eqb Nat.ltb Nat.leb orb nth nth_error].
  now rewrite Hm, Hv.
Qed.

(** C4: a date section that is well formed but names no calendar day is
    rejected with a ParseError, alone or followed by a time section; February
    29 parses in the leap year 2024 and is rejected in 2023; the table gives
    29 days to February 2000 and 2024 and 28 to February 1900. *)
Theorem parseISO_leap_year_boundary :
  (forall s ys ms ds,
      match_date s = Some (ys, ms, ds) ->
      isValidDate (parseInt ys) (parseInt ms) (parseInt ds) = false ->
      parseISO s = Throw (ParseError "Invalid date") /\
      forall timePart,
        noChar "T" timePart = true ->
        parseISO (s +:+ "T" +:+ timePart) = Throw (ParseError "Invalid date")) /\
  (exists v, parseISO "2024-02-29" = Ok v /\ day v = 29 /\
             month v = 2 /\ year v = 2024) /\
  parseISO "2023-02-29" = Throw (ParseError "Invalid date") /\
  isValidDate 2023 2 29 = false /\
  getDaysInMonth 2000 2 = 29 /\
  getDaysInMonth 1900 2 = 28 /\
  getDaysInMonth 2024 2 = 29.
Proof.
  split.
  - intros s ys ms ds Hm Hv. split.
    + now apply (parseISO_invalid_calendar_date s ys ms ds).
    + intros timePart Ht.
      now apply (parseISO_invalid_calendar_date_time s timePart ys ms ds).
  - split.
    + exists (mkChronoDate 2024 2 29 0 0 0 0 (Some 1709164800000) "UTC").
      repeat split; vm_compute; reflexivity.
    + repeat split; vm_compute; reflexivity.
Qed.

(** C4 at 2023-02-29, alone and followed by the time section 10:00:00Z. *)
Lemma parseISO_leap_year_boundary_witness :
  parseISO "2023-02-29" = Throw (ParseError "Invalid date") /\
  parseISO "2023-02-29T10:00:00Z" = Throw (ParseError "Invalid date").
Proof.
  destruct (proj1 parseISO_leap_year_boundary "2023-02-29" "2023" "02" "29")
    as [H1 H2].
  - vm_compute. reflexivity.
  - vm_compute. reflexivity.
  - split; [exact H1|]. apply (H2 "10:00:00Z"). vm_compute. reflexivity.
Defined.

(** ** C10: a trailing T *)

Lemma parseISO_trailing_T_eq s :
  noChar "T" s = true -> s <> "" -> parseISO (s +:+ "T") = parseISO s.
Proof.
  intros HnT Hne. unfold parseISO.
  rewrite eqb_empty_false by (rewrite length_append; simpl; lia).
  rewrite (eqb_empty_false s) by (destruct s; simpl; congruence).
  change (s +:+ "T") with (s +:+ String "T" "").
  rewrite split_append_sep by exact HnT.
  rewrite (split_noChar "T" s HnT).
  reflexivity.
Qed.

Lemma parseISO_date_only s v :
  noChar "T" s = true -> parseISO s = Ok v ->
  (hour v, minute v, second v, millisecond v) = (0, 0, 0, 0) /\
  timezone v = "UTC".
Proof.
  intros HnT. unfold parseISO. rewrite (split_noChar "T" s HnT).
  destruct (String.eqb s ""); [discriminate|].
  cbn [List.length Nat.eqb Nat.ltb Nat.leb orb nth nth_error].
  destruct (match_date s) as [[[ys ms] ds]|]; [|discriminate].
  destruct (isValidDate _ _ _); [|discriminate]. cbn [negb].
  change (endsWith "00:00:00" "Z") with false. cbn iota.
  change (match_tz "00:00:00") with (@None string). cbn iota.
  change (match_time "00:00:00") with (Some ("00", "00", "00", @None string)).
  cbn iota. change (parseInt "00") with 0.
  change (isValidTime 0 0 0 0) with true. cbn [negb].
  intros Hv. apply ChronoDateImpl_Ok in Hv as (_ & _ & ->). auto.
Qed.

(** C10: a date section followed by a bare [T] parses to the value of the
    date section alone, with time 00:00:00.000 and zone label UTC. *)
Theorem parseISO_trailing_T (s : string) (v : ChronoDate) :
  noChar "T" s = true ->
  parseISO s = Ok v ->
  parseISO (s +:+ "T") = Ok v /\
  (hour v, minute v, second v, millisecond v) = (0, 0, 0, 0) /\
  timezone v = "UTC".
Proof.
  intros HnT Hv. split.
  - rewrite parseISO_trailing_T_eq; [exact Hv|exact HnT|].
    intros ->. vm_compute in Hv. discriminate.
  - exact (parseISO_date_only s v HnT Hv).
Qed.

(** C10 at the text 2025-01-15T. *)
Lemma parseISO_trailing_T_witness :
  let v := mkChronoDate 2025 1 15 0 0 0 0 (Some 1736899200000) "UTC" in
  parseISO "2025-01-15T" = Ok v /\
  (hour v, minute v, second v, millisecond v) = (0, 0, 0, 0) /\
  timezone v = "UTC".
Proof.
  apply (parseISO_trailing_T "2025-01-15"
           (mkChronoDate 2025 1 15 0 0 0 0 (Some 1736899200000) "UTC")).
  - vm_compute. reflexivity.
  - vm_compute. reflexivity.
Defined.

(** ** C6: the formatter cache and presets *)

Lemma lookup_key_In {V} k (v : V) table :
  lookup_key k table = Some v -> In (k, v) table.
Proof.
  induction table as [|[k' v'] table IH]; simpl; [discriminate|].
  destruct (String.eqb_spec k k') as [->|]; [intros [= ->]; auto|auto].
Qed.

(** No preset is empty, and no preset expands to a preset name. *)
Lemma preset_expansion name pat :
  lookup_key name FORMAT_PRESETS = Some pat ->
  pat <> "" /\ name <> "" /\ lookup_key pat FORMAT_PRESETS = None.
Proof.
  intros H%lookup_key_In.
  assert (Hall : forallb preset_ok FORMAT_PRESETS = true)
    by (vm_compute; reflexivity).
  rewrite forallb_forall in Hall. specialize (Hall _ H).
  unfold preset_ok in Hall. cbn [fst snd] in Hall.
  apply andb_prop in Hall as [Hall H3]. apply andb_prop in Hall as [H1 H2].
  apply negb_true_iff in H1, H2.
  repeat split.
  - intros ->. discriminate.
  - intros ->. discriminate.
  - destruct (lookup_key pat FORMAT_PRESETS); [discriminate|reflexivity].
Qed.

Lemma compileFormatter_rec_hit fuel s f (c : gmap string CompiledFormatter) :
  c !! s = Some f -> compileFormatter_rec (S fuel) s c = Some (f, c).
Proof. intros H. cbn [compileFormatter_rec]. now rewrite H. Qed.

Lemma compileFormatter_rec_plain fuel s (c : gmap string CompiledFormatter) :
  c !! s = None -> lookup_key s FORMAT_PRESETS = None ->
  compileFormatter_rec (S fuel) s c =
  Some (build_formatter s, <[s := build_formatter s]> c).
Proof. intros H1 H2. cbn [compileFormatter_rec]. now rewrite H1, H2. Qed.

Lemma compileFormatter_rec_preset fuel name pat
    (c : gmap string CompiledFormatter) :
  c !! name = None -> lookup_key name FORMAT_PRESETS = Some pat ->
  compileFormatter_rec (S fuel) name c = compileFormatter_rec fuel pat c.
Proof.
  intros H1 H2. cbn [compileFormatter_rec]. rewrite H1, H2.
  destruct (preset_expansion name pat H2) as [Hne _].
  destruct pat; [congruence|reflexivity].
Qed.

(** With one unit of fuel a string that is not a preset name compiles. *)
Lemma compileFormatter_rec_not_preset fuel s
    (c : gmap string CompiledFormatter) :
  lookup_key s FORMAT_PRESETS = None ->
  compileFormatter_rec (S fuel) s c =
  Some (match c !! s with
        | Some f => (f, c)
        | None => (build_formatter s, <[s := build_formatter s]> c)
        end).
Proof.
  intros H. destruct (c !! s) as [f|] eqn:E.
  - now apply compileFormatter_rec_hit.
  - now apply compileFormatter_rec_plain.
Qed.

(** Two levels of recursion always return, and more fuel changes nothing. *)
Lemma compileFormatter_rec_fuel fuel s (c : gmap string CompiledFormatter) :
  compileFormatter_rec (S (S fuel)) s c = Some (compileFormatter s c).
Proof.
  assert (H : forall n, compileFormatter_rec (S (S n)) s c
                        = compileFormatter_rec 2 s c).
  { intros n. destruct (c !! s) as [f|] eqn:E.
    - now rewrite !(compileFormatter_rec_hit _ s f c E).
    - destruct (lookup_key s FORMAT_PRESETS) as [pat|] eqn:P.
      + rewrite !(compileFormatter_rec_preset _ s pat c E P).
        destruct (preset_expansion s pat P) as (_ & _ & Hp).
        now rewrite !compileFormatter_rec_not_preset by exact Hp.
      + now rewrite !compileFormatter_rec_plain by assumption. }
  rewrite H. unfold compileFormatter.
  destruct (compileFormatter_rec 2 s c) as [r|] eqn:E; [reflexivity|].
  exfalso. destruct (c !! s) as [f|] eqn:E1.
  - rewrite (compileFormatter_rec_hit _ s f c E1) in E. discriminate.
  - destruct (lookup_key s FORMAT_PRESETS) as [pat|] eqn:P.
    + rewrite (compileFormatter_rec_preset _ s pat c E1 P) in E.
      destruct (preset_expansion s pat P) as (_ & _ & Hp).
      rewrite compileFormatter_rec_not_preset in E by exact Hp. discriminate.
    + rewrite compileFormatter_rec_plain in E by assumption. discriminate.
Qed.

Lemma compileFormatter_hit s f (c : gmap string CompiledFormatter) :
  c !! s = Some f -> compileFormatter s c = (f, c).
Proof.
  intros H. pose proof (compileFormatter_rec_fuel 0 s c) as E.
  rewrite (compileFormatter_rec_hit _ s f c H) in E. now injection E.
Qed.

Lemma compileFormatter_plain s (c : gmap string CompiledFormatter) :
  c !! s = None -> lookup_key s FORMAT_PRESETS = None ->
  compileFormatter s c = (build_formatter s, <[s := build_formatter s]> c).
Proof.
  intros H1 H2. pose proof (compileFormatter_rec_fuel 0 s c) as E.
  rewrite compileFormatter_rec_plain in E by assumption. now injection E.
Qed.

Lemma compileFormatter_preset name pat (c : gmap string CompiledFormatter) :
  c !! name = None -> lookup_key name FORMAT_PRESETS = Some pat ->
  compileFormatter name c = compileFormatter pat c.
Proof.
  intros H1 H2. pose proof (compileFormatter_rec_fuel 0 name c) as E.
  rewrite (compileFormatter_rec_preset _ name pat c H1 H2) in E.
  pose proof (compileFormatter_rec_fuel 0 pat c) as E'.
  destruct (preset_expansion name pat H2) as (_ & _ & Hp).
  rewrite compileFormatter_rec_not_preset in E, E' by exact Hp.
  congruence.
Qed.

(** What a call can do to the cache: nothing, or one insertion under a key
    that is not a preset name. *)
Lemma compileFormatter_cache s (c : gmap string CompiledFormatter) :
  snd (compileFormatter s c) = c \/
  exists k, lookup_key k FORMAT_PRESETS = None /\
            snd (compileFormatter s c) = <[k := build_formatter k]> c.
Proof.
  destruct (c !! s) as [f|] eqn:E.
  - left. now rewrite (compileFormatter_hit s f c E).
  - destruct (lookup_key s FORMAT_PRESETS) as [pat|] eqn:P.
    + rewrite (compileFormatter_preset s pat c E P).
      destruct (preset_expansion s pat P) as (_ & _ & Hp).
      destruct (c !! pat) as [g|] eqn:E'.
      * left. now rewrite (compileFormatter_hit pat g c E').
      * right. exists pat. now rewrite compileFormatter_plain.
    + right. exists s. now rewrite compileFormatter_plain.
Qed.

(** No reachable cache has a preset name among its keys. *)
Lemma reachable_no_preset_key (c : gmap string CompiledFormatter) :
  cache_reachable c ->
  forall name pat, lookup_key name FORMAT_PRESETS = Some pat -> c !! name = None.
Proof.
  induction 1 as [|date s c Hc IH]; intros name pat Hp.
  - apply lookup_empty.
  - unfold format. destruct (String.eqb s ""); [simpl; eauto|].
    destruct (compileFormatter s c) as [f c'] eqn:E. simpl.
    destruct (compileFormatter_cache s c) as [H|(k & Hk & H)];
      rewrite E in H; simpl in H; subst c'; [eauto|].
    rewrite lookup_insert_ne by congruence. eauto.
Qed.

(** C6 (as the code has it): formatting with a preset name compiles the
    preset's pattern and caches it under the pattern string only; the preset
    name is never a key.  A later compile of the pattern is a hit on its own
    key; a later compile of the preset name misses on the name, resolves the
    preset again and hits on the pattern; neither changes the cache. *)
Theorem format_preset_caches_pattern_only
    (c : gmap string CompiledFormatter) (name pat : string)
    (date : ChronoDate) :
  cache_reachable c ->
  lookup_key name FORMAT_PRESETS = Some pat ->
  exists f c',
    format date name c = (Ok (run_formatter f date), c') /\
    c' !! pat = Some f /\
    c' !! name = None /\
    (c !! pat = None -> f = build_formatter pat /\ c' = <[pat := f]> c) /\
    (forall g, c !! pat = Some g -> f = g /\ c' = c) /\
    compileFormatter pat c' = (f, c') /\
    compileFormatter name c' = (f, c') /\
    compileFormatter_rec 2 name c' = Some (f, c').
Proof.
  intros Hc Hp.
  pose proof (reachable_no_preset_key c Hc name pat Hp) as Hname.
  destruct (preset_expansion name pat Hp) as (Hpat & Hne & Hpp).
  assert (Hneq : pat <> name) by congruence.
  unfold format. rewrite eqb_empty_false by (destruct name; simpl; congruence).
  rewrite (compileFormatter_preset name pat c Hname Hp).
  destruct (c !! pat) as [g|] eqn:E.
  - rewrite (compileFormatter_hit pat g c E).
    exists g, c. split; [reflexivity|]. split; [exact E|].
    split; [exact Hname|]. split; [discriminate|].
    split; [intros ? [= <-]; auto|].
    split; [now apply compileFormatter_hit|]. split.
    + rewrite (compileFormatter_preset name pat c Hname Hp).
      now apply compileFormatter_hit.
    + rewrite (compileFormatter_rec_preset _ name pat c Hname Hp).
      now apply compileFormatter_rec_hit.
  - rewrite (compileFormatter_plain pat c E Hpp).
    set (f := build_formatter pat). set (c' := <[pat := f]> c).
    assert (E' : c' !! pat = Some f) by apply lookup_insert_eq.
    assert (Hname' : c' !! name = None)
      by (unfold c'; now rewrite lookup_insert_ne).
    exists f, c'. split; [reflexivity|]. split; [exact E'|].
    split; [exact Hname'|]. split; [auto|]. split; [discriminate|].
    split; [now apply compileFormatter_hit|]. split.
    + rewrite (compileFormatter_preset name pat c' Hname' Hp).
      now apply compileFormatter_hit.
    + rewrite (compileFormatter_rec_preset _ name pat c' Hname' Hp).
      now apply compileFormatter_rec_hit.
Qed.

(** C6 at the preset ISO on the empty cache. *)
Lemma format_preset_caches_pattern_only_witness :
  let date := mkChronoDate 2025 1 15 10 30 45 123 (Some 1736937045123) "UTC" in
  exists f c',
    format date "ISO" ∅ = (Ok (run_formatter f date), c') /\
    c' !! "YYYY-MM-DDTHH:mm:ss.SSSZ" = Some f /\
    c' !! "ISO" = None /\
    ((∅ : gmap string CompiledFormatter) !! "YYYY-MM-DDTHH:mm:ss.SSSZ" = None ->
     f = build_formatter "YYYY-MM-DDTHH:mm:ss.SSSZ" /\
     c' = <["YYYY-MM-DDTHH:mm:ss.SSSZ" := f]> ∅) /\
    (forall g, (∅ : gmap string CompiledFormatter)
                 !! "YYYY-MM-DDTHH:mm:ss.SSSZ" = Some g -> f = g /\ c' = ∅) /\
    compileFormatter "YYYY-MM-DDTHH:mm:ss.SSSZ" c' = (f, c') /\
    compileFormatter "ISO" c' = (f, c') /\
    compileFormatter_rec 2 "ISO" c' = Some (f, c').
Proof.
  apply (format_preset_caches_pattern_only ∅ "ISO" "YYYY-MM-DDTHH:mm:ss.SSSZ"
           (mkChronoDate 2025 1 15 10 30 45 123 (Some 1736937045123) "UTC")).
  - constructor.
  - vm_compute. reflexivity.
Defined.

(** C6 as stated fails: after [format(date, 'ISO')] on an empty cache the
    cache holds one entry, under the expanded pattern, and none under the
    preset name; compiling 'ISO' again misses on its own key. *)
Lemma format_ISO_preset_name_not_cached :
  let date := mkChronoDate 2025 1 15 10 30 45 123 (Some 1736937045123) "UTC" in
  let c' := snd (format date "ISO" ∅) in
  fst (format date "ISO" ∅) = Ok "2025-01-15T10:30:45.123+00:00" /\
  c' !! "ISO" = None /\
  is_Some (c' !! "YYYY-MM-DDTHH:mm:ss.SSSZ") /\
  getFormatterCacheSize c' = 1%nat.
Proof.
  cbv zeta.
  assert (E : forall date, format date "ISO" ∅ =
            (Ok (run_formatter (build_formatter "YYYY-MM-DDTHH:mm:ss.SSSZ") date),
             <["YYYY-MM-DDTHH:mm:ss.SSSZ" :=
                 build_formatter "YYYY-MM-DDTHH:mm:ss.SSSZ"]> ∅)).
  { intros date. unfold format. change (String.eqb "ISO" "") with false.
    cbn iota.
    rewrite (compileFormatter_preset "ISO" "YYYY-MM-DDTHH:mm:ss.SSSZ" ∅)
      by (apply lookup_empty || (vm_compute; reflexivity)).
    rewrite compileFormatter_plain
      by (apply lookup_empty || (vm_compute; reflexivity)).
    reflexivity. }
  rewrite E. cbn [fst snd]. split; [vm_compute; reflexivity|].
  split; [now rewrite lookup_insert_ne|].
  split; [rewrite lookup_insert_eq; eauto|].
  unfold getFormatterCacheSize.
  rewrite map_size_insert_None by apply lookup_empty.
  now rewrite map_size_empty.
Qed.

(** * Further properties *)

(** ** Civil fields and time values *)

Lemma getDaysInMonth_by_month y m :
  1 <= m <= 12 ->
  getDaysInMonth y m =
  if m =? 2 then 28 + leapDay y
  else if (m =? 4) || (m =? 6) || (m =? 9) || (m =? 11) then 30 else 31.
Proof.
  intros Hm. apply month_cases in Hm.
  unfold getDaysInMonth, leapDay. rewrite isLeapYear_DaysInYear.
  destruct (DaysInYear y =? 366);
    repeat (destruct Hm as [->|Hm]; [reflexivity|]); subst; reflexivity.
Qed.

Lemma MakeTime_range h mi s ms :
  isValidTime h mi s ms = true -> 0 <= MakeTime h mi s ms < msPerDay.
Proof.
  intros H%isValidTime_ranges. unfold MakeTime, msPerHour, msPerMinute,
    msPerSecond, msPerDay. lia.
Qed.

Lemma Day_MakeDate day time :
  0 <= time < msPerDay -> Day (MakeDate day time) = day.
Proof.
  intros H. unfold Day, MakeDate, msPerDay in *.
  Z.div_mod_to_equations. lia.
Qed.

Lemma TimeWithinDay_MakeDate day time :
  0 <= time < msPerDay -> TimeWithinDay (MakeDate day time) = time.
Proof.
  intros H. unfold TimeWithinDay, MakeDate, msPerDay in *.
  Z.div_mod_to_equations. lia.
Qed.

Lemma leapDay_cases y : leapDay y = 0 \/ leapDay y = 1.
Proof. unfold leapDay. destruct (_ =? _); auto. Qed.

(** The day number of a valid civil date lies in its own year. *)
Lemma MakeDay_in_own_year y m d :
  isValidDate y m d = true ->
  MakeDay y (m - 1) d = DayFromYear y + DaysBeforeMonth y (m - 1) + d - 1 /\
  0 <= DaysBeforeMonth y (m - 1) + d - 1 < DaysInYear y.
Proof.
  intros [Hm Hd]%isValidDate_month.
  rewrite MakeDay_in_year by lia. split; [reflexivity|].
  rewrite getDaysInMonth_by_month in Hd by exact Hm.
  rewrite DaysInYear_leapDay. unfold DaysBeforeMonth.
  destruct (leapDay_cases y) as [Hl|Hl]; rewrite Hl in *;
    apply month_cases in Hm;
    repeat (destruct Hm as [->|Hm]; [simpl in *; lia|]); subst; simpl in *; lia.
Qed.

Lemma YearFromTime_MakeDate y m d time :
  isValidDate y m d = true -> 0 <= time < msPerDay ->
  YearFromTime (MakeDate (MakeDay y (m - 1) d) time) = y.
Proof.
  intros Hv Ht. unfold YearFromTime. rewrite Day_MakeDate by exact Ht.
  destruct (MakeDay_in_own_year y m d Hv) as [-> Hr].
  apply YearFromDay_unique. rewrite DayFromYear_succ. lia.
Qed.

Lemma DayWithinYear_MakeDate y m d time :
  isValidDate y m d = true -> 0 <= time < msPerDay ->
  DayWithinYear (MakeDate (MakeDay y (m - 1) d) time)
  = DaysBeforeMonth y (m - 1) + d - 1.
Proof.
  intros Hv Ht. unfold DayWithinYear.
  rewrite (YearFromTime_MakeDate y m d time Hv Ht).
  rewrite Day_MakeDate by exact Ht.
  destruct (MakeDay_in_own_year y m d Hv) as [-> _]. lia.
Qed.

Lemma MonthDate_MakeDate y m d time :
  isValidDate y m d = true -> 0 <= time < msPerDay ->
  MonthFromTime (MakeDate (MakeDay y (m - 1) d) time) = m - 1 /\
  DateFromTime (MakeDate (MakeDay y (m - 1) d) time) = d.
Proof.
  intros Hv Ht. unfold DateFromTime, MonthFromTime, InLeapYear.
  rewrite (DayWithinYear_MakeDate y m d time Hv Ht).
  rewrite (YearFromTime_MakeDate y m d time Hv Ht).
  apply isValidDate_month in Hv as [Hm Hd].
  rewrite getDaysInMonth_by_month in Hd by exact Hm.
  unfold DaysBeforeMonth.
  destruct (leapDay_cases y) as [Hl|Hl]; rewrite Hl in *;
    apply month_cases in Hm;
    repeat (destruct Hm as [->|Hm];
            [simpl in Hd; simpl;
             repeat match goal with
                    | |- context [?a <? ?b] => destruct (Z.ltb_spec a b); try lia
                    end; simpl; lia|]);
    subst; simpl in Hd; simpl;
    repeat match goal with
           | |- context [?a <? ?b] => destruct (Z.ltb_spec a b); try lia
           end; simpl; lia.
Qed.

Lemma time_fields_MakeDate day h mi s ms :
  isValidTime h mi s ms = true ->
  let t := MakeDate day (MakeTime h mi s ms) in
  HourFromTime t = h /\ MinFromTime t = mi /\ SecFromTime t = s /\
  msFromTime t = ms.
Proof.
  intros H%isValidTime_ranges. cbv zeta.
  unfold HourFromTime, MinFromTime, SecFromTime, msFromTime, MakeDate,
    MakeTime, msPerDay, msPerHour, msPerMinute, msPerSecond.
  repeat split; Z.div_mod_to_equations; lia.
Qed.

(** ** The value type *)

Lemma UTC_range y m d h mi s ms t :
  UTC y m d h mi s ms = Some t -> Z.abs t <= maxTime.
Proof. unfold UTC. intros H. apply TimeClip_Some in H as [-> H]. exact H. Qed.


(** X1: every value the validating constructor returns has its month in
    1..12, its day in 1..daysInMonth(year, month) (so at most 31), its clock
    fields in range, the timestamp [Date.UTC] derives from its own fields,
    and that timestamp is [NaN] or within 8.64e15 ms of the epoch. *)
Theorem live_value_invariants (v : ChronoDate) :
  live v ->
  1 <= month v <= 12 /\
  1 <= day v <= getDaysInMonth (year v) (month v) /\
  day v <= 31 /\
  0 <= hour v <= 23 /\ 0 <= minute v <= 59 /\ 0 <= second v <= 59 /\
  0 <= millisecond v <= 999 /\
  timestamp v =
    UTC (year v) (month v - 1) (day v) (hour v) (minute v) (second v)
        (millisecond v) /\
  (timestamp v = NaN \/
   exists t, timestamp v = Some t /\ Z.abs t <= 8640000000000000).
Proof.
  intros (y & m & d & h & mi & s & ms & tz & Hv).
  apply ChronoDateImpl_Ok in Hv as (Hvd & Hvt & ->). simpl.
  pose proof (isValidDate_month _ _ _ Hvd) as [Hm Hd].
  pose proof (getDaysInMonth_le_31 y m).
  pose proof (isValidTime_ranges _ _ _ _ Hvt) as (? & ? & ? & ?).
  repeat (split; [lia || reflexivity|]).
  destruct (UTC y (m - 1) d h mi s ms) as [t|] eqn:E; [right|left; reflexivity].
  exists t. split; [reflexivity|]. exact (UTC_range _ _ _ _ _ _ _ _ E).
Qed.

(** X1 at 2024-02-29T23:59:59.999Z. *)
Lemma live_value_invariants_witness :
  let v := mkChronoDate 2024 2 29 23 59 59 999 (Some 1709251199999) "UTC" in
  1 <= month v <= 12 /\
  1 <= day v <= getDaysInMonth (year v) (month v) /\
  day v <= 31 /\
  0 <= hour v <= 23 /\ 0 <= minute v <= 59 /\ 0 <= second v <= 59 /\
  0 <= millisecond v <= 999 /\
  timestamp v =
    UTC (year v) (month v - 1) (day v) (hour v) (minute v) (second v)
        (millisecond v) /\
  (timestamp v = NaN \/
   exists t, timestamp v = Some t /\ Z.abs t <= 8640000000000000).
Proof.
  apply (live_value_invariants
           (mkChronoDate 2024 2 29 23 59 59 999 (Some 1709251199999) "UTC")).
  exists 2024, 2, 29, 23, 59, 59, 999, "UTC". vm_compute. reflexivity.
Defined.

(** The fields of a live value with a numeric timestamp, read back from the
    timestamp when the year is outside 0..99. *)
Lemma live_fields_from_timestamp v t :
  live v -> ~ (0 <= year v <= 99) -> timestamp v = Some t ->
  Z.abs t <= maxTime /\
  YearFromTime t = year v /\ MonthFromTime t = month v - 1 /\
  DateFromTime t = day v /\ HourFromTime t = hour v /\
  MinFromTime t = minute v /\ SecFromTime t = second v /\
  msFromTime t = millisecond v.
Proof.
  intros (y & m & d & h & mi & s & ms & tz & Hv) Hy Ht.
  apply ChronoDateImpl_Ok in Hv as (Hvd & Hvt & ->). simpl in *.
  unfold UTC in Ht. rewrite MakeFullYear_id in Ht by exact Hy.
  apply TimeClip_Some in Ht as [-> Hr]. split; [exact Hr|].
  pose proof (MakeTime_range h mi s ms Hvt) as Htr.
  split; [now apply YearFromTime_MakeDate|].
  destruct (MonthDate_MakeDate y m d _ Hvd Htr) as [-> ->].
  destruct (time_fields_MakeDate (MakeDay y (m - 1) d) h mi s ms Hvt)
    as (-> & -> & -> & ->).
  repeat split; reflexivity.
Qed.

Lemma dateFromNative_of_live v t :
  live v -> ~ (0 <= year v <= 99) -> timestamp v = Some t ->
  dateFromNative (Some t) (timezone v) = Ok v.
Proof.
  intros Hl Hy Ht.
  destruct (live_fields_from_timestamp v t Hl Hy Ht)
    as (Hr & HY & HM & HD & HH & HMi & HS & HMs).
  rewrite dateFromNative_Some.
  rewrite UTC_decompose by (rewrite ?HY; assumption).
  rewrite HY, HM, HD, HH, HMi, HS, HMs, Z.sub_add, <- Ht.
  destruct v; reflexivity.
Qed.

(** X2: a live value whose year is outside 0..99 and whose timestamp is a
    number is rebuilt exactly, fields and timestamp, from that timestamp. *)
Theorem dateFromTimestamp_of_timestamp (v : ChronoDate) (t : Z) :
  live v ->
  ~ (0 <= year v <= 99) ->
  timestamp v = Some t ->
  dateFromTimestamp (timestamp v) (timezone v) = Ok v.
Proof.
  intros Hl Hy Ht. rewrite Ht. unfold dateFromTimestamp, new_Date.
  destruct (live_fields_from_timestamp v t Hl Hy Ht) as (Hr & _).
  rewrite TimeClip_in_range by exact Hr.
  now apply dateFromNative_of_live.
Qed.

(** X2 at 1969-12-31T23:59:59.999 with zone label +05:30. *)
Lemma dateFromTimestamp_of_timestamp_witness :
  let v := mkChronoDate 1969 12 31 23 59 59 999 (Some (-1)) "+05:30" in
  dateFromTimestamp (timestamp v) (timezone v) = Ok v.
Proof.
  apply (dateFromTimestamp_of_timestamp
           (mkChronoDate 1969 12 31 23 59 59 999 (Some (-1)) "+05:30") (-1)).
  - exists 1969, 12, 31, 23, 59, 59, 999, "+05:30". vm_compute. reflexivity.
  - vm_compute. intros [_ H]. apply H. reflexivity.
  - reflexivity.
Defined.

Lemma dateFromNative_live d tz v : dateFromNative d tz = Ok v -> live v.
Proof.
  destruct d as [t|]; simpl; [|discriminate]. intros H.
  now exists (YearFromTime t), (MonthFromTime t + 1), (DateFromTime t),
    (HourFromTime t), (MinFromTime t), (SecFromTime t), (msFromTime t), tz.
Qed.

(** X3: [dateFromTimestamp] returns a value for every number within
    8.64e15 ms of the epoch, with the UTC decomposition of that instant as
    fields, and throws ChronoError for every number outside and for [NaN]. *)
Theorem dateFromTimestamp_total_on_range (tz : string) :
  (forall ts, Z.abs ts <= 8640000000000000 ->
     exists v,
       dateFromTimestamp (Some ts) tz = Ok v /\ live v /\
       year v = YearFromTime ts /\ month v = MonthFromTime ts + 1 /\
       day v = DateFromTime ts /\ hour v = HourFromTime ts /\
       minute v = MinFromTime ts /\ second v = SecFromTime ts /\
       millisecond v = msFromTime ts /\ timezone v = tz) /\
  (forall ts, 8640000000000000 < Z.abs ts ->
     dateFromTimestamp (Some ts) tz = Throw (ChronoError "Invalid date")) /\
  dateFromTimestamp NaN tz = Throw (ChronoError "Invalid date").
Proof.
  split; [|split; [|reflexivity]].
  - intros ts Hr. unfold dateFromTimestamp, new_Date.
    rewrite TimeClip_in_range by exact Hr.
    pose proof (dateFromNative_Some ts tz) as E.
    eexists. split; [exact E|]. split; [exact (dateFromNative_live _ _ _ E)|].
    simpl. repeat split; reflexivity.
  - intros ts Hr. unfold dateFromTimestamp, new_Date.
    now rewrite TimeClip_out_of_range.
Qed.

(** X3 at the last instant of the range and at the first one beyond it. *)
Lemma dateFromTimestamp_total_on_range_witness :
  (exists v,
     dateFromTimestamp (Some 8640000000000000) "UTC" = Ok v /\ live v /\
     year v = YearFromTime 8640000000000000 /\
     month v = MonthFromTime 8640000000000000 + 1 /\
     day v = DateFromTime 8640000000000000 /\
     hour v = HourFromTime 8640000000000000 /\
     minute v = MinFromTime 8640000000000000 /\
     second v = SecFromTime 8640000000000000 /\
     millisecond v = msFromTime 8640000000000000 /\ timezone v = "UTC") /\
  dateFromTimestamp (Some 8640000000000001) "UTC"
  = Throw (ChronoError "Invalid date").
Proof.
  split.
  - apply (proj1 (dateFromTimestamp_total_on_range "UTC") 8640000000000000).
    vm_compute. discriminate.
  - apply (proj1 (proj2 (dateFromTimestamp_total_on_range "UTC"))
             8640000000000001).
    vm_compute. reflexivity.
Defined.

(** X4: [cloneDate] builds the value of the overridden fields through the
    validating constructor, so its timestamp is that of the new fields and
    not the base's; without modifications, or with an empty modification
    object, a live value is returned unchanged. *)
Theorem cloneDate_overrides (v : ChronoDate) :
  live v ->
  cloneDate v None = Ok v /\
  cloneDate v (Some (mkModifications None None None None None None None None))
  = Ok v /\
  forall m r,
    cloneDate v (Some m) = Ok r ->
    live r /\
    year r = default (year v) (mod_year m) /\
    month r = default (month v) (mod_month m) /\
    day r = default (day v) (mod_day m) /\
    hour r = default (hour v) (mod_hour m) /\
    minute r = default (minute v) (mod_minute m) /\
    second r = default (second v) (mod_second m) /\
    millisecond r = default (millisecond v) (mod_millisecond m) /\
    timezone r = default (timezone v) (mod_timezone m) /\
    timestamp r =
      UTC (year r) (month r - 1) (day r) (hour r) (minute r) (second r)
          (millisecond r).
Proof.
  intros Hl.
  assert (Hid : ChronoDateImpl (year v) (month v) (day v) (hour v) (minute v)
                  (second v) (millisecond v) (timezone v) = Ok v).
  { destruct Hl as (y & m & d & h & mi & s & ms & tz & Hv).
    pose proof Hv as Hv'.
    apply ChronoDateImpl_Ok in Hv' as (_ & _ & ->). exact Hv. }
  split; [exact Hid|]. split; [exact Hid|].
  intros m r Hr. unfold cloneDate, coalesce in Hr.
  pose proof Hr as Hr'. apply ChronoDateImpl_Ok in Hr' as (_ & _ & ->).
  split; [do 8 eexists; exact Hr|].
  simpl. destruct m as [my mm md mh mmi ms mms mtz]; simpl.
  destruct my, mm, md, mh, mmi, ms, mms, mtz; repeat split; reflexivity.
Qed.

(** X4 at 2025-01-31, overriding the month by 3. *)
Lemma cloneDate_overrides_witness :
  let v := mkChronoDate 2025 1 31 0 0 0 0 (Some 1738281600000) "UTC" in
  cloneDate v None = Ok v /\
  cloneDate v (Some (mkModifications None (Some 3) None None None None None
                                      None))
  = Ok (mkChronoDate 2025 3 31 0 0 0 0 (Some 1743379200000) "UTC").
Proof.
  assert (Hl : live (mkChronoDate 2025 1 31 0 0 0 0 (Some 1738281600000)
                                  "UTC"))
    by (exists 2025, 1, 31, 0, 0, 0, 0, "UTC"; vm_compute; reflexivity).
  split.
  - exact (proj1 (cloneDate_overrides _ Hl)).
  - vm_compute. reflexivity.
Defined.

(** ** Arithmetic *)

Lemma dateFromTimestamp_value_at t tz :
  instant_ok t -> dateFromTimestamp (Some t) tz = Ok (value_at t tz).
Proof.
  intros [Hr Hy]. unfold dateFromTimestamp, new_Date.
  rewrite TimeClip_in_range by exact Hr.
  rewrite dateFromNative_Some, UTC_decompose by assumption. reflexivity.
Qed.

Lemma value_at_live t tz : instant_ok t -> live (value_at t tz).
Proof.
  intros H. pose proof (dateFromTimestamp_value_at t tz H) as E.
  unfold dateFromTimestamp, new_Date in E. destruct H as [Hr _].
  rewrite TimeClip_in_range in E by exact Hr.
  exact (dateFromNative_live _ _ _ E).
Qed.

Lemma toNative_live d t :
  live d -> timestamp d = Some t -> toNative d = Some t.
Proof.
  intros Hl Ht. unfold toNative, new_Date. rewrite Ht.
  apply TimeClip_in_range. exact (live_timestamp_range d t Hl Ht).
Qed.

Lemma addDays_as_timestamp d n t :
  live d -> timestamp d = Some t ->
  addDays d n = dateFromTimestamp (Some (t + n * 86400000)) (timezone d).
Proof.
  intros Hl Ht.
  exact (addDays_numeric d n t Ht (live_timestamp_range d t Hl Ht)).
Qed.

Lemma addWeeks_as_timestamp d n t :
  live d -> timestamp d = Some t ->
  addWeeks d n = dateFromTimestamp (Some (t + n * 604800000)) (timezone d).
Proof.
  intros Hl Ht. unfold addWeeks.
  rewrite (addDays_as_timestamp d (n * 7) t Hl Ht). do 3 f_equal. lia.
Qed.

Lemma addHours_as_timestamp d n t :
  timestamp d = Some t ->
  addHours d n = dateFromTimestamp (Some (t + n * 3600000)) (timezone d).
Proof. intros Ht. unfold addHours. now rewrite Ht. Qed.

Lemma addMinutes_as_timestamp d n t :
  timestamp d = Some t ->
  addMinutes d n = dateFromTimestamp (Some (t + n * 60000)) (timezone d).
Proof. intros Ht. unfold addMinutes. now rewrite Ht. Qed.

Lemma addSeconds_as_timestamp d n t :
  timestamp d = Some t ->
  addSeconds d n = dateFromTimestamp (Some (t + n * 1000)) (timezone d).
Proof. intros Ht. unfold addSeconds. now rewrite Ht. Qed.

Lemma addMilliseconds_as_timestamp d n t :
  timestamp d = Some t ->
  addMilliseconds d n = dateFromTimestamp (Some (t + n)) (timezone d).
Proof. intros Ht. unfold addMilliseconds. now rewrite Ht. Qed.

(** X5: on a live value with a numeric timestamp [t], every fixed-length
    adder is [dateFromTimestamp] of [t] plus the count times the unit's
    milliseconds: the civil fields are decomposed anew from the shifted
    instant, and the call throws exactly when [dateFromTimestamp] does. *)
Theorem fixed_length_adders_shift_timestamp (d : ChronoDate) (n t : Z) :
  live d ->
  timestamp d = Some t ->
  addMilliseconds d n = dateFromTimestamp (Some (t + n)) (timezone d) /\
  addSeconds d n = dateFromTimestamp (Some (t + n * 1000)) (timezone d) /\
  addMinutes d n = dateFromTimestamp (Some (t + n * 60000)) (timezone d) /\
  addHours d n = dateFromTimestamp (Some (t + n * 3600000)) (timezone d) /\
  addDays d n = dateFromTimestamp (Some (t + n * 86400000)) (timezone d) /\
  addWeeks d n = dateFromTimestamp (Some (t + n * 604800000)) (timezone d).
Proof.
  intros Hl Ht.
  split; [now apply addMilliseconds_as_timestamp|].
  split; [now apply addSeconds_as_timestamp|].
  split; [now apply addMinutes_as_timestamp|].
  split; [now apply addHours_as_timestamp|].
  split; [now apply addDays_as_timestamp|now apply addWeeks_as_timestamp].
Qed.

(** X5 at 2025-01-15T10:00:00Z plus 20. *)
Lemma fixed_length_adders_shift_timestamp_witness :
  let d := mkChronoDate 2025 1 15 10 0 0 0 (Some 1736935200000) "UTC" in
  addMilliseconds d 20 = dateFromTimestamp (Some (1736935200000 + 20)) "UTC" /\
  addSeconds d 20 = dateFromTimestamp (Some (1736935200000 + 20 * 1000)) "UTC" /\
  addMinutes d 20 = dateFromTimestamp (Some (1736935200000 + 20 * 60000)) "UTC" /\
  addHours d 20 = dateFromTimestamp (Some (1736935200000 + 20 * 3600000)) "UTC" /\
  addDays d 20 = dateFromTimestamp (Some (1736935200000 + 20 * 86400000)) "UTC" /\
  addWeeks d 20 = dateFromTimestamp (Some (1736935200000 + 20 * 604800000)) "UTC".
Proof.
  apply (fixed_length_adders_shift_timestamp
           (mkChronoDate 2025 1 15 10 0 0 0 (Some 1736935200000) "UTC")
           20 1736935200000).
  - exists 2025, 1, 15, 10, 0, 0, 0, "UTC". vm_compute. reflexivity.
  - reflexivity.
Defined.

Lemma live_value_at v t :
  live v -> ~ (0 <= year v <= 99) -> timestamp v = Some t ->
  v = value_at t (timezone v) /\ instant_ok t.
Proof.
  intros Hl Hy Ht.
  destruct (live_fields_from_timestamp v t Hl Hy Ht)
    as (Hr & HY & HM & HD & HH & HMi & HS & HMs).
  split.
  - unfold value_at. rewrite HY, HM, HD, HH, HMi, HS, HMs, Z.sub_add, <- Ht.
    destruct v; reflexivity.
  - split; [exact Hr|]. now rewrite HY.
Qed.

(** X6: day shifts compose and undo.  For a live value [d] with year outside
    0..99 and numeric timestamp [t], when the instant shifted by [a] days is
    in range and outside the years 0..99, [addDays d a] returns a value from
    which subtracting [a] days gives [d] back, and from which adding [b] more
    days is adding [a + b] days to [d]. *)
Theorem addDays_compose_and_undo (d : ChronoDate) (a b t : Z) :
  live d ->
  ~ (0 <= year d <= 99) ->
  timestamp d = Some t ->
  instant_ok (t + a * 86400000) ->
  exists d',
    addDays d a = Ok d' /\
    subtractDays d' a = Ok d /\
    addDays d' b = addDays d (a + b).
Proof.
  intros Hl Hy Ht Hok.
  destruct (live_value_at d t Hl Hy Ht) as [Hv Hokt].
  exists (value_at (t + a * 86400000) (timezone d)).
  pose proof (value_at_live _ (timezone d) Hok) as Hl'.
  split; [|split].
  - rewrite (addDays_as_timestamp d a t Hl Ht).
    now apply dateFromTimestamp_value_at.
  - unfold subtractDays.
    rewrite (addDays_as_timestamp _ (- a) (t + a * 86400000) Hl' eq_refl).
    cbn [timezone value_at].
    replace (t + a * 86400000 + - a * 86400000) with t by lia.
    rewrite dateFromTimestamp_value_at by exact Hokt. now rewrite <- Hv.
  - rewrite (addDays_as_timestamp _ b (t + a * 86400000) Hl' eq_refl).
    rewrite (addDays_as_timestamp d (a + b) t Hl Ht).
    cbn [timezone value_at]. do 2 f_equal. lia.
Qed.

(** X6 at 2025-01-15T10:00:00Z, twenty days back and five forward. *)
Lemma addDays_compose_and_undo_witness :
  let d := mkChronoDate 2025 1 15 10 0 0 0 (Some 1736935200000) "UTC" in
  exists d',
    addDays d (-20) = Ok d' /\
    subtractDays d' (-20) = Ok d /\
    addDays d' 5 = addDays d (-20 + 5).
Proof.
  apply (addDays_compose_and_undo
           (mkChronoDate 2025 1 15 10 0 0 0 (Some 1736935200000) "UTC")
           (-20) 5 1736935200000).
  - exists 2025, 1, 15, 10, 0, 0, 0, "UTC". vm_compute. reflexivity.
  - vm_compute. intros [_ H]. apply H. reflexivity.
  - reflexivity.
  - split; [vm_compute; discriminate|].
    vm_compute. intros [_ H]. apply H. reflexivity.
Defined.

(** ** Month and year addition *)




(** The value the constructor builds from the fields the host decomposes
    out of a valid civil date and time. *)
Lemma dateFromNative_MakeDate y m d h mi s ms tz :
  isValidDate y m d = true -> isValidTime h mi s ms = true ->
  Z.abs (MakeDate (MakeDay y (m - 1) d) (MakeTime h mi s ms)) <= maxTime ->
  dateFromNative
    (TimeClip (MakeDate (MakeDay y (m - 1) d) (MakeTime h mi s ms))) tz
  = ChronoDateImpl y m d h mi s ms tz.
Proof.
  intros Hvd Hvt Hr. rewrite TimeClip_in_range by exact Hr.
  rewrite dateFromNative_Some.
  pose proof (MakeTime_range h mi s ms Hvt) as Htr.
  rewrite (YearFromTime_MakeDate y m d _ Hvd Htr).
  destruct (MonthDate_MakeDate y m d _ Hvd Htr) as [-> ->].
  destruct (time_fields_MakeDate (MakeDay y (m - 1) d) h mi s ms Hvt)
    as (-> & -> & -> & ->).
  rewrite Z.sub_add. now rewrite ChronoDateImpl_valid.
Qed.

Lemma MakeDate_linear y m d h mi s ms :
  1 <= m <= 12 ->
  MakeDate (MakeDay y (m - 1) d) (MakeTime h mi s ms)
  = utcLinearTime y m d h mi s ms.
Proof.
  intros Hm. rewrite MakeDay_daysFromEpoch by exact Hm.
  unfold MakeDate, MakeTime, utcLinearTime, msPerDay, msPerHour, msPerMinute,
    msPerSecond. lia.
Qed.






(** ** Durations *)

Lemma duration_step_skipped op unit res :
  unit_skipped unit -> duration_step op unit res = res.
Proof. intros [-> | ->]; reflexivity. Qed.

Lemma duration_step_fixed op factor :
  (forall d n t, live d -> timestamp d = Some t ->
     op d n = dateFromTimestamp (Some (t + n * factor)) (timezone d)) ->
  forall unit r t,
    live r -> timestamp r = Some t ->
    instant_ok (t + unit_ms unit factor) ->
    exists r',
      duration_step op unit (Ok r) = Ok r' /\ live r' /\
      timestamp r' = Some (t + unit_ms unit factor) /\
      timezone r' = timezone r.
Proof.
  intros Hop unit r t Hl Ht Hok.
  assert (Hsame : exists r', Ok r = Ok r' /\ live r' /\
                             timestamp r' = Some (t + 0) /\
                             timezone r' = timezone r)
    by (exists r; rewrite Z.add_0_r; auto).
  destruct unit as [n|]; [|exact Hsame]. cbn [duration_step unit_ms] in *.
  destruct (Z.eqb_spec n 0) as [->|Hn]; [exact Hsame|].
  cbn [bind]. rewrite (Hop r n t Hl Ht).
  exists (value_at (t + n * factor) (timezone r)).
  split; [now apply dateFromTimestamp_value_at|].
  split; [now apply value_at_live|]. split; reflexivity.
Qed.

(** X9: a duration whose years and months are absent or zero adds the total
    of its fixed-length units to the timestamp.  [addDuration] applies
    weeks, days, hours, minutes, seconds and milliseconds in that order, each
    on the result of the one before; when every running total stays in range
    and outside the years 0..99, the result is a live value with timestamp
    [t] plus the total and the zone label of the input. *)
Theorem addDuration_fixed_units (d : ChronoDate) (duration : Duration) (t : Z) :
  live d ->
  timestamp d = Some t ->
  unit_skipped (years duration) ->
  unit_skipped (months duration) ->
  Forall (fun total => instant_ok (t + total)) (fixed_totals duration) ->
  exists r,
    addDuration d duration = Ok r /\ live r /\
    timestamp r = Some (t + fixed_total duration) /\
    timezone r = timezone d.
Proof.
  intros Hl Ht Hy Hm Hall.
  unfold fixed_totals in Hall.
  repeat match goal with
         | H : Forall _ (_ :: _) |- _ =>
             apply Forall_cons_iff in H as [? H]
         end.
  clear Hall. cbv beta in *. rewrite ?Z.add_assoc in *.
  unfold addDuration.
  rewrite (duration_step_skipped addYears _ _ Hy).
  rewrite (duration_step_skipped addMonths _ _ Hm).
  destruct (duration_step_fixed addWeeks 604800000
              (fun d n t Hl Ht => addWeeks_as_timestamp d n t Hl Ht)
              (weeks duration) d t Hl Ht) as (r1 & -> & Hl1 & Ht1 & Hz1);
    [assumption|].
  destruct (duration_step_fixed addDays 86400000
              (fun d n t Hl Ht => addDays_as_timestamp d n t Hl Ht)
              (days duration) r1 _ Hl1 Ht1) as (r2 & -> & Hl2 & Ht2 & Hz2);
    [assumption|].
  destruct (duration_step_fixed addHours 3600000
              (fun d n t _ Ht => addHours_as_timestamp d n t Ht)
              (hours duration) r2 _ Hl2 Ht2) as (r3 & -> & Hl3 & Ht3 & Hz3);
    [assumption|].
  destruct (duration_step_fixed addMinutes 60000
              (fun d n t _ Ht => addMinutes_as_timestamp d n t Ht)
              (minutes duration) r3 _ Hl3 Ht3) as (r4 & -> & Hl4 & Ht4 & Hz4);
    [assumption|].
  destruct (duration_step_fixed addSeconds 1000
              (fun d n t _ Ht => addSeconds_as_timestamp d n t Ht)
              (seconds duration) r4 _ Hl4 Ht4) as (r5 & -> & Hl5 & Ht5 & Hz5);
    [assumption|].
  destruct (duration_step_fixed addMilliseconds 1
              (fun d n t _ Ht =>
                 eq_trans
                   (addMilliseconds_as_timestamp d n t Ht)
                   (f_equal (fun x => dateFromTimestamp (Some (t + x))
                                        (timezone d))
                            (eq_sym (Z.mul_1_r n))))
              (milliseconds duration) r5 _ Hl5 Ht5)
    as (r6 & -> & Hl6 & Ht6 & Hz6); [assumption|].
  exists r6. split; [reflexivity|]. split; [exact Hl6|].
  split; [|congruence].
  rewrite Ht6. f_equal. unfold fixed_total, fixed_totals. cbn [last]. lia.
Qed.

(** X9 at 2025-01-15T10:00:00Z plus 5 days, 3 hours and 30 minutes. *)
Lemma addDuration_fixed_units_witness :
  let d := mkChronoDate 2025 1 15 10 0 0 0 (Some 1736935200000) "UTC" in
  let duration :=
    mkDuration None None None (Some 5) (Some 3) (Some 30) None None in
  exists r,
    addDuration d duration = Ok r /\ live r /\
    timestamp r = Some (1736935200000 + fixed_total duration) /\
    timezone r = timezone d.
Proof.
  apply (addDuration_fixed_units
           (mkChronoDate 2025 1 15 10 0 0 0 (Some 1736935200000) "UTC")
           (mkDuration None None None (Some 5) (Some 3) (Some 30) None None)
           1736935200000).
  - exists 2025, 1, 15, 10, 0, 0, 0, "UTC". vm_compute. reflexivity.
  - reflexivity.
  - left. reflexivity.
  - left. reflexivity.
  - repeat (apply Forall_cons;
            [split; [vm_compute; discriminate
                    |vm_compute; intros [_ H]; apply H; reflexivity]|]).
    apply Forall_nil.
Defined.

(** X10: when every unit of the duration is absent or zero, [addDuration] and
    [subtractDuration] return the input itself without touching the host
    Date: no field is decomposed again and nothing is thrown, whatever the
    input's timestamp. *)
Theorem addDuration_nothing_to_add (d : ChronoDate) (duration : Duration) :
  unit_skipped (years duration) -> unit_skipped (months duration) ->
  unit_skipped (weeks duration) -> unit_skipped (days duration) ->
  unit_skipped (hours duration) -> unit_skipped (minutes duration) ->
  unit_skipped (seconds duration) -> unit_skipped (milliseconds duration) ->
  addDuration d duration = Ok d /\ subtractDuration d duration = Ok d.
Proof.
  intros H1 H2 H3 H4 H5 H6 H7 H8.
  assert (Hneg : forall u, unit_skipped u -> unit_skipped (negate_unit u))
    by (intros u [-> | ->]; left; reflexivity).
  split.
  - unfold addDuration. now rewrite !duration_step_skipped.
  - unfold subtractDuration, addDuration.
    cbn [years months weeks days hours minutes seconds milliseconds].
    now rewrite !duration_step_skipped by (apply Hneg; assumption).
Qed.

(** X10 on a value whose timestamp is [NaN], with zero days and zero hours;
    [addDays] of zero days on it throws. *)
Lemma addDuration_nothing_to_add_witness :
  let d := mkChronoDate 300000 1 1 0 0 0 0 NaN "UTC" in
  let duration :=
    mkDuration None None None (Some 0) (Some 0) None None None in
  (addDuration d duration = Ok d /\ subtractDuration d duration = Ok d) /\
  dateFromComponents 300000 1 1 0 0 0 0 "UTC" = Ok d /\
  addDays d 0 = Throw (ChronoError "Invalid date").
Proof.
  split.
  - apply (addDuration_nothing_to_add
             (mkChronoDate 300000 1 1 0 0 0 0 NaN "UTC")
             (mkDuration None None None (Some 0) (Some 0) None None None));
      (left; reflexivity) || (right; reflexivity).
  - split; vm_compute; reflexivity.
Defined.

(** ** Comparison and difference *)

(** X11: the five ordering predicates compare timestamps only.  "Same or
    before" is "before or same millisecond", likewise for "after"; two
    numeric timestamps satisfy exactly one of before, same, after; and when
    either timestamp is [NaN] all five predicates are false, a value not
    even being the same as itself. *)
Theorem ordering_predicates (a b : ChronoDate) :
  isSameOrBefore a b = isBefore a b || isSame a b UMillisecond /\
  isSameOrAfter a b = isAfter a b || isSame a b UMillisecond /\
  isAfter a b = isBefore b a /\
  (forall ta tb, timestamp a = Some ta -> timestamp b = Some tb ->
     (isBefore a b = true /\ isSame a b UMillisecond = false /\
      isAfter a b = false /\ ta < tb) \/
     (isBefore a b = false /\ isSame a b UMillisecond = true /\
      isAfter a b = false /\ ta = tb) \/
     (isBefore a b = false /\ isSame a b UMillisecond = false /\
      isAfter a b = true /\ tb < ta)) /\
  (timestamp a = NaN \/ timestamp b = NaN ->
   isBefore a b = false /\ isAfter a b = false /\
   isSame a b UMillisecond = false /\
   isSameOrBefore a b = false /\ isSameOrAfter a b = false).
Proof.
  unfold isSameOrBefore, isSameOrAfter, isBefore, isAfter, isSame, num_gt,
    num_le, num_lt, num_eq, NaN.
  split; [|split; [|split; [reflexivity|split]]].
  - destruct (timestamp a) as [ta|], (timestamp b) as [tb|]; try reflexivity.
    destruct (Z.leb_spec ta tb), (Z.ltb_spec ta tb), (Z.eqb_spec ta tb);
      try reflexivity; lia.
  - destruct (timestamp a) as [ta|], (timestamp b) as [tb|]; try reflexivity.
    destruct (Z.leb_spec tb ta), (Z.ltb_spec tb ta), (Z.eqb_spec ta tb);
      try reflexivity; lia.
  - intros ta tb -> ->.
    destruct (Z.ltb_spec ta tb), (Z.ltb_spec tb ta), (Z.eqb_spec ta tb);
      lia.
  - intros [-> | ->]; destruct (timestamp a), (timestamp b);
      repeat split; reflexivity.
Qed.

(** X12: [isBetween] is inclusive at both ends, it holds exactly when the
    three timestamps are numbers in order, and no value is between a start
    and an end unless the start is the same as or before the end. *)
Theorem isBetween_inclusive (x a b : ChronoDate) :
  (isBetween x a b = true <->
   exists tx ta tb,
     timestamp x = Some tx /\ timestamp a = Some ta /\ timestamp b = Some tb /\
     ta <= tx <= tb) /\
  (isBetween x a b = true -> isSameOrBefore a b = true) /\
  (isSameOrBefore a b = true ->
   isBetween a a b = true /\ isBetween b a b = true).
Proof.
  unfold isBetween, isSameOrBefore, num_le.
  split; [|split].
  - destruct (timestamp x) as [tx|], (timestamp a) as [ta|],
      (timestamp b) as [tb|]; cbn [andb]; split;
      try discriminate;
      try (intros (? & ? & ? & H1 & H2 & H3 & _); discriminate);
      try (intros H; apply andb_prop in H as [? ?]; discriminate).
    + intros H. apply andb_prop in H as [H1%Z.leb_le H2%Z.leb_le].
      exists tx, ta, tb. auto.
    + intros (? & ? & ? & [= <-] & [= <-] & [= <-] & H1 & H2).
      apply andb_true_intro. split; apply Z.leb_le; assumption.
  - destruct (timestamp x) as [tx|], (timestamp a) as [ta|],
      (timestamp b) as [tb|]; cbn [andb]; try discriminate;
      try (intros H; apply andb_prop in H as [? ?]; discriminate).
    intros H. apply andb_prop in H as [H1%Z.leb_le H2%Z.leb_le].
    apply Z.leb_le. lia.
  - destruct (timestamp a) as [ta|], (timestamp b) as [tb|];
      try discriminate.
    intros H. rewrite H, !Z.leb_refl. auto.
Qed.

(** X11 at two instants one millisecond apart, and on a [NaN] timestamp. *)
Lemma ordering_predicates_witness :
  let a := mkChronoDate 1970 1 1 0 0 0 0 (Some 0) "UTC" in
  let b := mkChronoDate 1970 1 1 0 0 0 1 (Some 1) "UTC" in
  let c := mkChronoDate 300000 1 1 0 0 0 0 NaN "UTC" in
  ((isBefore a b = true /\ isSame a b UMillisecond = false /\
    isAfter a b = false /\ 0 < 1) \/
   (isBefore a b = false /\ isSame a b UMillisecond = true /\
    isAfter a b = false /\ 0 = 1) \/
   (isBefore a b = false /\ isSame a b UMillisecond = false /\
    isAfter a b = true /\ 1 < 0)) /\
  (isBefore c c = false /\ isAfter c c = false /\
   isSame c c UMillisecond = false /\
   isSameOrBefore c c = false /\ isSameOrAfter c c = false).
Proof.
  split.
  - apply (proj1 (proj2 (proj2 (proj2
             (ordering_predicates
                (mkChronoDate 1970 1 1 0 0 0 0 (Some 0) "UTC")
                (mkChronoDate 1970 1 1 0 0 0 1 (Some 1) "UTC")))))
             0 1); reflexivity.
  - apply (proj2 (proj2 (proj2 (proj2
             (ordering_predicates
                (mkChronoDate 300000 1 1 0 0 0 0 NaN "UTC")
                (mkChronoDate 300000 1 1 0 0 0 0 NaN "UTC")))))).
    left. reflexivity.
Defined.

(** X12 with the start after the end. *)
Lemma isBetween_inclusive_witness :
  let a := mkChronoDate 1970 1 1 0 0 0 0 (Some 0) "UTC" in
  let b := mkChronoDate 1970 1 1 0 0 0 1 (Some 1) "UTC" in
  isBetween a a b = true /\ isBetween b a b = true.
Proof.
  apply (proj2 (proj2 (isBetween_inclusive
                         (mkChronoDate 1970 1 1 0 0 0 0 (Some 0) "UTC")
                         (mkChronoDate 1970 1 1 0 0 0 0 (Some 0) "UTC")
                         (mkChronoDate 1970 1 1 0 0 0 1 (Some 1) "UTC")))).
  reflexivity.
Defined.

Lemma unit_factor_pos unit k : unit_factor unit = Some k -> 0 < k.
Proof. destruct unit; intros [= <-]; reflexivity. Qed.

Lemma diff_fixed unit k a b ta tb :
  unit_factor unit = Some k ->
  timestamp a = Some ta -> timestamp b = Some tb ->
  diff a b unit = Some ((tb - ta) / k).
Proof.
  intros Hk Ha Hb. unfold diff. rewrite Ha, Hb.
  destruct unit; revert Hk; intros [= <-]; cbn [num_sub num_floor_div option_map];
    try reflexivity.
  now rewrite Z.div_1_r.
Qed.

(** X13: for the fixed-length units, on timestamps that are safe integers
    and whose difference is one (at most 2^53 - 1 ms apart, so that the
    subtraction does not round), [diff] is the floor of the timestamp
    difference over the unit, so exchanging the arguments negates the result
    only when the difference is a whole number of units; otherwise the two
    results sum to -1, and [diffAbs] of the two orders differs by one. *)
Theorem diff_floors_toward_minus_infinity
    (unit : Unit) (k : Z) (a b : ChronoDate) (ta tb : Z) :
  unit_factor unit = Some k ->
  timestamp a = Some ta ->
  timestamp b = Some tb ->
  safe_integer ta ->
  safe_integer tb ->
  safe_integer (tb - ta) ->
  exists q r,
    tb - ta = q * k + r /\ 0 <= r < k /\
    diff a b unit = Some q /\
    diff b a unit = Some (if r =? 0 then - q else - q - 1) /\
    diffAbs a b unit = Some (Z.abs q) /\
    diffAbs b a unit = Some (if r =? 0 then Z.abs q else Z.abs (q + 1)).
Proof.
  intros Hk Ha Hb _ _ _. pose proof (unit_factor_pos unit k Hk) as Hpos.
  exists ((tb - ta) / k), ((tb - ta) mod k).
  pose proof (Z.div_mod (tb - ta) k ltac:(lia)) as Hdm.
  pose proof (Z.mod_pos_bound (tb - ta) k Hpos) as Hr.
  assert (Hrev : (ta - tb) / k =
                 if (tb - ta) mod k =? 0 then - ((tb - ta) / k)
                 else - ((tb - ta) / k) - 1).
  { destruct (Z.eqb_spec ((tb - ta) mod k) 0) as [H0|H0].
    - symmetry. apply (Z.div_unique _ _ _ 0); lia.
    - symmetry. apply (Z.div_unique _ _ _ (k - (tb - ta) mod k)); lia. }
  unfold diffAbs.
  rewrite (diff_fixed unit k a b ta tb Hk Ha Hb).
  rewrite (diff_fixed unit k b a tb ta Hk Hb Ha).
  rewrite Hrev. cbn [num_abs option_map].
  split; [lia|]. split; [exact Hr|]. split; [reflexivity|].
  split; [reflexivity|]. split; [reflexivity|].
  destruct (_ =? 0); f_equal; lia.
Qed.

(** X13 at a day and a half apart, in days: 1 one way, -2 the other. *)
Lemma diff_floors_toward_minus_infinity_witness :
  let a := mkChronoDate 1970 1 1 0 0 0 0 (Some 0) "UTC" in
  let b := mkChronoDate 1970 1 2 12 0 0 0 (Some 129600000) "UTC" in
  exists q r,
    129600000 - 0 = q * 86400000 + r /\ 0 <= r < 86400000 /\
    diff a b UDay = Some q /\
    diff b a UDay = Some (if r =? 0 then - q else - q - 1) /\
    diffAbs a b UDay = Some (Z.abs q) /\
    diffAbs b a UDay = Some (if r =? 0 then Z.abs q else Z.abs (q + 1)).
Proof.
  apply (diff_floors_toward_minus_infinity UDay 86400000
           (mkChronoDate 1970 1 1 0 0 0 0 (Some 0) "UTC")
           (mkChronoDate 1970 1 2 12 0 0 0 (Some 129600000) "UTC")
           0 129600000); try reflexivity; unfold safe_integer; simpl; lia.
Defined.

(** X14: on values whose months are in 1..12, as every live value's are, and
    whose years have a magnitude of at most 10^14 (so that the month count,
    at most 12 times the year difference plus 11, is computed without
    rounding), the difference in years is the floor of the difference in
    months over 12, and the difference in months counts a month only once
    the day of month is reached. *)
Theorem diff_year_from_month (a b : ChronoDate) :
  1 <= month a <= 12 ->
  1 <= month b <= 12 ->
  Z.abs (year a) <= 100000000000000 ->
  Z.abs (year b) <= 100000000000000 ->
  exists months years,
    diff a b UMonth = Some months /\
    diff a b UYear = Some years /\
    years = months / 12 /\
    months = (year b - year a) * 12 + (month b - month a)
             - (if day b <? day a then 1 else 0).
Proof.
  intros Ha Hb _ _. unfold diff. do 2 eexists.
  split; [reflexivity|]. split; [reflexivity|]. split.
  - destruct (Z.ltb_spec (day b) (day a)), (Z.ltb_spec (month b) (month a)),
      (Z.eqb_spec (month b) (month a)); cbn [orb andb];
      symmetry; Z.div_mod_to_equations; lia.
  - destruct (day b <? day a); lia.
Qed.

(** X14 from 2024-03-15 to 2025-03-14: eleven months, zero years. *)
Lemma diff_year_from_month_witness :
  let a := mkChronoDate 2024 3 15 0 0 0 0 (Some 1710460800000) "UTC" in
  let b := mkChronoDate 2025 3 14 0 0 0 0 (Some 1741910400000) "UTC" in
  exists months years,
    diff a b UMonth = Some months /\
    diff a b UYear = Some years /\
    years = months / 12 /\
    months = (2025 - 2024) * 12 + (3 - 3) - (if 14 <? 15 then 1 else 0).
Proof.
  apply (diff_year_from_month
           (mkChronoDate 2024 3 15 0 0 0 0 (Some 1710460800000) "UTC")
           (mkChronoDate 2025 3 14 0 0 0 0 (Some 1741910400000) "UTC"));
    cbn; lia.
Defined.

Lemma live_same_timestamp_same_fields a b t :
  live a -> live b -> ~ (0 <= year a <= 99) -> ~ (0 <= year b <= 99) ->
  timestamp a = Some t -> timestamp b = Some t ->
  year a = year b /\ month a = month b /\ day a = day b /\
  hour a = hour b /\ minute a = minute b /\ second a = second b /\
  millisecond a = millisecond b.
Proof.
  intros Hla Hlb Hya Hyb Hta Htb.
  destruct (live_fields_from_timestamp a t Hla Hya Hta)
    as (_ & <- & HM & <- & <- & <- & <- & <-).
  destruct (live_fields_from_timestamp b t Hlb Hyb Htb)
    as (_ & <- & HM' & <- & <- & <- & <- & <-).
  repeat split; lia.
Qed.

(** X15: the units of [isSame] nest.  Same second implies same minute, which
    implies same hour, day, month and year in turn; and two live values with
    years outside 0..99 that are the same millisecond are the same second. *)
Theorem isSame_units_nest (a b : ChronoDate) :
  (isSame a b USecond = true -> isSame a b UMinute = true) /\
  (isSame a b UMinute = true -> isSame a b UHour = true) /\
  (isSame a b UHour = true -> isSame a b UDay = true) /\
  (isSame a b UDay = true -> isSame a b UMonth = true) /\
  (isSame a b UMonth = true -> isSame a b UYear = true) /\
  (live a -> live b -> ~ (0 <= year a <= 99) -> ~ (0 <= year b <= 99) ->
   isSame a b UMillisecond = true -> isSame a b USecond = true).
Proof.
  unfold isSame.
  repeat (split; [intros H; apply andb_prop in H as [H _]; exact H|]).
  intros Hla Hlb Hya Hyb H. unfold num_eq in H.
  destruct (timestamp a) as [ta|] eqn:Ea, (timestamp b) as [tb|] eqn:Eb;
    try discriminate.
  apply Z.eqb_eq in H. subst tb.
  destruct (live_same_timestamp_same_fields a b ta Hla Hlb Hya Hyb Ea Eb)
    as (-> & -> & -> & -> & -> & -> & _).
  now rewrite !Z.eqb_refl.
Qed.

(** X15 at one instant under two zone labels. *)
Lemma isSame_units_nest_witness :
  let a := mkChronoDate 2025 1 15 10 30 45 123 (Some 1736937045123) "UTC" in
  let b := mkChronoDate 2025 1 15 10 30 45 123 (Some 1736937045123) "+05:30" in
  isSame a b USecond = true /\ isSame a b UMinute = true.
Proof.
  assert (Hs : isSame
                 (mkChronoDate 2025 1 15 10 30 45 123 (Some 1736937045123)
                               "UTC")
                 (mkChronoDate 2025 1 15 10 30 45 123 (Some 1736937045123)
                               "+05:30") USecond = true).
  { apply (proj2 (proj2 (proj2 (proj2 (proj2 (isSame_units_nest _ _)))))).
    - exists 2025, 1, 15, 10, 30, 45, 123, "UTC". vm_compute. reflexivity.
    - exists 2025, 1, 15, 10, 30, 45, 123, "+05:30". vm_compute. reflexivity.
    - vm_compute. intros [_ H]. apply H. reflexivity.
    - vm_compute. intros [_ H]. apply H. reflexivity.
    - reflexivity. }
  split; [exact Hs|].
  exact (proj1 (isSame_units_nest _ _) Hs).
Defined.

(** ** Decimal text of the fields *)

Lemma parseInt_uint d acc :
  parseInt_acc (NilEmpty.string_of_uint d) acc = uint_value d acc /\
  allDigits (NilEmpty.string_of_uint d) = true.
Proof.
  revert acc. induction d as [|d IH|d IH|d IH|d IH|d IH|d IH|d IH|d IH|d IH|d IH];
    intros acc; cbn [NilEmpty.string_of_uint parseInt_acc uint_value allDigits];
    [split; reflexivity|..];
    destruct (IH (10 * acc + (Z.of_nat (nat_of_ascii "0") - 48))) as [_ Hd];
    rewrite Hd; (split; [|reflexivity]);
    match goal with
    | |- parseInt_acc _ ?a = uint_value _ ?b =>
        replace a with b by (vm_compute Z.of_nat; lia); apply IH
    end.
Qed.

Lemma uint_value_acc d p :
  uint_value d (Z.pos p) = Z.pos (Pos.of_uint_acc d p).
Proof.
  revert p. induction d as [|d IH|d IH|d IH|d IH|d IH|d IH|d IH|d IH|d IH|d IH];
    intros p; cbn [uint_value Pos.of_uint_acc]; [reflexivity|..];
    rewrite <- IH; f_equal; lia.
Qed.

Lemma uint_value_of_uint d : uint_value d 0 = Z.of_N (Pos.of_uint d).
Proof.
  induction d as [|d IH|d IH|d IH|d IH|d IH|d IH|d IH|d IH|d IH|d IH];
    cbn [uint_value Pos.of_uint]; [reflexivity|exact IH|..];
    cbn [Z.mul Z.add Z.of_N]; apply uint_value_acc.
Qed.

Lemma Z_toString_nonneg n :
  0 <= n ->
  parseInt (Z_toString n) = n /\ allDigits (Z_toString n) = true.
Proof.
  intros Hn. unfold Z_toString, parseInt.
  destruct n as [|p|p]; [split; reflexivity| |lia].
  cbn [Z.to_int NilZero.string_of_int].
  assert (Hs : NilZero.string_of_uint (Pos.to_uint p)
               = NilEmpty.string_of_uint (Pos.to_uint p)).
  { unfold NilZero.string_of_uint.
    destruct (Pos.to_uint p) eqn:E; try reflexivity.
    exfalso. exact (DecimalPos.Unsigned.to_uint_nonnil p E). }
  rewrite Hs. destruct (parseInt_uint (Pos.to_uint p) 0) as [-> ->].
  split; [|reflexivity].
  now rewrite uint_value_of_uint, DecimalPos.Unsigned.of_to.
Qed.

Lemma parseInt_leading_zeros k s :
  parseInt (repeat_char "0" k +:+ s) = parseInt s /\
  allDigits (repeat_char "0" k +:+ s) = allDigits s /\
  String.length (repeat_char "0" k +:+ s) = (k + String.length s)%nat.
Proof.
  unfold parseInt. induction k as [|k IH]; [repeat split; reflexivity|].
  change (repeat_char "0" (S k) +:+ s)
    with (String "0" (repeat_char "0" k +:+ s)).
  cbn [parseInt_acc allDigits String.length].
  change (10 * 0 + (Z.of_nat (nat_of_ascii "0") - 48)) with 0.
  change (isDigit "0") with true. cbn [andb].
  destruct IH as (-> & -> & ->). repeat split.
Qed.

(** X16: [padZero] never truncates and loses nothing.  For every
    non-negative safe integer (at most 2^53 - 1, where [toString] writes the
    plain decimal digits) and every width, the result consists of decimal
    digits only, has the length of the number's own digits or the width,
    whichever is larger, and [parseInt] reads the number back. *)
Theorem padZero_parseInt (num : Z) (length : nat) :
  0 <= num ->
  safe_integer num ->
  parseInt (padZero num length) = num /\
  allDigits (padZero num length) = true /\
  String.length (padZero num length)
  = Nat.max length (String.length (Z_toString num)).
Proof.
  intros Hn _. destruct (Z_toString_nonneg num Hn) as [Hp Hd].
  unfold padZero, padStart.
  destruct (parseInt_leading_zeros
              (length - String.length (Z_toString num)) (Z_toString num))
    as (-> & -> & ->).
  repeat split; [exact Hp|exact Hd|lia].
Qed.

(** X16 at the year 12345 padded to four places. *)
Lemma padZero_parseInt_witness :
  parseInt (padZero 12345 4) = 12345 /\
  allDigits (padZero 12345 4) = true /\
  String.length (padZero 12345 4)
  = Nat.max 4 (String.length (Z_toString 12345)).
Proof.
  apply (padZero_parseInt 12345 4); [lia|unfold safe_integer; simpl; lia].
Defined.

(** ** The ISO grammar *)

Lemma isDigit_value c :
  isDigit c = true -> 0 <= Z.of_nat (nat_of_ascii c) - 48 <= 9.
Proof.
  unfold isDigit. intros H. apply andb_prop in H as [H1 H2].
  apply Nat.leb_le in H1, H2. lia.
Qed.

Lemma parseInt_acc_bounds s : forall acc,
  allDigits s = true -> 0 <= acc ->
  acc * 10 ^ Z.of_nat (String.length s) <= parseInt_acc s acc
  < (acc + 1) * 10 ^ Z.of_nat (String.length s).
Proof.
  induction s as [|c s IH]; intros acc Hd Hacc.
  - cbn. lia.
  - cbn [allDigits] in Hd. apply andb_prop in Hd as [Hc Hs].
    pose proof (isDigit_value c Hc) as Hv.
    cbn [parseInt_acc String.length].
    specialize (IH (10 * acc + (Z.of_nat (nat_of_ascii c) - 48)) Hs ltac:(lia)).
    rewrite Nat2Z.inj_succ, Z.pow_succ_r by lia.
    pose proof (Z.pow_pos_nonneg 10 (Z.of_nat (String.length s))
                  ltac:(lia) ltac:(lia)).
    nia.
Qed.

Lemma parseInt_digits_bound n s :
  digits n s -> 0 <= parseInt s < 10 ^ Z.of_nat n.
Proof.
  intros [<- Hd]. pose proof (parseInt_acc_bounds s 0 Hd ltac:(lia)).
  unfold parseInt. lia.
Qed.

Lemma match_date_digits s ys ms ds :
  match_date s = Some (ys, ms, ds) ->
  digits 4 ys /\ digits 2 ms /\ digits 2 ds /\
  s = ys +:+ "-" +:+ ms +:+ "-" +:+ ds.
Proof.
  unfold match_date.
  repeat (destruct s as [|? s]; try discriminate).
  destruct (_ && _) eqn:E; [|discriminate]. intros [= <- <- <-].
  do 9 (apply andb_prop in E as [E ?]).
  repeat match goal with
         | H : (_ =? _)%char = true |- _ => apply Ascii.eqb_eq in H; subst
         end.
  unfold digits. cbn [String.length allDigits].
  repeat match goal with
         | H : isDigit _ = true |- _ => rewrite H; clear H
         end.
  repeat split; reflexivity.
Qed.

Lemma match_tz_label s tz :
  match_tz s = Some tz -> zone_suffix tz tz.
Proof.
  unfold match_tz. destruct (_ <? _)%nat; [discriminate|].
  destruct (substring _ 6 s) as [|sg [|h1 [|h2 [|c [|m1 [|m2 [|]]]]]]];
    try discriminate.
  destruct (_ && _) eqn:E; [|discriminate]. intros [= <-].
  do 5 (apply andb_prop in E as [E ?]).
  apply Ascii.eqb_eq in H1. subst c.
  change (String sg (String h1 (String h2 (String ":" (String m1
            (String m2 ""))))))
    with (String sg ((String h1 (String h2 "")) +:+ ":" +:+
                     (String m1 (String m2 "")))).
  constructor.
  - apply orb_prop in E as [E|E]; apply Ascii.eqb_eq in E; auto.
  - unfold digits. cbn [String.length allDigits]. now rewrite H3, H2.
  - unfold digits. cbn [String.length allDigits]. now rewrite H0, H.
Qed.

Lemma parseISO_Ok_shape s v :
  parseISO s = Ok v ->
  live v /\ 0 <= year v <= 9999 /\
  (timezone v = "UTC" \/ zone_suffix (timezone v) (timezone v)).
Proof.
  unfold parseISO.
  destruct (String.eqb s ""); [discriminate|].
  destruct (_ || _); [discriminate|].
  destruct (match_date _) as [[[ys ms] ds]|] eqn:Ed; [|discriminate].
  destruct (negb (isValidDate _ _ _)); [discriminate|].
  set (tp := match nth_error (split "T" s) 1 with
             | Some p => if String.eqb p "" then "00:00:00" else p
             | None => "00:00:00"
             end).
  assert (Hz : forall tz, snd (if endsWith tp "Z"
                               then (slice_drop_last tp 1, "UTC")
                               else match match_tz tp with
                                    | Some tz => (slice_drop_last tp 6, tz)
                                    | None => (tp, "UTC")
                                    end) = tz ->
                          tz = "UTC" \/ zone_suffix tz tz).
  { intros tz. destruct (endsWith tp "Z"); [intros <-; auto|].
    destruct (match_tz tp) as [z|] eqn:Ez; intros <-; [|auto].
    right. exact (match_tz_label _ _ Ez). }
  destruct (if endsWith tp "Z" then _ else _) as [timeStr tz].
  specialize (Hz tz eq_refl).
  destruct (match_time timeStr) as [[[[h mi] sec] frac]|]; [|discriminate].
  destruct (negb (isValidTime _ _ _ _)); [discriminate|].
  intros Hv. split; [do 8 eexists; exact Hv|].
  apply ChronoDateImpl_Ok in Hv as (_ & _ & ->). cbn [year timezone].
  split; [|exact Hz].
  apply match_date_digits in Ed as (Hy & _).
  pose proof (parseInt_digits_bound 4 ys Hy). cbn in H. lia.
Qed.

Lemma parseISO_failure s e :
  parseISO s = Throw e -> exists msg, e = ParseError msg.
Proof.
  unfold parseISO.
  destruct (String.eqb s ""); [intros [= <-]; eauto|].
  destruct (_ || _); [intros [= <-]; eauto|].
  destruct (match_date _) as [[[ys ms] ds]|]; [|intros [= <-]; eauto].
  destruct (negb (isValidDate _ _ _)) eqn:Evd; [intros [= <-]; eauto|].
  destruct (if endsWith _ "Z" then _ else _) as [timeStr tz].
  destruct (match_time timeStr) as [[[[h mi] sec] frac]|];
    [|intros [= <-]; eauto].
  destruct (negb (isValidTime _ _ _ _)) eqn:Evt; [intros [= <-]; eauto|].
  apply negb_false_iff in Evd, Evt.
  unfold dateFromComponents. rewrite ChronoDateImpl_valid by assumption.
  discriminate.
Qed.

(** X17: [parseISO] throws nothing but ParseError.  A value it returns is
    live, has its year in 0..9999 and the zone label UTC or a literal offset
    of the form +HH:MM / -HH:MM; rendering that value with [toISOString] and
    parsing the text again gives the same fields and timestamp under the
    zone label UTC. *)
Theorem parseISO_outcomes (s : string) :
  (forall e, parseISO s = Throw e -> exists msg, e = ParseError msg) /\
  (forall v, parseISO s = Ok v ->
     live v /\ 0 <= year v <= 9999 /\
     (timezone v = "UTC" \/ zone_suffix (timezone v) (timezone v)) /\
     parseISO (toISOString v) =
     Ok (mkChronoDate (year v) (month v) (day v) (hour v) (minute v)
           (second v) (millisecond v) (timestamp v) "UTC")).
Proof.
  split; [exact (parseISO_failure s)|].
  intros v Hv. destruct (parseISO_Ok_shape s v Hv) as (Hl & Hy & Hz).
  repeat (split; [assumption|]).
  destruct Hl as (y & m & d & h & mi & sec & ms & tz & Hc).
  pose proof Hc as Hc'. apply ChronoDateImpl_Ok in Hc' as (_ & _ & ->).
  cbn [year] in Hy. exact (toISOString_parsed y m d h mi sec ms tz _ Hy Hc).
Qed.

(** X17 at a text with a fraction and an offset, and at a text that is not a
    date. *)
Lemma parseISO_outcomes_witness :
  (exists msg, ParseError "Invalid date format" = ParseError msg) /\
  (let v := mkChronoDate 2025 1 15 10 30 45 100 (Some 1736937045100)
                         "+05:30" in
   live v /\ 0 <= year v <= 9999 /\
   (timezone v = "UTC" \/ zone_suffix (timezone v) (timezone v)) /\
   parseISO (toISOString v) =
   Ok (mkChronoDate (year v) (month v) (day v) (hour v) (minute v)
         (second v) (millisecond v) (timestamp v) "UTC")).
Proof.
  split.
  - apply (proj1 (parseISO_outcomes "tomorrow")). vm_compute. reflexivity.
  - apply (proj2 (parseISO_outcomes "2025-01-15T10:30:45.1+05:30")).
    vm_compute. reflexivity.
Defined.

Lemma fraction_text_cases fr ms :
  fraction_text fr ms ->
  (fr = "" /\ ms = 0) \/
  (exists f1, isDigit f1 = true /\ fr = String "." (String f1 "") /\
              ms = parseInt (String f1 "00")) \/
  (exists f1 f2, isDigit f1 = true /\ isDigit f2 = true /\
                 fr = String "." (String f1 (String f2 "")) /\
                 ms = parseInt (String f1 (String f2 "0"))) \/
  (exists f1 f2 f3, isDigit f1 = true /\ isDigit f2 = true /\
                    isDigit f3 = true /\
                    fr = String "." (String f1 (String f2 (String f3 ""))) /\
                    ms = parseInt (String f1 (String f2 (String f3 "")))).
Proof.
  intros [|F Hl Hd]; [left; auto|right].
  destruct F as [|f1 [|f2 [|f3 [|]]]]; cbn [String.length] in Hl; try lia;
    cbn [allDigits] in Hd;
    repeat (apply andb_prop in Hd as [? Hd]).
  - left. exists f1. repeat split; auto.
    unfold parseInt. cbn [parseInt_acc String.length].
    change (Z.of_nat (nat_of_ascii "0")) with 48.
    change (10 ^ (3 - Z.of_nat 1)) with 100. lia.
  - right; left. exists f1, f2. repeat split; auto.
    unfold parseInt. cbn [parseInt_acc String.length].
    change (Z.of_nat (nat_of_ascii "0")) with 48.
    change (10 ^ (3 - Z.of_nat 2)) with 10. lia.
  - right; right. exists f1, f2, f3. repeat split; auto.
    change (10 ^ (3 - Z.of_nat (String.length
              (String f1 (String f2 (String f3 "")))))) with 1. lia.
Qed.

Lemma isDigit_not_sign c :
  isDigit c = true ->
  Ascii.eqb c "+" = false /\ Ascii.eqb c "-" = false /\
  Ascii.eqb c "Z" = false /\ Ascii.eqb c "T" = false.
Proof.
  intros H. repeat split; apply (isDigit_neq c _ H); reflexivity.
Qed.

(** The clock text with its fraction: what the three patterns of the time
    section make of it when no zone suffix follows. *)
Lemma time_text_stages H Mi S fr ms :
  digits 2 H -> digits 2 Mi -> digits 2 S -> fraction_text fr ms ->
  let X := (H +:+ ":" +:+ Mi +:+ ":" +:+ S) +:+ fr in
  endsWith X "Z" = false /\ match_tz X = None /\ noChar "T" X = true /\
  String.length X <> O /\
  exists frac,
    match_time X = Some (H, Mi, S, frac) /\
    ms = match frac with
         | Some f => parseInt (padEnd f 3 "0")
         | None => 0
         end.
Proof.
  intros HH HMi HS Hfr. cbv zeta.
  explode H HH. explode Mi HMi. explode S HS.
  repeat match goal with
         | Hd : isDigit ?c = true |- _ =>
             let F := fresh "F" in
             pose proof (isDigit_not_sign c Hd) as F;
             destruct F as (? & ? & ? & ?); revert Hd
         end.
  intros.
  destruct (fraction_text_cases fr ms Hfr)
    as [[-> ->]|[(f1 & D1 & -> & ->)|[(f1 & f2 & D1 & D2 & -> & ->)
       |(f1 & f2 & f3 & D1 & D2 & D3 & -> & ->)]]];
    repeat match goal with
           | Hd : isDigit ?c = true |- _ =>
               let F := fresh "F" in
               pose proof (isDigit_not_sign c Hd) as F;
               destruct F as (? & ? & ? & ?); revert Hd
           end;
    intros;
    cbv [String.append];
    (split; [unfold endsWith;
             cbn [String.length substring String.eqb];
             repeat match goal with
                    | E : Ascii.eqb ?c _ = false |- context [Ascii.eqb ?c _] =>
                        rewrite E
                    end; reflexivity|]);
    (split; [unfold match_tz;
             cbn [String.length substring Nat.sub Nat.ltb Nat.leb];
             repeat match goal with
                    | E : Ascii.eqb ?c _ = false |- context [Ascii.eqb ?c _] =>
                        rewrite E
                    end; reflexivity|]);
    (split; [cbn [noChar];
             repeat match goal with
                    | E : Ascii.eqb ?c _ = false |- context [Ascii.eqb ?c _] =>
                        rewrite E
                    end; reflexivity|]);
    (split; [discriminate|]);
    eexists; (split; [unfold match_time; cbn [allDigits String.length];
                      repeat match goal with
                             | Hd : isDigit ?c = true |- context [isDigit ?c] =>
                                 rewrite Hd
                             end; reflexivity|]);
    reflexivity.
Qed.

Lemma substring_append_skip (a b : string) k n :
  substring (String.length a + k) n (a +:+ b) = substring k n b.
Proof. induction a as [|c a IH]; [reflexivity|exact IH]. Qed.

Lemma endsWith_append (a b : string) c :
  String.length b <> O -> endsWith (a +:+ b) c = endsWith b c.
Proof.
  intros Hb. unfold endsWith. rewrite length_append.
  destruct (String.length b) as [|k] eqn:E; [congruence|].
  rewrite Nat.add_succ_r. now rewrite substring_append_skip.
Qed.

Lemma match_tz_append (a b : string) :
  String.length b = 6%nat -> match_tz (a +:+ b) = match_tz b.
Proof.
  intros Hb. unfold match_tz. rewrite length_append, Hb.
  replace (String.length a + 6 <? 6)%nat with false
    by (symmetry; apply Nat.ltb_ge; lia).
  replace (String.length a + 6 - 6)%nat with (String.length a + 0)%nat by lia.
  rewrite substring_append_skip. reflexivity.
Qed.

(** The zone step of [parseISO]: a suffix of the grammar is cut off and
    gives the zone label, the clock text in front of it is kept. *)
Lemma zone_stage X zs tz :
  zone_suffix zs tz -> endsWith X "Z" = false -> match_tz X = None ->
  (if endsWith (X +:+ zs) "Z" then (slice_drop_last (X +:+ zs) 1, "UTC")
   else match match_tz (X +:+ zs) with
        | Some z => (slice_drop_last (X +:+ zs) 6, z)
        | None => (X +:+ zs, "UTC")
        end) = (X, tz) /\
  noChar "T" zs = true.
Proof.
  intros [| |sg hh mm Hsg Hhh Hmm] HZ Htz.
  - rewrite append_empty_r, HZ, Htz. auto.
  - rewrite endsWith_snoc, slice_drop_last_snoc. auto.
  - explode hh Hhh. explode mm Hmm. cbv [String.append].
    fold String.append.
    repeat match goal with
           | Hd : isDigit ?c = true |- _ =>
               let F := fresh "F" in
               pose proof (isDigit_not_sign c Hd) as F;
               destruct F as (? & ? & ? & ?); revert Hd
           end.
    intros.
    rewrite endsWith_append by discriminate.
    rewrite match_tz_append by reflexivity.
    set (z := String sg _).
    replace (slice_drop_last (X +:+ z) 6) with X
      by (symmetry; apply (slice_drop_last_append X z)).
    subst z. unfold endsWith, match_tz.
    cbn [String.length substring String.eqb Nat.sub Nat.ltb Nat.leb noChar].
    repeat match goal with
           | E : Ascii.eqb ?c _ = false |- context [Ascii.eqb ?c _] =>
               rewrite E
           end.
    use_digit_facts.
    destruct Hsg as [-> | ->]; auto.
Qed.

(** What [parseISO] makes of a text of the grammar: the two range checks
    decide the outcome. *)
Lemma parseISO_grammar_eval Y Mo D H Mi S fr ms zs tz :
  digits 4 Y -> digits 2 Mo -> digits 2 D ->
  digits 2 H -> digits 2 Mi -> digits 2 S ->
  fraction_text fr ms -> zone_suffix zs tz ->
  parseISO ((Y +:+ "-" +:+ Mo +:+ "-" +:+ D) +:+ "T" +:+
            (H +:+ ":" +:+ Mi +:+ ":" +:+ S) +:+ fr +:+ zs)
  = if isValidDate (parseInt Y) (parseInt Mo) (parseInt D) then
      if isValidTime (parseInt H) (parseInt Mi) (parseInt S) ms then
        Ok (mkChronoDate (parseInt Y) (parseInt Mo) (parseInt D)
              (parseInt H) (parseInt Mi) (parseInt S) ms
              (UTC (parseInt Y) (parseInt Mo - 1) (parseInt D)
                   (parseInt H) (parseInt Mi) (parseInt S) ms) tz)
      else Throw (ParseError "Invalid time")
    else Throw (ParseError "Invalid date").
Proof.
  intros HY HMo HD HH HMi HS Hfr Hzs.
  pose proof (match_date_rendered Y Mo D HY HMo HD) as Hdate.
  pose proof (noChar_T_date Y Mo D HY HMo HD) as HnT.
  destruct (time_text_stages H Mi S fr ms HH HMi HS Hfr)
    as (HZ & Htz & HnT' & Hlen & frac & Htime & Hms).
  rewrite <- (append_assoc (H +:+ ":" +:+ Mi +:+ ":" +:+ S) fr zs).
  generalize dependent (Y +:+ "-" +:+ Mo +:+ "-" +:+ D). intros date Hdate HnT.
  generalize dependent ((H +:+ ":" +:+ Mi +:+ ":" +:+ S) +:+ fr).
  intros X HZ Htz HnT' Hlen Htime.
  destruct (zone_stage X zs tz Hzs HZ Htz) as (Hstage & HnTz).
  unfold parseISO.
  rewrite eqb_empty_false
    by (rewrite length_append; change ("T" +:+ ?x) with (String "T" x);
        simpl; lia).
  change ("T" +:+ X +:+ zs) with (String "T" (X +:+ zs)).
  rewrite split_append_sep by exact HnT.
  rewrite split_noChar by (rewrite noChar_append, HnT', HnTz; reflexivity).
  cbn [List.length Nat.eqb Nat.ltb Nat.leb orb nth nth_error].
  rewrite eqb_empty_false by (rewrite length_append; lia).
  rewrite Hdate.
  destruct (isValidDate _ _ _) eqn:Hvd; cbn [negb]; [|reflexivity].
  rewrite Hstage, Htime, <- Hms.
  destruct (isValidTime _ _ _ _) eqn:Hvt; cbn [negb]; [|reflexivity].
  unfold dateFromComponents. now apply ChronoDateImpl_valid.
Qed.

Lemma parseISO_date_text_eval Y Mo D :
  digits 4 Y -> digits 2 Mo -> digits 2 D ->
  parseISO (Y +:+ "-" +:+ Mo +:+ "-" +:+ D)
  = if isValidDate (parseInt Y) (parseInt Mo) (parseInt D) then
      Ok (mkChronoDate (parseInt Y) (parseInt Mo) (parseInt D) 0 0 0 0
            (UTC (parseInt Y) (parseInt Mo - 1) (parseInt D) 0 0 0 0) "UTC")
    else Throw (ParseError "Invalid date").
Proof.
  intros HY HMo HD.
  pose proof (match_date_rendered Y Mo D HY HMo HD) as Hdate.
  pose proof (noChar_T_date Y Mo D HY HMo HD) as HnT.
  assert (Hlen : String.length (Y +:+ "-" +:+ Mo +:+ "-" +:+ D) <> O).
  { destruct HY as [HY _]. rewrite length_append, HY. lia. }
  generalize dependent (Y +:+ "-" +:+ Mo +:+ "-" +:+ D).
  intros date Hdate HnT Hlen.
  unfold parseISO. rewrite (split_noChar "T" date HnT).
  rewrite eqb_empty_false by exact Hlen.
  cbn [List.length Nat.eqb Nat.ltb Nat.leb orb nth nth_error].
  rewrite Hdate.
  destruct (isValidDate _ _ _) eqn:Hvd; cbn [negb]; [|reflexivity].
  change (endsWith "00:00:00" "Z") with false. cbn iota.
  change (match_tz "00:00:00") with (@None string). cbn iota.
  change (match_time "00:00:00") with (Some ("00", "00", "00", @None string)).
  cbn iota. change (parseInt "00") with 0.
  change (isValidTime 0 0 0 0) with true. cbn [negb].
  unfold dateFromComponents. now apply ChronoDateImpl_valid.
Qed.

Lemma DaysBeforeMonth_bounds y mn :
  0 <= mn <= 11 -> 0 <= DaysBeforeMonth y mn <= 335.
Proof.
  intros H. unfold DaysBeforeMonth.
  destruct (leapDay_cases y) as [-> | ->];
    assert (Hc : mn = 0 \/ mn = 1 \/ mn = 2 \/ mn = 3 \/ mn = 4 \/ mn = 5 \/
                 mn = 6 \/ mn = 7 \/ mn = 8 \/ mn = 9 \/ mn = 10 \/ mn = 11)
      by lia;
    repeat (destruct Hc as [->|Hc]; [cbn; lia|]); subst; cbn; lia.
Qed.

(** The linear time of a date of the years 0..9999 is inside the range of
    time values. *)
Lemma utcLinearTime_four_digit_year y m d h mi s ms :
  0 <= y <= 9999 -> 1 <= m <= 12 -> 1 <= d <= 31 ->
  isValidTime h mi s ms = true ->
  Z.abs (utcLinearTime y m d h mi s ms) <= maxTime.
Proof.
  intros Hy Hm Hd Ht.
  rewrite <- (MakeDate_linear y m d h mi s ms Hm).
  pose proof (MakeTime_range h mi s ms Ht) as Hmt.
  rewrite MakeDay_in_year by lia.
  pose proof (DaysBeforeMonth_bounds y (m - 1) ltac:(lia)) as Hb.
  unfold MakeDate, DayFromYear, maxTime, msPerDay in *.
  Z.div_mod_to_equations. lia.
Qed.

Lemma UTC_four_digit_year y m d h mi s ms :
  0 <= y <= 9999 -> 1 <= m <= 12 -> 1 <= d <= 31 ->
  isValidTime h mi s ms = true ->
  UTC y (m - 1) d h mi s ms
  = Some (utcLinearTime
            (if (0 <=? y) && (y <=? 99) then 1900 + y else y)
            m d h mi s ms).
Proof.
  intros Hy Hm Hd Ht. unfold UTC. fold (MakeFullYear y).
  rewrite (MakeDate_linear (MakeFullYear y) m d h mi s ms Hm).
  apply TimeClip_in_range.
  apply utcLinearTime_four_digit_year; try assumption.
  unfold MakeFullYear.
  destruct (Z.leb_spec 0 y), (Z.leb_spec y 99); cbn [andb]; lia.
Qed.

(** X18: every text of the grammar YYYY-MM-DDTHH:MM:SS, with an optional
    fraction of one to three digits and an optional zone suffix Z or
    +HH:MM / -HH:MM, that names a valid calendar date and clock time is
    parsed to exactly the written fields; a fraction counts as its digits
    padded with zeros on the right.  The timestamp is the linear UTC time of
    the written fields, except that a written year 0000..0099 is taken as
    1900..1999 for the timestamp (the rule of [Date.UTC]); the zone suffix
    does not enter it, an offset being kept only as the zone label. *)
Theorem parseISO_accepts_grammar Y Mo D H Mi S fr ms zs tz :
  digits 4 Y -> digits 2 Mo -> digits 2 D ->
  digits 2 H -> digits 2 Mi -> digits 2 S ->
  fraction_text fr ms -> zone_suffix zs tz ->
  isValidDate (parseInt Y) (parseInt Mo) (parseInt D) = true ->
  isValidTime (parseInt H) (parseInt Mi) (parseInt S) ms = true ->
  parseISO ((Y +:+ "-" +:+ Mo +:+ "-" +:+ D) +:+ "T" +:+
            (H +:+ ":" +:+ Mi +:+ ":" +:+ S) +:+ fr +:+ zs)
  = Ok (mkChronoDate (parseInt Y) (parseInt Mo) (parseInt D)
          (parseInt H) (parseInt Mi) (parseInt S) ms
          (Some (utcLinearTime
                   (if (0 <=? parseInt Y) && (parseInt Y <=? 99)
                    then 1900 + parseInt Y else parseInt Y)
                   (parseInt Mo) (parseInt D)
                   (parseInt H) (parseInt Mi) (parseInt S) ms)) tz).
Proof.
  intros HY HMo HD HH HMi HS Hfr Hzs Hvd Hvt.
  rewrite (parseISO_grammar_eval Y Mo D H Mi S fr ms zs tz) by assumption.
  rewrite Hvd, Hvt.
  pose proof (parseInt_digits_bound 4 Y HY) as Hy.
  change (10 ^ Z.of_nat 4) with 10000 in Hy.
  pose proof (isValidDate_month _ _ _ Hvd) as [Hm Hd].
  pose proof (getDaysInMonth_le_31 (parseInt Y) (parseInt Mo)) as H31.
  rewrite UTC_four_digit_year by (assumption || lia).
  reflexivity.
Qed.

(** X18 at a text with a one-digit fraction and a negative offset, and at a
    text of the year 0050, whose timestamp is that of 1950. *)
Lemma parseISO_accepts_grammar_witness :
  parseISO "2024-02-29T23:59:58.5-08:00"
  = Ok (mkChronoDate 2024 2 29 23 59 58 500 (Some 1709251198500) "-08:00") /\
  parseISO "0050-01-01T00:00:00Z"
  = Ok (mkChronoDate 50 1 1 0 0 0 0 (Some (-631152000000)) "UTC").
Proof.
  split.
  - refine (parseISO_accepts_grammar "2024" "02" "29" "23" "59" "58" ".5" 500
              "-08:00" "-08:00" _ _ _ _ _ _ _ _ _ _);
      try (split; reflexivity); try reflexivity.
    + exact (fraction_digits "5" ltac:(cbn; lia) eq_refl).
    + exact (zone_offset "-" "08" "00" (or_intror eq_refl)
               (conj eq_refl eq_refl) (conj eq_refl eq_refl)).
  - refine (parseISO_accepts_grammar "0050" "01" "01" "00" "00" "00" "" 0
              "Z" "UTC" _ _ _ _ _ _ _ _ _ _);
      try (split; reflexivity); try reflexivity.
    + exact fraction_none.
    + exact zone_Z.
Defined.

(** ** The validator and the parser *)

Lemma zone_tail_ok_suffix t :
  zone_tail_ok t = true -> exists tz, zone_suffix t tz.
Proof.
  destruct t as [|sg [|h1 [|h2 [|c [|m1 [|m2 [|]]]]]]]; cbn [zone_tail_ok];
    try discriminate.
  - intros _. exists "UTC". constructor.
  - intros E%Ascii.eqb_eq. subst. exists "UTC". constructor.
  - intros E. do 5 (apply andb_prop in E as [E ?]).
    apply Ascii.eqb_eq in H1. subst c.
    eexists.
    change (String sg (String h1 (String h2 (String ":" (String m1
              (String m2 ""))))))
      with (String sg ((String h1 (String h2 "")) +:+ ":" +:+
                       (String m1 (String m2 "")))).
    constructor.
    + apply orb_prop in E as [E|E]; apply Ascii.eqb_eq in E; auto.
    + unfold digits. cbn [String.length allDigits]. now rewrite H3, H2.
    + unfold digits. cbn [String.length allDigits]. now rewrite H0, H.
Qed.

Lemma fraction_zone_tail_ok_split t :
  fraction_zone_tail_ok t = true ->
  exists fr ms zs tz,
    fraction_text fr ms /\ zone_suffix zs tz /\ t = fr +:+ zs.
Proof.
  assert (Hnone : forall u, zone_tail_ok u = true ->
            exists fr ms zs tz,
              fraction_text fr ms /\ zone_suffix zs tz /\ u = fr +:+ zs).
  { intros u [tz Hu]%zone_tail_ok_suffix.
    exists "", 0, u, tz. repeat split; [constructor|exact Hu]. }
  assert (Hsome : forall F u, (1 <= String.length F <= 3)%nat ->
            allDigits F = true -> zone_tail_ok u = true ->
            exists fr ms zs tz,
              fraction_text fr ms /\ zone_suffix zs tz /\
              String "." (F +:+ u) = fr +:+ zs).
  { intros F u HF HD [tz Hu]%zone_tail_ok_suffix.
    exists ("." +:+ F), (parseInt F * 10 ^ (3 - Z.of_nat (String.length F))),
      u, tz.
    repeat split; [now constructor|exact Hu]. }
  unfold fraction_zone_tail_ok.
  destruct t as [|dot [|f1 rest]]; try (apply Hnone).
  destruct (Ascii.eqb dot "." && isDigit f1) eqn:E; [|apply Hnone].
  apply andb_prop in E as [->%Ascii.eqb_eq D1].
  destruct rest as [|f2 rest2].
  - intros _. apply (Hsome (String f1 "") ""); cbn; try lia; auto.
    now rewrite D1.
  - destruct (isDigit f2) eqn:D2.
    + destruct rest2 as [|f3 rest3].
      * intros _. apply (Hsome (String f1 (String f2 "")) ""); cbn;
          try lia; auto. now rewrite D1, D2.
      * destruct (isDigit f3) eqn:D3.
        -- intros Hz.
           apply (Hsome (String f1 (String f2 (String f3 ""))) rest3);
             cbn; try lia; auto. now rewrite D1, D2, D3.
        -- intros Hz.
           apply (Hsome (String f1 (String f2 "")) (String f3 rest3));
             cbn; try lia; auto. now rewrite D1, D2.
    + intros Hz. apply (Hsome (String f1 "") (String f2 rest2));
        cbn; try lia; auto. now rewrite D1.
Qed.

(** The shape of the strings [isValidISOString] accepts. *)
Lemma isValidISOString_shape s :
  isValidISOString s = true ->
  exists Y Mo D,
    digits 4 Y /\ digits 2 Mo /\ digits 2 D /\
    (s = Y +:+ "-" +:+ Mo +:+ "-" +:+ D \/
     exists H Mi S fr ms zs tz,
       digits 2 H /\ digits 2 Mi /\ digits 2 S /\
       fraction_text fr ms /\ zone_suffix zs tz /\
       s = (Y +:+ "-" +:+ Mo +:+ "-" +:+ D) +:+ "T" +:+
           (H +:+ ":" +:+ Mi +:+ ":" +:+ S) +:+ fr +:+ zs).
Proof.
  unfold isValidISOString.
  do 10 (destruct s as [|? s]; try discriminate).
  intros E. do 10 (apply andb_prop in E as [E ?]).
  repeat match goal with
         | H : (_ =? _)%char = true |- _ => apply Ascii.eqb_eq in H; subst
         end.
  exists (String a (String a0 (String a1 (String a2 "")))),
    (String a4 (String a5 "")), (String a7 (String a8 "")).
  unfold digits. cbn [String.length allDigits].
  repeat match goal with
         | H : isDigit ?c = true |- context [isDigit ?c] => rewrite H
         end.
  do 3 (split; [split; reflexivity|]).
  destruct s as [|t s]; [left; reflexivity|right].
  do 8 (destruct s as [|? s]; try discriminate).
  match goal with
  | H : (_ && fraction_zone_tail_ok _) = true |- _ =>
      do 9 (apply andb_prop in H as [H ?])
  end.
  repeat match goal with
         | H : (_ =? _)%char = true |- _ => apply Ascii.eqb_eq in H; subst
         end.
  match goal with
  | H : fraction_zone_tail_ok _ = true |- _ =>
      apply fraction_zone_tail_ok_split in H as (fr & ms & zs & tz & ? & ? & ->)
  end.
  exists (String a3 (String a6 "")), (String a10 (String a11 "")),
    (String a13 (String a14 "")), fr, ms, zs, tz.
  cbn [String.length allDigits].
  repeat match goal with
         | H : isDigit ?c = true |- context [isDigit ?c] => rewrite H
         end.
  repeat split; assumption.
Qed.

(** X19: a string that [isValidISOString] accepts passes every format check
    of [parseISO]: the parser returns a value, or throws the ParseError
    "Invalid date" or "Invalid time" of its two range checks; it throws none
    of its three format errors. *)
Theorem isValidISOString_parseISO (s : string) :
  isValidISOString s = true ->
  (exists v, parseISO s = Ok v) \/
  parseISO s = Throw (ParseError "Invalid date") \/
  parseISO s = Throw (ParseError "Invalid time").
Proof.
  intros (Y & Mo & D & HY & HMo & HD & Hs)%isValidISOString_shape.
  destruct Hs as [->|(H & Mi & S & fr & ms & zs & tz & HH & HMi & HS & Hfr
                      & Hzs & ->)].
  - rewrite parseISO_date_text_eval by assumption.
    destruct (isValidDate _ _ _); eauto.
  - rewrite (parseISO_grammar_eval Y Mo D H Mi S fr ms zs tz) by assumption.
    destruct (isValidDate _ _ _); [|auto].
    destruct (isValidTime _ _ _ _); eauto.
Qed.

(** X19 at a well-formed text that names 30 February. *)
Lemma isValidISOString_parseISO_witness :
  (exists v, parseISO "2025-02-30T10:00:00Z" = Ok v) \/
  parseISO "2025-02-30T10:00:00Z" = Throw (ParseError "Invalid date") \/
  parseISO "2025-02-30T10:00:00Z" = Throw (ParseError "Invalid time").
Proof.
  apply (isValidISOString_parseISO "2025-02-30T10:00:00Z").
  vm_compute. reflexivity.
Defined.

(** ** The formatter cache *)

(** Every entry of a reachable cache is the formatter built from its own
    key. *)
Lemma reachable_entries_built (c : gmap string CompiledFormatter) :
  cache_reachable c ->
  forall k f, c !! k = Some f -> f = build_formatter k.
Proof.
  induction 1 as [|date s c Hc IH]; intros k f Hk.
  - rewrite lookup_empty in Hk. discriminate.
  - revert Hk. unfold format. destruct (String.eqb s ""); [simpl; eauto|].
    destruct (compileFormatter s c) as [g c'] eqn:E. simpl.
    destruct (compileFormatter_cache s c) as [H|(k' & Hk' & H)];
      rewrite E in H; simpl in H; subst c'; [eauto|].
    destruct (decide (k' = k)) as [->|Hne].
    + rewrite lookup_insert_eq. congruence.
    + rewrite lookup_insert_ne by exact Hne. eauto.
Qed.

(** The key a format string is compiled under: the preset's pattern for a
    preset name, the string itself otherwise. *)
Lemma compileFormatter_reachable s (c : gmap string CompiledFormatter) :
  cache_reachable c ->
  exists k,
    lookup_key k FORMAT_PRESETS = None /\
    fst (compileFormatter s c) = build_formatter k /\
    snd (compileFormatter s c) = <[k := build_formatter k]> c /\
    compileFormatter s (<[k := build_formatter k]> c)
    = (build_formatter k, <[k := build_formatter k]> c) /\
    k = match lookup_key s FORMAT_PRESETS with Some pat => pat | None => s end.
Proof.
  intros Hc.
  assert (Hins : forall k, lookup_key k FORMAT_PRESETS = None ->
            fst (compileFormatter k c) = build_formatter k /\
            snd (compileFormatter k c) = <[k := build_formatter k]> c).
  { intros k Hk. destruct (c !! k) as [f|] eqn:E.
    - rewrite (compileFormatter_hit k f c E). cbn [fst snd].
      pose proof (reachable_entries_built c Hc k f E) as ->.
      split; [reflexivity|]. symmetry. apply insert_id. exact E.
    - rewrite (compileFormatter_plain k c E Hk). auto. }
  destruct (lookup_key s FORMAT_PRESETS) as [pat|] eqn:P.
  - pose proof (reachable_no_preset_key c Hc s pat P) as Hs.
    destruct (preset_expansion s pat P) as (_ & _ & Hp).
    exists pat. rewrite (compileFormatter_preset s pat c Hs P).
    destruct (Hins pat Hp) as [H1 H2].
    repeat split; try assumption.
    assert (Hs' : (<[pat := build_formatter pat]> c) !! s = None).
    { rewrite lookup_insert_ne by congruence. exact Hs. }
    rewrite (compileFormatter_preset s pat _ Hs' P).
    apply compileFormatter_hit, lookup_insert_eq.
  - exists s. destruct (Hins s P) as [H1 H2].
    repeat split; try assumption.
    apply compileFormatter_hit, lookup_insert_eq.
Qed.

(** X20: memoisation is transparent.  On every cache the exported
    operations can produce, [format] gives the result it gives on the empty
    cache; a second call with the same format string leaves the cache as the
    first call left it; and a call adds at most one entry, and removes
    none. *)
Theorem format_cache_transparent
    (c : gmap string CompiledFormatter) (date date' : ChronoDate)
    (formatStr : string) :
  cache_reachable c ->
  fst (format date formatStr c) = fst (format date formatStr ∅) /\
  snd (format date' formatStr (snd (format date formatStr c)))
  = snd (format date formatStr c) /\
  (getFormatterCacheSize c
   <= getFormatterCacheSize (snd (format date formatStr c))
   <= S (getFormatterCacheSize c))%nat.
Proof.
  intros Hc. unfold format, getFormatterCacheSize.
  destruct (String.eqb formatStr "") eqn:Es.
  - cbn [fst snd]. repeat split; lia.
  - destruct (compileFormatter_reachable formatStr c Hc)
      as (k & Hk & Hf & Hs & Hagain & Hkey).
    destruct (compileFormatter_reachable formatStr ∅ reachable_initial)
      as (k0 & _ & Hf0 & _ & _ & Hkey0).
    destruct (compileFormatter formatStr c) as [f c'].
    destruct (compileFormatter formatStr ∅) as [f0 c0].
    cbn [fst snd] in *. subst f f0 c'. rewrite Hagain. cbn [snd].
    split; [congruence|]. split; [reflexivity|].
    destruct (c !! k) eqn:E.
    + rewrite map_size_insert_Some by eauto. lia.
    + rewrite map_size_insert_None by exact E. lia.
Qed.

(** X20 at a cache that holds one pattern, formatting with a preset. *)
Lemma format_cache_transparent_witness :
  let date := mkChronoDate 2025 1 15 10 30 45 123 (Some 1736937045123) "UTC" in
  let c := snd (format date "YYYY" ∅) in
  fst (format date "SQL" c) = fst (format date "SQL" ∅) /\
  snd (format date "SQL" (snd (format date "SQL" c)))
  = snd (format date "SQL" c) /\
  (getFormatterCacheSize c
   <= getFormatterCacheSize (snd (format date "SQL" c))
   <= S (getFormatterCacheSize c))%nat.
Proof.
  intros date c.
  apply (format_cache_transparent c date date "SQL").
  apply reachable_format, reachable_initial.
Defined.

(** ** The format engine *)

Lemma run_formatter_acc parts date : forall acc,
  fold_left (fun result p =>
               match p with
               | PHandler h => result +:+ h date
               | PText t => result +:+ t
               end) parts acc
  = acc +:+ run_formatter parts date.
Proof.
  unfold run_formatter.
  induction parts as [|p ps IH]; intros acc; cbn [fold_left].
  - now rewrite append_empty_r.
  - rewrite IH. rewrite (IH (match p with
                             | PHandler h => "" +:+ h date
                             | PText t => "" +:+ t
                             end)).
    destruct p; cbv [String.append]; fold String.append;
      now rewrite append_assoc.
Qed.

Lemma run_formatter_cons p ps date :
  run_formatter (p :: ps) date = part_text date p +:+ run_formatter ps date.
Proof.
  unfold run_formatter at 1. cbn [fold_left]. rewrite run_formatter_acc.
  destruct p; reflexivity.
Qed.

Lemma build_formatter_eq s :
  build_formatter s
  = map restore_part (scan_tokens s (mask_literals s O) O "").
Proof. reflexivity. Qed.

Lemma token_pattern_ok t : In t TOKEN_PATTERN -> token_ok t = true.
Proof.
  assert (H : forallb token_ok TOKEN_PATTERN = true) by (vm_compute; reflexivity).
  rewrite forallb_forall in H. apply H.
Qed.

Lemma match_token_Some s tok :
  match_token s = Some tok ->
  In tok TOKEN_PATTERN /\ String.prefix tok s = true.
Proof.
  unfold match_token. intros H.
  apply (find_some (fun t => String.prefix t s)) in H. exact H.
Qed.

Lemma token_ok_facts t :
  token_ok t = true ->
  noChar "[" t = true /\ noChar zero t = true /\ t <> "" /\
  exists h, lookup_key t TOKEN_HANDLERS = Some h.
Proof.
  unfold token_ok. intros H.
  apply andb_prop in H as [H H4]. apply andb_prop in H as [H H3].
  apply andb_prop in H as [H1 H2].
  repeat split; try assumption.
  - intros ->. discriminate.
  - destruct (lookup_key t TOKEN_HANDLERS) as [h|]; [eauto|discriminate].
Qed.

Lemma prefix_mask t :
  noChar "[" t = true -> noChar zero t = true ->
  forall s, String.prefix t (mask_literals s O) = String.prefix t s.
Proof.
  induction t as [|a t IH]; intros Hb Hz s.
  { now destruct s, (mask_literals _ O). }
  cbn [noChar] in Hb, Hz.
  apply andb_prop in Hb as [Ha Hb]. apply andb_prop in Hz as [Ha0 Hz].
  apply negb_true_iff in Ha, Ha0.
  apply Ascii.eqb_neq in Ha, Ha0.
  destruct s as [|c s]; [reflexivity|].
  cbn [mask_literals]. destruct (Ascii.eqb_spec c "[") as [->|Hc].
  - destruct (literal_at s); cbn [String.prefix];
      repeat match goal with
             | |- context [ascii_dec ?x ?y] => destruct (ascii_dec x y)
             end; congruence.
  - cbn [String.prefix]. destruct (ascii_dec a c); [now apply IH|reflexivity].
Qed.

Lemma find_ext_in {A} (f g : A -> bool) l :
  (forall x, In x l -> f x = g x) -> find f l = find g l.
Proof.
  induction l as [|a l IH]; intros H; [reflexivity|].
  cbn [find]. rewrite (H a (or_introl eq_refl)).
  destruct (g a); [reflexivity|]. apply IH. intros x Hx. apply H. now right.
Qed.

(** Masking the literals changes no match at a position outside them. *)
Lemma match_token_mask s : match_token (mask_literals s O) = match_token s.
Proof.
  unfold match_token. apply find_ext_in. intros t Ht.
  destruct (token_ok_facts t (token_pattern_ok t Ht)) as (Hb & Hz & _).
  now apply prefix_mask.
Qed.

Lemma match_token_zero w : match_token (String zero w) = None.
Proof. reflexivity. Qed.

Lemma mask_prefix u rest :
  noChar "[" u = true ->
  mask_literals (u +:+ rest) O = u +:+ mask_literals rest O.
Proof.
  induction u as [|c u IH]; intros H; [reflexivity|].
  cbn [noChar] in H. apply andb_prop in H as [Hc Hu].
  apply negb_true_iff in Hc.
  change (String c u +:+ rest) with (String c (u +:+ rest)).
  cbn [mask_literals]. rewrite Hc, IH by exact Hu. reflexivity.
Qed.

Lemma mask_skip u rest :
  mask_literals (u +:+ rest) (String.length u)
  = repeat_char zero (String.length u) +:+ mask_literals rest O.
Proof.
  induction u as [|c u IH]; [reflexivity|].
  change (String c u +:+ rest) with (String c (u +:+ rest)).
  cbn [mask_literals String.length repeat_char]. now rewrite IH.
Qed.

Lemma scan_skip u : forall wu f w text,
  String.length wu = String.length u ->
  scan_tokens (u +:+ f) (wu +:+ w) (String.length u) text
  = scan_tokens f w O text.
Proof.
  induction u as [|c u IH]; intros [|c' wu] f w text Hl;
    try discriminate Hl; [reflexivity|].
  change (scan_tokens (String c (u +:+ f)) (String c' (wu +:+ w))
                      (S (String.length u)) text
          = scan_tokens f w O text).
  cbn [scan_tokens]. apply IH. now injection Hl.
Qed.

Lemma scan_zeros u : forall f w text,
  scan_tokens (u +:+ f) (repeat_char zero (String.length u) +:+ w) O text
  = scan_tokens f w O (text +:+ u).
Proof.
  induction u as [|c u IH]; intros f w text.
  - now rewrite append_empty_r.
  - change (scan_tokens (String c (u +:+ f))
              (String zero (repeat_char zero (String.length u) +:+ w)) O text
            = scan_tokens f w O (text +:+ String c u)).
    cbn [scan_tokens]. rewrite match_token_zero, IH.
    now rewrite append_assoc.
Qed.

Lemma push_text_nonempty c t : push_text (String c t) = [PText (String c t)].
Proof. reflexivity. Qed.

Lemma merge_text_append a c X :
  merge_text a (merge_text (String c "") X)
  = merge_text (a +:+ String c "") X.
Proof.
  assert (Hne : forall Y, (push_text (a +:+ String c "") ++ Y)%list
                          = PText (a +:+ String c "") :: Y).
  { intros Y. destruct a; reflexivity. }
  destruct X as [|[t|h] X]; cbn [merge_text push_text String.eqb app];
    rewrite ?Hne; try reflexivity.
  now rewrite append_assoc.
Qed.

(** The text pending when the scan reaches a position. *)
Lemma scan_pending f : forall w text,
  scan_tokens f w O text = merge_text text (scan_tokens f w O "").
Proof.
  induction f as [|c f IH]; intros w text.
  - cbn [scan_tokens merge_text push_text String.eqb]. now rewrite app_nil_r.
  - destruct w as [|c' w].
    + cbn [scan_tokens merge_text push_text String.eqb]. now rewrite app_nil_r.
    + cbn [scan_tokens]. destruct (match_token (String c' w)) as [tok|] eqn:E.
      * apply match_token_Some in E as [Hin _].
        destruct (token_ok_facts tok (token_pattern_ok tok Hin))
          as (_ & _ & _ & h & Hh).
        rewrite Hh. reflexivity.
      * rewrite (IH w (text +:+ String c "")), (IH w ("" +:+ String c "")).
        change ("" +:+ String c "") with (String c "").
        now rewrite merge_text_append.
Qed.

Lemma render_merge date text u X :
  text <> "" ->
  (forall t, strip_literals (text +:+ t) None = u +:+ strip_literals t None) ->
  run_formatter (map restore_part (merge_text text X)) date
  = u +:+ run_formatter (map restore_part X) date.
Proof.
  intros Hne H.
  assert (Hu : strip_literals text None = u).
  { specialize (H ""). rewrite !append_empty_r in H.
    cbn [strip_literals] in H. now rewrite ?append_empty_r in H. }
  assert (Hpush : push_text text = [PText text]).
  { destruct text; [congruence|reflexivity]. }
  destruct X as [|[t|h] X]; cbn [merge_text]; rewrite ?Hpush;
    cbn [app map restore_part]; rewrite !run_formatter_cons;
    cbn [part_text].
  - now rewrite Hu.
  - now rewrite H, append_assoc.
  - now rewrite Hu.
Qed.

Lemma chars_before_bracket_literal lit rest :
  noChar "]" lit = true ->
  chars_before_bracket (lit +:+ String "]" rest) = Some (String.length lit).
Proof.
  induction lit as [|c lit IH]; intros H; [reflexivity|].
  cbn [noChar] in H. apply andb_prop in H as [Hc Hl].
  apply negb_true_iff in Hc.
  change (String c lit +:+ String "]" rest)
    with (String c (lit +:+ String "]" rest)).
  cbn [chars_before_bracket String.length]. rewrite Hc, IH by exact Hl.
  reflexivity.
Qed.

Lemma literal_at_literal lit rest :
  lit <> "" -> noChar "]" lit = true ->
  literal_at (lit +:+ String "]" rest) = Some (String.length lit).
Proof.
  intros Hne H. unfold literal_at.
  rewrite chars_before_bracket_literal by exact H.
  destruct lit; [congruence|reflexivity].
Qed.

Lemma strip_copy lit rest :
  strip_literals (lit +:+ String "]" rest) (Some (String.length lit))
  = lit +:+ strip_literals rest None.
Proof.
  induction lit as [|c lit IH]; [reflexivity|].
  change (String c lit +:+ String "]" rest)
    with (String c (lit +:+ String "]" rest)).
  cbn [strip_literals String.length]. now rewrite IH.
Qed.

Lemma render_literal date lit rest :
  lit <> "" -> noChar "]" lit = true ->
  render date ("[" +:+ lit +:+ "]" +:+ rest) = lit +:+ render date rest.
Proof.
  intros Hne Hl. unfold render. rewrite !build_formatter_eq.
  change ("[" +:+ lit +:+ "]" +:+ rest)
    with (String "[" (lit +:+ String "]" rest)).
  cbn [mask_literals]. change (Ascii.eqb "[" "[") with true. cbn iota.
  rewrite literal_at_literal by assumption.
  assert (E : String "[" (lit +:+ String "]" rest)
              = (String "[" (lit +:+ String "]" "")) +:+ rest).
  { change (String "[" (lit +:+ String "]" "") +:+ rest)
      with (String "[" ((lit +:+ String "]" "") +:+ rest)).
    now rewrite append_assoc. }
  assert (Em : String zero
                 (mask_literals (lit +:+ String "]" rest)
                                (S (String.length lit)))
               = repeat_char zero
                   (String.length (String "[" (lit +:+ String "]" "")))
                 +:+ mask_literals rest O).
  { cbn [String.length repeat_char].
    change (String zero ?a +:+ ?b) with (String zero (a +:+ b)). f_equal.
    replace (lit +:+ String "]" rest) with ((lit +:+ String "]" "") +:+ rest)
      by now rewrite append_assoc.
    replace (S (String.length lit))
      with (String.length (lit +:+ String "]" ""))
      by (rewrite length_append; simpl; lia).
    apply mask_skip. }
  rewrite Em, E, scan_zeros.
  change ("" +:+ ?x) with x.
  rewrite scan_pending. apply render_merge; [discriminate|].
  intros t.
  change (String "[" (lit +:+ String "]" "") +:+ t)
    with (String "[" ((lit +:+ String "]" "") +:+ t)).
  rewrite append_assoc. change (String "]" "" +:+ t) with (String "]" t).
  cbn [strip_literals]. change (Ascii.eqb "[" "[") with true. cbn iota.
  rewrite literal_at_literal by assumption. apply strip_copy.
Qed.

Lemma render_plain_char date c rest :
  c <> "["%char -> match_token (String c rest) = None ->
  render date (String c rest) = String c (render date rest).
Proof.
  intros Hc Hm. unfold render. rewrite !build_formatter_eq.
  apply Ascii.eqb_neq in Hc.
  pose proof (match_token_mask (String c rest)) as Hmask.
  cbn [mask_literals] in *. rewrite Hc in *. rewrite Hm in Hmask.
  cbn [scan_tokens]. rewrite Hmask.
  change ("" +:+ ?x) with x.
  rewrite scan_pending.
  change (String c ?x) with (String c "" +:+ x) at 2.
  apply render_merge; [discriminate|].
  intros t. change (String c "" +:+ ?x) with (String c x).
  cbn [strip_literals]. now rewrite Hc.
Qed.

Lemma render_token date tok rest h :
  match_token (tok +:+ rest) = Some tok ->
  lookup_key tok TOKEN_HANDLERS = Some h ->
  render date (tok +:+ rest) = h date +:+ render date rest.
Proof.
  intros Hm Hh. unfold render. rewrite !build_formatter_eq.
  pose proof Hm as Hm'. apply match_token_Some in Hm' as [Hin _].
  destruct (token_ok_facts tok (token_pattern_ok tok Hin))
    as (Hb & _ & Hne & _).
  pose proof (match_token_mask (tok +:+ rest)) as Hmask.
  rewrite Hm, mask_prefix in Hmask by exact Hb.
  rewrite mask_prefix by exact Hb.
  destruct tok as [|a tok]; [congruence|].
  change (String a tok +:+ ?x) with (String a (tok +:+ x)) in *.
  cbn [scan_tokens]. rewrite Hmask, Hh.
  cbn [push_text String.eqb app String.length].
  replace (S (String.length tok) - 1)%nat with (String.length tok) by lia.
  rewrite scan_skip by reflexivity.
  cbn [map restore_part]. rewrite run_formatter_cons. reflexivity.
Qed.

Lemma find_longest_first (p : string -> bool) l x :
  longest_first l = true -> find p l = Some x ->
  forall y, In y l -> p y = true -> (String.length y <= String.length x)%nat.
Proof.
  induction l as [|a l IH]; intros Hs Hf y Hy Hp; [contradiction|].
  cbn [longest_first] in Hs. apply andb_prop in Hs as [Ha Hs].
  rewrite forallb_forall in Ha. cbn [find] in Hf.
  destruct (p a) eqn:Ea.
  - injection Hf as <-. destruct Hy as [<-|Hy]; [lia|].
    apply Nat.leb_le. now apply Ha.
  - destruct Hy as [<-|Hy]; [congruence|]. now apply (IH Hs Hf y).
Qed.

Lemma handler_key_in_pattern t h :
  lookup_key t TOKEN_HANDLERS = Some h -> In t TOKEN_PATTERN.
Proof.
  intros H%lookup_key_In.
  assert (Hall : forallb (fun k => existsb (String.eqb k) TOKEN_PATTERN)
                   (map fst TOKEN_HANDLERS) = true)
    by (vm_compute; reflexivity).
  rewrite forallb_forall in Hall.
  specialize (Hall t (in_map fst _ _ H)).
  apply existsb_exists in Hall as (x & Hx & E).
  apply String.eqb_eq in E. now subst.
Qed.

Lemma prefix_split t : forall s,
  String.prefix t s = true -> exists rest, s = t +:+ rest.
Proof.
  induction t as [|a t IH]; intros s H.
  - exists s. reflexivity.
  - destruct s as [|c s]; [discriminate|]. cbn [String.prefix] in H.
    destruct (ascii_dec a c) as [->|]; [|discriminate].
    destruct (IH s H) as [rest ->]. exists rest. reflexivity.
Qed.

Lemma format_renders (c : gmap string CompiledFormatter) date s :
  cache_reachable c -> s <> "" ->
  fst (format date s c)
  = Ok (render date (match lookup_key s FORMAT_PRESETS with
                     | Some pat => pat
                     | None => s
                     end)).
Proof.
  intros Hc Hs. unfold format, render.
  rewrite eqb_empty_false by (destruct s; simpl; congruence).
  destruct (compileFormatter_reachable s c Hc) as (k & _ & Hf & _ & _ & Hk).
  destruct (compileFormatter s c) as [f c']. cbn [fst] in *. now subst.
Qed.

(** X21: what the format engine copies.  On every reachable cache a
    non-empty format string that is not a property name inherited from
    [Object.prototype] gives the text its compiled formatter returns, a
    preset name standing for its pattern.  In that text a bracketed
    literal [[lit]] gives [lit] without the brackets and without any token
    substitution inside; a character at which no token starts, other than an
    opening bracket, is copied as it stands; and the empty remainder gives
    the empty text. *)
Theorem format_copies_literals_and_text
    (c : gmap string CompiledFormatter) (date : ChronoDate) :
  cache_reachable c ->
  (forall s, s <> "" -> inherited_key s = false ->
     fst (format date s c)
     = Ok (render date (match lookup_key s FORMAT_PRESETS with
                        | Some pat => pat
                        | None => s
                        end))) /\
  (forall lit rest, lit <> "" -> noChar "]" lit = true ->
     render date ("[" +:+ lit +:+ "]" +:+ rest) = lit +:+ render date rest) /\
  (forall ch rest, ch <> "["%char -> match_token (String ch rest) = None ->
     render date (String ch rest) = String ch (render date rest)) /\
  render date "" = "".
Proof.
  intros Hc. split; [intros s Hs _; now apply format_renders|].
  split; [intros lit rest; apply render_literal|].
  split; [intros ch rest; apply render_plain_char|reflexivity].
Qed.

(** X21 on the empty cache, at a literal made of token letters. *)
Lemma format_copies_literals_and_text_witness :
  let date := mkChronoDate 2025 1 15 10 30 45 123 (Some 1736937045123) "UTC" in
  fst (format date "[Madrid], 1" ∅) = Ok (render date "[Madrid], 1") /\
  render date "[Madrid], 1" = "Madrid" +:+ render date ", 1" /\
  render date ", 1" = String "," (render date " 1").
Proof.
  intros date.
  destruct (format_copies_literals_and_text ∅ date reachable_initial)
    as (H1 & H2 & H3 & _).
  split; [apply (H1 "[Madrid], 1"); [discriminate|reflexivity]|].
  split; [apply (H2 "Madrid" ", 1"); [discriminate|reflexivity]|].
  apply (H3 ","%char " 1"); [discriminate|reflexivity].
Defined.

(** X22: what the format engine substitutes.  Where an alternative of the
    token pattern matches, the matched token is a key of [TOKEN_HANDLERS]
    and a prefix of the remaining format string, no key that is also a
    prefix is longer, and the output is the handler's text for the date
    followed by the output for what follows the token.  Wherever some key
    is a prefix of the remaining format string, an alternative matches. *)
Theorem format_substitutes_longest_token
    (date : ChronoDate) (s tok : string) :
  match_token s = Some tok ->
  (exists h rest,
     lookup_key tok TOKEN_HANDLERS = Some h /\ s = tok +:+ rest /\
     render date s = h date +:+ render date rest) /\
  (forall t h, lookup_key t TOKEN_HANDLERS = Some h ->
     String.prefix t s = true ->
     (String.length t <= String.length tok)%nat) /\
  (forall s' t h, lookup_key t TOKEN_HANDLERS = Some h ->
     String.prefix t s' = true -> match_token s' <> None).
Proof.
  intros Hm. pose proof Hm as Hm'.
  apply match_token_Some in Hm' as [Hin Hp].
  destruct (token_ok_facts tok (token_pattern_ok tok Hin))
    as (_ & _ & _ & h & Hh).
  destruct (prefix_split tok s Hp) as [rest ->].
  split; [|split].
  - exists h, rest. repeat split; [exact Hh|].
    now apply render_token.
  - intros t h' Ht Hpt.
    apply (find_longest_first (fun t => String.prefix t (tok +:+ rest))
             TOKEN_PATTERN tok); try assumption.
    + vm_compute. reflexivity.
    + exact (handler_key_in_pattern t h' Ht).
  - intros s' t h' Ht Hpt Hnone. unfold match_token in Hnone.
    pose proof (find_none _ _ Hnone t (handler_key_in_pattern t h' Ht)) as E.
    cbv beta in E. congruence.
Qed.

(** X22 at a month name followed by a day: MMMM wins over MMM, MM and M. *)
Lemma format_substitutes_longest_token_witness :
  let date := mkChronoDate 2025 1 15 10 30 45 123 (Some 1736937045123) "UTC" in
  (exists h rest,
     lookup_key "MMMM" TOKEN_HANDLERS = Some h /\ "MMMM D" = "MMMM" +:+ rest /\
     render date "MMMM D" = h date +:+ render date rest) /\
  (forall t h, lookup_key t TOKEN_HANDLERS = Some h ->
     String.prefix t "MMMM D" = true ->
     (String.length t <= String.length "MMMM")%nat).
Proof.
  intros date.
  destruct (format_substitutes_longest_token date "MMMM D" "MMMM" eq_refl)
    as (H1 & H2 & _).
  split; [exact H1|exact H2].
Defined.

(** ** The ISO preset and the parser *)

Lemma render_ISO_pattern date :
  render date "YYYY-MM-DDTHH:mm:ss.SSSZ"
  = (padZero (year date) 4 +:+ "-" +:+ padZero (month date) 2 +:+ "-" +:+
     padZero (day date) 2) +:+ "T" +:+
    (padZero (hour date) 2 +:+ ":" +:+ padZero (minute date) 2 +:+ ":" +:+
     padZero (second date) 2) +:+
    ("." +:+ padZero (millisecond date) 3) +:+
    (if String.eqb (timezone date) "UTC" || String.eqb (timezone date) "GMT"
     then "+00:00" else timezone date).
Proof.
  unfold render.
  assert (E : build_formatter "YYYY-MM-DDTHH:mm:ss.SSSZ"
              = [PHandler (fun date => padZero (year date) 4); PText "-";
                 PHandler (fun date => padZero (month date) 2); PText "-";
                 PHandler (fun date => padZero (day date) 2); PText "T";
                 PHandler (fun date => padZero (hour date) 2); PText ":";
                 PHandler (fun date => padZero (minute date) 2); PText ":";
                 PHandler (fun date => padZero (second date) 2); PText ".";
                 PHandler (fun date => padZero (millisecond date) 3);
                 PHandler (fun date =>
                   if String.eqb (timezone date) "UTC" ||
                      String.eqb (timezone date) "GMT"
                   then "+00:00" else timezone date)])
    by (vm_compute; reflexivity).
  rewrite E, !run_formatter_cons. cbn [part_text].
  change (run_formatter [] date) with "".
  rewrite append_empty_r, !append_assoc. reflexivity.
Qed.

(** X23: formatting with the preset ISO and parsing the text again.  For a
    live value with year 0..9999 whose zone label is UTC, GMT or an offset
    [+HH:MM] / [-HH:MM], [format(date, 'ISO')] is a text that [parseISO]
    accepts, and the parsed value has the fields and the timestamp of the
    date; its zone label is the offset, which for UTC and GMT is
    [+00:00]. *)
Theorem format_ISO_preset_parses_back
    (c : gmap string CompiledFormatter) (d : ChronoDate) :
  cache_reachable c ->
  live d ->
  0 <= year d <= 9999 ->
  timezone d = "UTC" \/ timezone d = "GMT" \/
  zone_suffix (timezone d) (timezone d) ->
  exists text,
    fst (format d "ISO" c) = Ok text /\
    parseISO text =
    Ok (mkChronoDate (year d) (month d) (day d) (hour d) (minute d)
          (second d) (millisecond d) (timestamp d)
          (if String.eqb (timezone d) "UTC" || String.eqb (timezone d) "GMT"
           then "+00:00" else timezone d)).
Proof.
  intros Hc Hl Hy Hz.
  eexists. split; [apply (format_renders c d "ISO" Hc); discriminate|].
  change (match lookup_key "ISO" FORMAT_PRESETS with
          | Some pat => pat
          | None => "ISO"
          end) with "YYYY-MM-DDTHH:mm:ss.SSSZ".
  rewrite render_ISO_pattern.
  destruct Hl as (y & m & dd & h & mi & s & ms & tz & Hv).
  apply ChronoDateImpl_Ok in Hv as (Hvd & Hvt & ->).
  cbn [year month day hour minute second millisecond timestamp timezone] in *.
  pose proof (isValidDate_month _ _ _ Hvd) as [Hm Hd].
  pose proof (getDaysInMonth_le_31 y m) as H31.
  pose proof (isValidTime_ranges _ _ _ _ Hvt) as (Hh & Hmi & Hs & Hms).
  destruct (padZero4 y Hy) as [DY PY].
  destruct (padZero2 m) as [DM PM]; [lia|].
  destruct (padZero2 dd) as [DD PD]; [lia|].
  destruct (padZero2 h) as [DH PH]; [lia|].
  destruct (padZero2 mi) as [DMi PMi]; [lia|].
  destruct (padZero2 s) as [DS PS]; [lia|].
  destruct (padZero3 ms) as [DMs PMs]; [lia|].
  set (label := if String.eqb tz "UTC" || String.eqb tz "GMT"
                then "+00:00" else tz).
  assert (Hlabel : zone_suffix label label).
  { subst label. destruct Hz as [->|[->|Hz]].
    - exact (zone_offset "+" "00" "00" (or_introl eq_refl)
               (conj eq_refl eq_refl) (conj eq_refl eq_refl)).
    - exact (zone_offset "+" "00" "00" (or_introl eq_refl)
               (conj eq_refl eq_refl) (conj eq_refl eq_refl)).
    - destruct (String.eqb tz "UTC" || String.eqb tz "GMT") eqn:E; [|exact Hz].
      exact (zone_offset "+" "00" "00" (or_introl eq_refl)
               (conj eq_refl eq_refl) (conj eq_refl eq_refl)). }
  assert (Hfr : fraction_text ("." +:+ padZero ms 3) ms).
  { pose proof (fraction_digits (padZero ms 3)) as F.
    destruct DMs as [Hlen Hdig]. rewrite Hlen, PMs in F.
    replace (ms * 10 ^ (3 - Z.of_nat 3)) with ms in F by (simpl; lia).
    apply F; [lia|exact Hdig]. }
  rewrite (parseISO_grammar_eval _ _ _ _ _ _ _ ms _ label
             DY DM DD DH DMi DS Hfr Hlabel).
  rewrite PY, PM, PD, PH, PMi, PS, Hvd, Hvt. reflexivity.
Qed.

(** X23 at a value labelled UTC on the empty cache. *)
Lemma format_ISO_preset_parses_back_witness :
  let d := mkChronoDate 2025 1 15 10 30 45 123 (Some 1736937045123) "UTC" in
  exists text,
    fst (format d "ISO" ∅) = Ok text /\
    parseISO text =
    Ok (mkChronoDate 2025 1 15 10 30 45 123 (Some 1736937045123) "+00:00").
Proof.
  intros d.
  apply (format_ISO_preset_parses_back ∅ d reachable_initial).
  - exists 2025, 1, 15, 10, 30, 45, 123, "UTC". vm_compute. reflexivity.
  - cbn. lia.
  - left. reflexivity.
Defined.

(** ** The factory: start and end of the day *)

(** [setUTCHours] on the native date of a live value, read back by
    [dateFromNative]: the calendar fields stay, the clock fields are the
    arguments. *)
Lemma set_hours_of_live v t h mi s ms :
  live v -> ~ (0 <= year v <= 99) -> timestamp v = Some t ->
  isValidTime h mi s ms = true ->
  Z.abs (MakeDate (Day t) (MakeTime h mi s ms)) <= maxTime ->
  dateFromNative (JSDateSetters.setUTCHours (toNative v) h mi s ms)
                 (timezone v)
  = Ok (mkChronoDate (year v) (month v) (day v) h mi s ms
          (Some (MakeDate (Day t) (MakeTime h mi s ms))) (timezone v)).
Proof.
  intros Hl Hy Ht Hvt Hr.
  destruct (live_fields_from_timestamp v t Hl Hy Ht)
    as (_ & HY & HM & HD & _).
  assert (Hvd : isValidDate (year v) (month v) (day v) = true).
  { destruct Hl as (y & m & d & h' & mi' & s' & ms' & tz & Hv).
    now apply ChronoDateImpl_Ok in Hv as (Hvd & _ & ->). }
  rewrite (toNative_live v t Hl Ht). cbn [JSDateSetters.setUTCHours].
  assert (HDay : Day t = MakeDay (year v) (month v - 1) (day v)).
  { now rewrite <- (MakeDay_decompose t), HY, HM, HD. }
  rewrite HDay in *.
  rewrite dateFromNative_MakeDate by assumption.
  rewrite ChronoDateImpl_valid by assumption.
  unfold UTC. rewrite MakeFullYear_id by exact Hy.
  now rewrite TimeClip_in_range by exact Hr.
Qed.

Lemma day_start_in_range t :
  Z.abs t <= maxTime -> Z.abs (MakeDate (Day t) (MakeTime 0 0 0 0)) <= maxTime.
Proof.
  unfold MakeDate, Day, MakeTime, maxTime, msPerDay, msPerHour, msPerMinute,
    msPerSecond. intros H.
  pose proof (Z.mod_pos_bound t 86400000 ltac:(lia)).
  pose proof (Z.div_mod t 86400000 ltac:(lia)).
  assert (-100000000 <= t / 86400000) by (apply Z.div_le_lower_bound; lia).
  lia.
Qed.

(** X24: the bounds of a day.  When [createDate] returns a live value whose
    year is not one of 0..99, [startOfDay] returns the same calendar date at
    00:00:00.000, with the timestamp rounded down to a multiple of
    86400000 ms and the zone label kept.  [endOfDay] returns the same date at
    23:59:59.999, 86399999 ms later, for every timestamp but the last one of
    the time range (8.64e15), where the end of the day is outside the range
    and [endOfDay] throws ChronoError.  The value lies between the two
    bounds. *)
Theorem startOfDay_endOfDay_bounds
    (host_now : JSDate.Date) (host_parse : string -> JSDate.Date)
    (input : DateInput) (d : ChronoDate) (t : Z) :
  createDate host_now host_parse input = Ok d ->
  live d ->
  ~ (0 <= year d <= 99) ->
  timestamp d = Some t ->
  let t0 := t - t mod 86400000 in
  startOfDay host_now host_parse input
  = Ok (mkChronoDate (year d) (month d) (day d) 0 0 0 0 (Some t0)
          (timezone d)) /\
  (t < 8640000000000000 ->
   endOfDay host_now host_parse input
   = Ok (mkChronoDate (year d) (month d) (day d) 23 59 59 999
           (Some (t0 + 86399999)) (timezone d))) /\
  (t = 8640000000000000 ->
   endOfDay host_now host_parse input = Throw (ChronoError "Invalid date")) /\
  t0 <= t <= t0 + 86399999.
Proof.
  intros Hc Hl Hy Ht t0.
  pose proof (live_timestamp_range d t Hl Ht) as Hr.
  pose proof (Z.mod_pos_bound t 86400000 ltac:(lia)) as Hmod.
  pose proof (Z.div_mod t 86400000 ltac:(lia)) as Hdm.
  assert (E0 : MakeDate (Day t) (MakeTime 0 0 0 0) = t0).
  { unfold MakeDate, Day, MakeTime, msPerDay, msPerHour, msPerMinute,
      msPerSecond, t0. lia. }
  assert (E1 : MakeDate (Day t) (MakeTime 23 59 59 999) = t0 + 86399999).
  { unfold MakeDate, Day, MakeTime, msPerDay, msPerHour, msPerMinute,
      msPerSecond, t0. lia. }
  unfold startOfDay, endOfDay. rewrite Hc. cbn [bind].
  split; [|split; [|split]].
  - rewrite <- E0. apply set_hours_of_live; try assumption; [reflexivity|].
    now apply day_start_in_range.
  - intros Hlt. rewrite <- E1.
    apply set_hours_of_live; try assumption; [reflexivity|].
    rewrite E1. unfold maxTime in *. subst t0.
    assert (t / 86400000 < 100000000)
      by (apply Z.div_lt_upper_bound; lia).
    assert (-100000000 <= t / 86400000)
      by (apply Z.div_le_lower_bound; lia).
    lia.
  - intros ->. rewrite (toNative_live d _ Hl Ht).
    vm_compute. reflexivity.
  - lia.
Qed.

(** X24 for a value passed to the factory as it is, and for the value at
    the last instant of the time range. *)
Lemma startOfDay_endOfDay_bounds_witness :
  (let d := mkChronoDate 2025 1 15 10 30 45 123 (Some 1736937045123)
                         "+05:30" in
   startOfDay NaN (fun _ => NaN) (InputChrono d)
   = Ok (mkChronoDate 2025 1 15 0 0 0 0 (Some 1736899200000) "+05:30") /\
   endOfDay NaN (fun _ => NaN) (InputChrono d)
   = Ok (mkChronoDate 2025 1 15 23 59 59 999 (Some 1736985599999)
           "+05:30")) /\
  (let d := mkChronoDate 275760 9 13 0 0 0 0 (Some 8640000000000000)
                         "UTC" in
   endOfDay NaN (fun _ => NaN) (InputChrono d)
   = Throw (ChronoError "Invalid date")).
Proof.
  split.
  - intros d.
    destruct (startOfDay_endOfDay_bounds NaN (fun _ => NaN) (InputChrono d) d
                1736937045123) as (H1 & H2 & _).
    + reflexivity.
    + exists 2025, 1, 15, 10, 30, 45, 123, "+05:30". vm_compute. reflexivity.
    + vm_compute. intros [_ H]. apply H. reflexivity.
    + reflexivity.
    + split; [exact H1|]. apply H2. reflexivity.
  - intros d.
    destruct (startOfDay_endOfDay_bounds NaN (fun _ => NaN) (InputChrono d) d
                8640000000000000) as (_ & _ & H3 & _).
    + reflexivity.
    + exists 275760, 9, 13, 0, 0, 0, 0, "UTC". vm_compute. reflexivity.
    + vm_compute. intros [_ H]. apply H. reflexivity.
    + reflexivity.
    + apply H3. reflexivity.
Defined.

(** X25: numbers given to the factory.  [createDate(0)] is the current time
    of the host, not the epoch, and [isValid(0)] is false.  For every other
    number [isValid] is true, [createDate] is [dateFromTimestamp], and
    [createDate] returns a value exactly when the number is within 8.64e15 ms
    of the epoch: beyond it [isValid] is true and [createDate] throws
    ChronoError.  For a number in range whose year is not one of 0..99 the
    value has the UTC decomposition of the number as fields and the number
    as timestamp. *)
Theorem createDate_of_number
    (host_now : JSDate.Date) (host_parse : string -> JSDate.Date) (n : Z) :
  (n = 0 ->
   isValid host_parse (InputNumber (Some n)) = false /\
   createDate host_now host_parse (InputNumber (Some n)) = now host_now) /\
  (n <> 0 ->
   isValid host_parse (InputNumber (Some n)) = true /\
   createDate host_now host_parse (InputNumber (Some n))
   = dateFromTimestamp (Some n) "UTC" /\
   ((exists v, createDate host_now host_parse (InputNumber (Some n)) = Ok v)
    <-> Z.abs n <= 8640000000000000) /\
   (8640000000000000 < Z.abs n ->
    createDate host_now host_parse (InputNumber (Some n))
    = Throw (ChronoError "Invalid date")) /\
   (instant_ok n ->
    createDate host_now host_parse (InputNumber (Some n))
    = Ok (value_at n "UTC"))).
Proof.
  split.
  - intros ->. split; reflexivity.
  - intros Hn.
    assert (E : createDate host_now host_parse (InputNumber (Some n))
                = dateFromTimestamp (Some n) "UTC").
    { unfold createDate. cbn [falsy].
      destruct (Z.eqb_spec n 0); [contradiction|reflexivity]. }
    assert (Hout : 8640000000000000 < Z.abs n ->
                   dateFromTimestamp (Some n) "UTC"
                   = Throw (ChronoError "Invalid date")).
    { intros Hr. unfold dateFromTimestamp, new_Date.
      now rewrite TimeClip_out_of_range. }
    split; [|split; [exact E|split; [|split]]].
    + unfold isValid. cbn [falsy].
      destruct (Z.eqb_spec n 0); [contradiction|reflexivity].
    + rewrite E. split.
      * intros [v Hv].
        destruct (Z.le_gt_cases (Z.abs n) 8640000000000000) as [H|H];
          [exact H|].
        rewrite Hout in Hv by lia. discriminate.
      * intros Hr. unfold dateFromTimestamp, new_Date.
        rewrite TimeClip_in_range by exact Hr.
        rewrite dateFromNative_Some. eauto.
    + intros Hr. rewrite E. now apply Hout.
    + intros Hi. rewrite E. now apply dateFromTimestamp_value_at.
Qed.

(** ** Relative time *)

Ltac flat_div :=
  repeat match goal with
         | |- context [?a / ?b / ?c] =>
             rewrite (Z.div_div a b c) by lia;
             let v := eval vm_compute in (b * c) in
             change (b * c) with v
         end.

Ltac ltb_cases :=
  repeat match goal with
         | |- context [?a <? ?b] => destruct (Z.ltb_spec a b)
         | |- context [?a =? ?b] => destruct (Z.eqb_spec a b)
         end;
  try reflexivity; try (exfalso; Z.div_mod_to_equations; lia).

Lemma short_relative_text_seconds s :
  short_relative_text (Some s)
  = if s <? 60 then "now"
    else if s <? 3600 then Z_toString (s / 60) +:+ "m"
    else if s <? 86400 then Z_toString (s / 3600) +:+ "h"
    else if s <? 604800 then Z_toString (s / 86400) +:+ "d"
    else if s <? 2419200 then Z_toString (s / 604800) +:+ "w"
    else if s <? 31104000 then Z_toString (s / 2592000) +:+ "mo"
    else Z_toString (s / 31104000) +:+ "y".
Proof.
  unfold short_relative_text, num_lt, num_floor_div, num_toString.
  cbn [option_map]. flat_div. ltb_cases.
Qed.

Lemma relative_text_seconds s :
  relative_text (Some s)
  = let count := fun (n : Z) (one many : string) =>
                   if n =? 1 then one else Z_toString n +:+ many in
    if s <? 60 then "just now"
    else if s <? 3600 then count (s / 60) "1 minute ago" " minutes ago"
    else if s <? 86400 then count (s / 3600) "1 hour ago" " hours ago"
    else if s <? 604800 then count (s / 86400) "1 day ago" " days ago"
    else if s <? 2419200 then count (s / 604800) "1 week ago" " weeks ago"
    else if s <? 31104000 then
      count (s / 2592000) "1 month ago" " months ago"
    else count (s / 31104000) "1 year ago" " years ago".
Proof.
  unfold relative_text, num_lt, num_eq, num_floor_div, num_toString.
  cbn [option_map]. cbv zeta. flat_div. ltb_cases.
Qed.

(** X26: the thresholds of the relative-time texts.  For two values whose
    timestamps are safe integers with a safe difference (at most 2^53 - 1
    ms apart, so that the subtraction does not round), [s] the whole seconds
    from the date to the base rounded down: both functions show the minutes below one hour, the hours below
    one day, the days below 7 days, the weeks below 28 days, the 30-day
    months below 360 days and the 360-day years from there on, each rounded
    down; below 60 seconds, and for every date after the base, they return
    [now] and [just now].  Between 28 and 30 days the number of months is
    0: the texts are [0mo] and [0 months ago]. *)
Theorem relative_time_thresholds
    (host_now : JSDate.Date) (host_parse : string -> JSDate.Date)
    (d b : ChronoDate) (td tb : Z) :
  timestamp d = Some td ->
  timestamp b = Some tb ->
  safe_integer td ->
  safe_integer tb ->
  safe_integer (tb - td) ->
  let s := (tb - td) / 1000 in
  let count := fun (n : Z) (one many : string) =>
                 if n =? 1 then one else Z_toString n +:+ many in
  formatShortRelativeTime host_now host_parse (InputChrono d)
    (Some (InputChrono b))
  = Ok (if s <? 60 then "now"
        else if s <? 3600 then Z_toString (s / 60) +:+ "m"
        else if s <? 86400 then Z_toString (s / 3600) +:+ "h"
        else if s <? 604800 then Z_toString (s / 86400) +:+ "d"
        else if s <? 2419200 then Z_toString (s / 604800) +:+ "w"
        else if s <? 31104000 then Z_toString (s / 2592000) +:+ "mo"
        else Z_toString (s / 31104000) +:+ "y") /\
  formatRelativeTime host_now host_parse (InputChrono d)
    (Some (InputChrono b))
  = Ok (if s <? 60 then "just now"
        else if s <? 3600 then count (s / 60) "1 minute ago" " minutes ago"
        else if s <? 86400 then count (s / 3600) "1 hour ago" " hours ago"
        else if s <? 604800 then count (s / 86400) "1 day ago" " days ago"
        else if s <? 2419200 then
          count (s / 604800) "1 week ago" " weeks ago"
        else if s <? 31104000 then
          count (s / 2592000) "1 month ago" " months ago"
        else count (s / 31104000) "1 year ago" " years ago") /\
  (2419200 <= s < 2592000 ->
   formatShortRelativeTime host_now host_parse (InputChrono d)
     (Some (InputChrono b)) = Ok "0mo" /\
   formatRelativeTime host_now host_parse (InputChrono d)
     (Some (InputChrono b)) = Ok "0 months ago").
Proof.
  intros Hd Hb _ _ _ s count.
  assert (E : diff d b USecond = Some s).
  { unfold diff. rewrite Hd, Hb. reflexivity. }
  assert (Hshort : formatShortRelativeTime host_now host_parse (InputChrono d)
                     (Some (InputChrono b))
                   = Ok (short_relative_text (Some s))).
  { unfold formatShortRelativeTime, base_of, normalizeToChronoDate,
      seconds_between. cbn [falsy bind]. now rewrite E. }
  assert (Hlong : formatRelativeTime host_now host_parse (InputChrono d)
                    (Some (InputChrono b))
                  = Ok (relative_text (Some s))).
  { unfold formatRelativeTime, base_of, normalizeToChronoDate,
      seconds_between. cbn [falsy bind]. now rewrite E. }
  rewrite Hshort, Hlong, short_relative_text_seconds, relative_text_seconds.
  cbv zeta. fold count.
  split; [reflexivity|]. split; [reflexivity|].
  intros Hs.
  assert (E0 : s / 2592000 = 0) by (apply Z.div_small; lia).
  subst count. cbv beta. rewrite E0.
  ltb_cases; try lia. split; reflexivity.
Qed.

(** X26 at 29 days, and at 45 seconds after the base. *)
Lemma relative_time_thresholds_witness :
  let b := mkChronoDate 2025 1 30 0 0 0 0 (Some 1738195200000) "UTC" in
  let d := mkChronoDate 2025 1 1 0 0 0 0 (Some 1735689600000) "UTC" in
  formatShortRelativeTime NaN (fun _ => NaN) (InputChrono d)
    (Some (InputChrono b)) = Ok "0mo" /\
  formatRelativeTime NaN (fun _ => NaN) (InputChrono d)
    (Some (InputChrono b)) = Ok "0 months ago".
Proof.
  intros b d.
  apply (relative_time_thresholds NaN (fun _ => NaN) d b
           1735689600000 1738195200000 eq_refl eq_refl);
    try (unfold safe_integer; simpl; lia).
  vm_compute. split; [intros H; discriminate H|reflexivity].
Defined.

Lemma formatDistance_values
    (host_now : JSDate.Date) (host_parse : string -> JSDate.Date)
    (d b : ChronoDate) (td tb : Z) (options : FormatDistanceOptions) :
  timestamp d = Some td ->
  timestamp b = Some tb ->
  formatDistance host_now host_parse (InputChrono d) (InputChrono b) options
  = let inc := match includeSeconds options with
               | Some x => x
               | None => false
               end in
    let res := formatDistanceString (Some (Z.abs ((tb - td) / 1000))) inc in
    if match addSuffix options with Some x => x | None => true end then
      Ok (if 0 <=? (tb - td) / 1000 then res +:+ " ago" else "in " +:+ res)
    else Ok res.
Proof.
  intros Hd Hb.
  unfold formatDistance, formatDistanceToNow, base_of, normalizeToChronoDate,
    seconds_between.
  cbn [falsy bind addSuffix includeSeconds baseDate].
  unfold diff. rewrite Hd, Hb. reflexivity.
Qed.

(** X27: the rounding of distances.  For two values whose timestamps are
    safe integers with a safe difference (at most 2^53 - 1 ms apart, so that
    the subtraction does not round), [formatDistance] words the whole seconds between them, rounded down
    when the date is not after the base (suffix [ago]) and rounded up when
    it is after the base (prefix [in]); without suffix, exchanging the two
    dates changes nothing when they are a whole number of seconds apart.
    A distance of 360 to 364 days is worded [about 12 months]. *)
Theorem formatDistance_rounding
    (host_now : JSDate.Date) (host_parse : string -> JSDate.Date)
    (d b : ChronoDate) (td tb : Z) (options : FormatDistanceOptions) :
  timestamp d = Some td ->
  timestamp b = Some tb ->
  safe_integer td ->
  safe_integer tb ->
  safe_integer (tb - td) ->
  let inc := match includeSeconds options with
             | Some x => x
             | None => false
             end in
  let suffix := match addSuffix options with
                | Some x => x
                | None => true
                end in
  (td <= tb ->
   formatDistance host_now host_parse (InputChrono d) (InputChrono b) options
   = let res := formatDistanceString (Some ((tb - td) / 1000)) inc in
     Ok (if suffix then res +:+ " ago" else res)) /\
  (tb < td ->
   formatDistance host_now host_parse (InputChrono d) (InputChrono b) options
   = let res := formatDistanceString (Some ((td - tb + 999) / 1000)) inc in
     Ok (if suffix then "in " +:+ res else res)) /\
  (suffix = false -> (tb - td) mod 1000 = 0 ->
   formatDistance host_now host_parse (InputChrono b) (InputChrono d) options
   = formatDistance host_now host_parse (InputChrono d) (InputChrono b)
       options) /\
  (forall a, 31104000 <= a < 31536000 ->
     formatDistanceString (Some a) inc = "about 12 months").
Proof.
  intros Hd Hb _ _ _ inc suffix.
  rewrite (formatDistance_values host_now host_parse d b td tb options Hd Hb).
  rewrite (formatDistance_values host_now host_parse b d tb td options Hb Hd).
  cbv zeta. fold inc suffix.
  split; [|split; [|split]].
  - intros Hle.
    assert (H0 : 0 <= (tb - td) / 1000) by (apply Z.div_pos; lia).
    rewrite Z.abs_eq by exact H0.
    destruct (Z.leb_spec 0 ((tb - td) / 1000)); [|lia].
    destruct suffix; reflexivity.
  - intros Hlt.
    assert (H0 : (tb - td) / 1000 < 0)
      by (apply Z.div_lt_upper_bound; lia).
    assert (E : Z.abs ((tb - td) / 1000) = (td - tb + 999) / 1000)
      by (Z.div_mod_to_equations; lia).
    rewrite E.
    destruct (Z.leb_spec 0 ((tb - td) / 1000)); [lia|].
    destruct suffix; reflexivity.
  - intros -> Hmod.
    replace (Z.abs ((td - tb) / 1000)) with (Z.abs ((tb - td) / 1000))
      by (Z.div_mod_to_equations; lia).
    reflexivity.
  - intros a Ha. unfold formatDistanceString, num_lt, num_eq, num_floor_div,
      num_toString. cbn [option_map].
    assert (E : a / 2592000 = 12) by (Z.div_mod_to_equations; lia).
    rewrite E.
    repeat match goal with
           | |- context [?x <? ?y] => destruct (Z.ltb_spec x y); try lia
           end.
    reflexivity.
Qed.

(** X27 at half a second and one minute: [1 minute] into the future,
    [less than a minute] into the past. *)
Lemma formatDistance_rounding_witness :
  let b := mkChronoDate 2025 1 15 10 0 0 0 (Some 1736935200000) "UTC" in
  let d := mkChronoDate 2025 1 15 10 0 59 500 (Some 1736935259500) "UTC" in
  let options := mkFormatDistanceOptions None None None in
  formatDistance NaN (fun _ => NaN) (InputChrono d) (InputChrono b) options
  = Ok "in 1 minute" /\
  formatDistance NaN (fun _ => NaN) (InputChrono b) (InputChrono d) options
  = Ok "less than a minute ago".
Proof.
  intros b d options. split.
  - apply (formatDistance_rounding NaN (fun _ => NaN) d b
             1736935259500 1736935200000 options eq_refl eq_refl
             ltac:(unfold safe_integer; simpl; lia)
             ltac:(unfold safe_integer; simpl; lia)
             ltac:(unfold safe_integer; simpl; lia)).
    vm_compute. reflexivity.
  - apply (formatDistance_rounding NaN (fun _ => NaN) b d
             1736935200000 1736935259500 options eq_refl eq_refl
             ltac:(unfold safe_integer; simpl; lia)
             ltac:(unfold safe_integer; simpl; lia)
             ltac:(unfold safe_integer; simpl; lia)).
    vm_compute. discriminate.
Defined.

(** ** Zone labels and offsets *)

Lemma getTimezoneOffset_offset_label host_offset sg hh mm :
  sg = "+"%char \/ sg = "-"%char -> digits 2 hh -> digits 2 mm ->
  getTimezoneOffset host_offset (String sg (hh +:+ ":" +:+ mm))
  = Ok (Some ((if Ascii.eqb sg "+" then 1 else -1) *
              (parseInt hh * 60 + parseInt mm))).
Proof.
  intros Hsg Hh Hm. explode hh Hh. explode mm Hm.
  cbv [String.append]. unfold getTimezoneOffset.
  assert (Hk : forall t, lookup_key (String sg t) TIMEZONE_OFFSETS = None).
  { intros t. destruct Hsg as [-> | ->]; reflexivity. }
  rewrite Hk. unfold match_offset.
  use_digit_facts.
  destruct Hsg as [-> | ->]; reflexivity.
Qed.

(** X28: the zone label of a parsed value has an offset.  Whatever
    [parseISO] returns carries the label UTC, whose offset is 0, or an
    offset label [+HH:MM] / [-HH:MM], for which [getTimezoneOffset] returns
    the signed minutes [HH * 60 + MM] without consulting the host and without
    any range check on the two numbers: at most 99 * 60 + 99 minutes either
    way. *)
Theorem parsed_zone_label_has_offset
    (host_offset : string -> result number) (s : string) (v : ChronoDate) :
  parseISO s = Ok v ->
  (timezone v = "UTC" /\
   getTimezoneOffset host_offset (timezone v) = Ok (Some 0)) \/
  (exists sg hh mm,
     (sg = "+"%char \/ sg = "-"%char) /\ digits 2 hh /\ digits 2 mm /\
     timezone v = String sg (hh +:+ ":" +:+ mm) /\
     getTimezoneOffset host_offset (timezone v)
     = Ok (Some ((if Ascii.eqb sg "+" then 1 else -1) *
                 (parseInt hh * 60 + parseInt mm))) /\
     0 <= parseInt hh * 60 + parseInt mm <= 6039).
Proof.
  intros Hv. destruct (parseISO_Ok_shape s v Hv) as (_ & _ & [Hz|Hz]).
  - left. rewrite Hz. split; reflexivity.
  - inversion Hz as [E1 E2|E1 E2|sg hh mm Hsg Hh Hm E1 E2];
      try (exfalso; congruence).
    right. exists sg, hh, mm.
    split; [exact Hsg|]. split; [exact Hh|]. split; [exact Hm|].
    split; [congruence|]. rewrite <- ?E1.
    pose proof (parseInt_digits_bound 2 hh Hh).
    pose proof (parseInt_digits_bound 2 mm Hm).
    split; [now apply getTimezoneOffset_offset_label|].
    change (10 ^ Z.of_nat 2) with 100 in *. lia.
Qed.

(** X28 at an offset beyond any zone of the world. *)
Lemma parsed_zone_label_has_offset_witness :
  let v := mkChronoDate 2025 1 15 10 0 0 0 (Some 1736935200000) "-99:99" in
  (timezone v = "UTC" /\
   getTimezoneOffset (fun _ => Throw (Error "unused")) (timezone v)
   = Ok (Some 0)) \/
  (exists sg hh mm,
     (sg = "+"%char \/ sg = "-"%char) /\ digits 2 hh /\ digits 2 mm /\
     timezone v = String sg (hh +:+ ":" +:+ mm) /\
     getTimezoneOffset (fun _ => Throw (Error "unused")) (timezone v)
     = Ok (Some ((if Ascii.eqb sg "+" then 1 else -1) *
                 (parseInt hh * 60 + parseInt mm))) /\
     0 <= parseInt hh * 60 + parseInt mm <= 6039).
Proof.
  intros v.
  apply (parsed_zone_label_has_offset (fun _ => Throw (Error "unused"))
           "2025-01-15T10:00:00-99:99" v).
  vm_compute. reflexivity.
Defined.

(** ** Weekdays *)

Lemma getDayOfWeek_value_at t tz :
  Z.abs t <= maxTime ->
  getDayOfWeek (value_at t tz) = Some ((t / 86400000 + 4) mod 7).
Proof.
  intros Hr. unfold getDayOfWeek, toNative, value_at, new_Date.
  cbn [timestamp]. rewrite TimeClip_in_range by exact Hr. reflexivity.
Qed.

Lemma render_single_token date tok h :
  match_token tok = Some tok ->
  lookup_key tok TOKEN_HANDLERS = Some h ->
  render date tok = h date.
Proof.
  intros Hm Hh.
  pose proof (render_token date tok "" h) as E.
  change (render date "") with "" in E.
  rewrite !append_empty_r in E. exact (E Hm Hh).
Qed.

(** X29: the day of the week.  A live value with timestamp [t] (year not
    one of 0..99) has the weekday index [(t div 86400000 + 4) mod 7], with 0
    for Sunday: the epoch is a Thursday.  When the instant shifted by [n]
    days is inside the time range and its UTC year is not one of 0..99
    either, [addDays] by [n] returns a value whose index is the old one
    plus [n] modulo 7, and the tokens [dddd] and [d] of the formatter show
    the name and the number of that index. *)
Theorem weekday_advances_with_addDays (d : ChronoDate) (n t : Z) :
  live d ->
  ~ (0 <= year d <= 99) ->
  timestamp d = Some t ->
  instant_ok (t + n * 86400000) ->
  let w := (t / 86400000 + 4) mod 7 in
  getDayOfWeek d = Some w /\
  exists d',
    addDays d n = Ok d' /\
    getDayOfWeek d' = Some ((w + n) mod 7) /\
    render d' "dddd" = nth (Z.to_nat ((w + n) mod 7)) DAY_NAMES "" /\
    render d' "d" = Z_toString ((w + n) mod 7) /\
    0 <= (w + n) mod 7 <= 6.
Proof.
  intros Hl Hy Ht Hi w.
  destruct (live_value_at d t Hl Hy Ht) as [Hd [Hr _]].
  split.
  - rewrite Hd. now apply getDayOfWeek_value_at.
  - exists (value_at (t + n * 86400000) (timezone d)).
    pose proof Hi as [Hr' _].
    assert (Hw : getDayOfWeek (value_at (t + n * 86400000) (timezone d))
                 = Some ((w + n) mod 7)).
    { rewrite getDayOfWeek_value_at by exact Hr'. f_equal. subst w.
      rewrite Z.div_add by lia.
      rewrite Zplus_mod_idemp_l. f_equal. lia. }
    pose proof (Z.mod_pos_bound (w + n) 7 ltac:(lia)) as Hb.
    split; [|split; [exact Hw|split; [|split; [|lia]]]].
    + rewrite (addDays_as_timestamp d n t Hl Ht).
      now apply dateFromTimestamp_value_at.
    + rewrite (render_single_token _ "dddd"
                 (fun date => name_at DAY_NAMES (getDayOfWeek date)))
        by reflexivity.
      cbv beta. rewrite Hw. unfold name_at.
      destruct (Z.ltb_spec ((w + n) mod 7) 0); [lia|reflexivity].
    + rewrite (render_single_token _ "d"
                 (fun date => num_toString (getDayOfWeek date)))
        by reflexivity.
      cbv beta. rewrite Hw. reflexivity.
Qed.

(** X29 from Wednesday 2025-01-15, ten days back to a Sunday. *)
Lemma weekday_advances_with_addDays_witness :
  let d := mkChronoDate 2025 1 15 10 0 0 0 (Some 1736935200000) "UTC" in
  getDayOfWeek d = Some 3 /\
  exists d',
    addDays d (-10) = Ok d' /\
    getDayOfWeek d' = Some 0 /\
    render d' "dddd" = "Sunday" /\
    render d' "d" = "0" /\
    0 <= 0 <= 6.
Proof.
  intros d.
  apply (weekday_advances_with_addDays d (-10) 1736935200000).
  - exists 2025, 1, 15, 10, 0, 0, 0, "UTC". vm_compute. reflexivity.
  - vm_compute. intros [_ H]. apply H. reflexivity.
  - reflexivity.
  - split; [vm_compute; discriminate|].
    vm_compute. intros [_ H]. apply H. reflexivity.
Defined.

(** ** The date and time presets *)

Lemma render_ISO_DATE date :
  render date "YYYY-MM-DD"
  = padZero (year date) 4 +:+ "-" +:+ padZero (month date) 2 +:+ "-" +:+
    padZero (day date) 2.
Proof.
  unfold render.
  assert (E : build_formatter "YYYY-MM-DD"
              = [PHandler (fun date => padZero (year date) 4); PText "-";
                 PHandler (fun date => padZero (month date) 2); PText "-";
                 PHandler (fun date => padZero (day date) 2)])
    by (vm_compute; reflexivity).
  rewrite E, !run_formatter_cons. cbn [part_text].
  change (run_formatter [] date) with "".
  now rewrite append_empty_r.
Qed.

Lemma render_ISO_TIME date :
  render date "HH:mm:ss"
  = padZero (hour date) 2 +:+ ":" +:+ padZero (minute date) 2 +:+ ":" +:+
    padZero (second date) 2.
Proof.
  unfold render.
  assert (E : build_formatter "HH:mm:ss"
              = [PHandler (fun date => padZero (hour date) 2); PText ":";
                 PHandler (fun date => padZero (minute date) 2); PText ":";
                 PHandler (fun date => padZero (second date) 2)])
    by (vm_compute; reflexivity).
  rewrite E, !run_formatter_cons. cbn [part_text].
  change (run_formatter [] date) with "".
  now rewrite append_empty_r.
Qed.

Lemma render_SQL date :
  render date "YYYY-MM-DD HH:mm:ss"
  = render date "YYYY-MM-DD" +:+ " " +:+ render date "HH:mm:ss".
Proof.
  rewrite render_ISO_DATE, render_ISO_TIME. unfold render.
  assert (E : build_formatter "YYYY-MM-DD HH:mm:ss"
              = [PHandler (fun date => padZero (year date) 4); PText "-";
                 PHandler (fun date => padZero (month date) 2); PText "-";
                 PHandler (fun date => padZero (day date) 2); PText " ";
                 PHandler (fun date => padZero (hour date) 2); PText ":";
                 PHandler (fun date => padZero (minute date) 2); PText ":";
                 PHandler (fun date => padZero (second date) 2)])
    by (vm_compute; reflexivity).
  rewrite E, !run_formatter_cons. cbn [part_text].
  change (run_formatter [] date) with "".
  now rewrite append_empty_r, !append_assoc.
Qed.

(** X30: the presets and [toISOString] agree.  On every reachable cache and
    for every value, [toISOString] is the text of the preset ISO_DATE, a
    [T], the text of the preset ISO_TIME, the milliseconds when they are
    not zero, and [Z]; and the preset SQL is the same two texts with a
    space between them. *)
Theorem presets_agree_with_toISOString
    (c : gmap string CompiledFormatter) (d : ChronoDate) :
  cache_reachable c ->
  exists isoDate isoTime,
    fst (format d "ISO_DATE" c) = Ok isoDate /\
    fst (format d "ISO_TIME" c) = Ok isoTime /\
    fst (format d "SQL" c) = Ok (isoDate +:+ " " +:+ isoTime) /\
    toISOString d
    = isoDate +:+ "T" +:+ isoTime +:+
      (if millisecond d >? 0 then "." +:+ padZero (millisecond d) 3 else "")
      +:+ "Z".
Proof.
  intros Hc.
  exists (render d "YYYY-MM-DD"), (render d "HH:mm:ss").
  split; [apply (format_renders c d "ISO_DATE" Hc); discriminate|].
  split; [apply (format_renders c d "ISO_TIME" Hc); discriminate|].
  split.
  { rewrite (format_renders c d "SQL" Hc) by discriminate.
    change (match lookup_key "SQL" FORMAT_PRESETS with
            | Some pat => pat
            | None => "SQL"
            end) with "YYYY-MM-DD HH:mm:ss".
    now rewrite render_SQL. }
  rewrite render_ISO_DATE, render_ISO_TIME.
  unfold toISOString. now rewrite !append_assoc.
Qed.

(** X30 on the empty cache, at a value with milliseconds. *)
Lemma presets_agree_with_toISOString_witness :
  let d := mkChronoDate 2025 1 15 10 30 45 123 (Some 1736937045123) "UTC" in
  exists isoDate isoTime,
    fst (format d "ISO_DATE" ∅) = Ok isoDate /\
    fst (format d "ISO_TIME" ∅) = Ok isoTime /\
    fst (format d "SQL" ∅) = Ok (isoDate +:+ " " +:+ isoTime) /\
    toISOString d
    = isoDate +:+ "T" +:+ isoTime +:+
      (if millisecond d >? 0 then "." +:+ padZero (millisecond d) 3 else "")
      +:+ "Z".
Proof.
  intros d. apply (presets_agree_with_toISOString ∅ d reachable_initial).
Defined.
